(** * healthkit: the data-processing pipeline of [src/data_processing.py]
      and the regimen summary of [scripts/refresh.py]

    A shallow embedding of the three pandas stages
    ([process_health_data], [process_workout_data], [process_final_data])
    and of the regimen box-plot summary computed in [refresh.main]; of the
    choice of the export archive, of the grouped workouts and of the weekly
    sleep summary of [refresh.main]; and of the configuration functions of
    [src/config.py].

    Conventions of the embedding.
    - A float64 column is a column of [option Q]: [None] is NaN (pandas'
      missing marker), [Some q] an exact rational.  Rounding is numpy's
      round-half-to-even on that rational.
    - An integer column ([astype(int)]) is a column of [Z].  The sum of the
      minute columns ([process_final_data], line 374) wraps around as int64
      addition does; the sums of a groupby are exact.
    - A pandas [Timestamp] is an instant in nanoseconds since the epoch
      together with its UTC offset; a [Timedelta] is a number of
      nanoseconds; a calendar date (a midnight [datetime64]) is a number of
      days since 1970-01-01.
    - [pd.to_datetime] and the string-to-float cast are parameters of the
      flatteners: one cell in, a value or a failure out.  A column parsed
      from texts that do not all carry the same UTC offset is no datetime
      column: pandas keeps it as objects (or refuses it), and the [.dt]
      accessor of the Record Flattener raises on it.
    - An update made in place through a selected column
      ([df[c].replace(..., inplace=True)], [df[c].fillna(..., inplace=True)])
      updates the frame, as in the pandas the code was written for.
    - A Python exception is a value of [PyExn]; every stage catches
      [Exception] and re-raises [DataProcessingError]. *)

From Stdlib Require Import List ZArith QArith Qround String Ascii Bool Lia Lqa.
From Stdlib Require Import Sorted Permutation.
From Stdlib Require OrderedTypeEx.
Import ListNotations.

Open Scope string_scope.
Open Scope Z_scope.

(* ================================================================== *)
(** ** Exceptions and results *)

Inductive PyExn : Type :=
| KeyError (key : string)
| ValueError (msg : string)
| TypeError (msg : string)
| DataProcessingError (cause : PyExn).

Inductive Result (A : Type) : Type :=
| Ok (a : A)
| Raise (e : PyExn).

Arguments Ok {A} a.
Arguments Raise {A} e.

Definition bind {A B : Type} (m : Result A) (k : A -> Result B) : Result B :=
  match m with
  | Ok a => k a
  | Raise e => Raise e
  end.

Notation "x <- m ;; k" := (bind m (fun x => k))
  (at level 61, m at next level, right associativity).

(** [try: body except Exception as e: raise DataProcessingError(str(e))] *)
Definition try_except {A : Type} (body : Result A) : Result A :=
  match body with
  | Ok a => Ok a
  | Raise e => Raise (DataProcessingError e)
  end.

Definition is_ok {A : Type} (m : Result A) : bool :=
  match m with Ok _ => true | Raise _ => false end.

Fixpoint mapM {A B : Type} (f : A -> Result B) (l : list A) : Result (list B) :=
  match l with
  | [] => Ok []
  | x :: xs => y <- f x ;; ys <- mapM f xs ;; Ok (y :: ys)
  end.

Fixpoint map2 {A B C : Type} (f : A -> B -> C) (l1 : list A) (l2 : list B)
  : list C :=
  match l1, l2 with
  | a :: l1', b :: l2' => f a b :: map2 f l1' l2'
  | _, _ => []
  end.

Fixpoint map3 {A B C D : Type} (f : A -> B -> C -> D)
  (l1 : list A) (l2 : list B) (l3 : list C) : list D :=
  match l1, l2, l3 with
  | a :: l1', b :: l2', c :: l3' => f a b c :: map3 f l1' l2' l3'
  | _, _, _ => []
  end.

(* ================================================================== *)
(** ** Strings *)

(** Python's [x[n:]]. *)
Fixpoint slice_from (n : nat) (x : string) : string :=
  match n, x with
  | O, _ => x
  | S _, EmptyString => EmptyString
  | S n', String _ x' => slice_from n' x'
  end.

(** Python's [v in l] for a cell that is a string or [None]: [None] is in no
    list of strings. *)
Definition cell_in (v : option string) (l : list string) : bool :=
  match v with
  | Some s => existsb (String.eqb s) l
  | None => false
  end.

(** Python's [' ' in s] and [s.split(' ', 1)]. *)
Fixpoint has_space (s : string) : bool :=
  match s with
  | EmptyString => false
  | String c s' => if Ascii.eqb c " "%char then true else has_space s'
  end.

Fixpoint split_space1 (s : string) : string * string :=
  match s with
  | EmptyString => (EmptyString, EmptyString)
  | String c s' =>
      if Ascii.eqb c " "%char then (EmptyString, s')
      else let '(a, b) := split_space1 s' in (String c a, b)
  end.

(* ================================================================== *)
(** ** Time *)

Definition Timedelta := Z.   (* nanoseconds *)

Record Timestamp : Type := {
  instant : Z;     (* nanoseconds since 1970-01-01T00:00:00Z *)
  utcoffset : Z    (* nanoseconds east of UTC *)
}.

Definition ns_per_second : Z := 1000000000.
Definition ns_per_day : Z := 86400 * ns_per_second.

(** [pd.Timedelta(hours=h)] *)
Definition Timedelta_hours (h : Z) : Timedelta := h * 3600 * ns_per_second.

(** [ts + td] *)
Definition ts_add (ts : Timestamp) (td : Timedelta) : Timestamp :=
  {| instant := instant ts + td; utcoffset := utcoffset ts |}.

(** [a - b] on two timestamps *)
Definition ts_sub (a b : Timestamp) : Timedelta := instant a - instant b.

(** [Timedelta.seconds]: the seconds component of the normalised
    (days, seconds, microseconds, nanoseconds) representation,
    [0 <= seconds < 86400]. *)
Definition td_seconds (td : Timedelta) : Z :=
  (td mod ns_per_day) / ns_per_second.

(** The whole elapsed time in seconds ([Timedelta.total_seconds()] without
    its fraction). *)
Definition td_whole_seconds (td : Timedelta) : Z := td / ns_per_second.

(** [ts.date()] then [pd.to_datetime]: the local calendar day, as days since
    the epoch. *)
Definition ts_date (ts : Timestamp) : Z :=
  (instant ts + utcoffset ts) / ns_per_day.

(** A column of timestamps is a datetime column when its cells share one
    UTC offset. *)
Definition uniform_offsets (c : list Timestamp) : bool :=
  match c with
  | [] => true
  | ts :: c' => forallb (fun ts' => utcoffset ts' =? utcoffset ts) c'
  end.

(** [pd.to_datetime(c.dt.date)] on a column of timestamps: the accessor
    raises on a column that is no datetime column (pandas' AttributeError,
    carried as the [TypeError] of [PyExn]). *)
Definition dt_date (c : list Timestamp) : Result (list Z) :=
  if uniform_offsets c then Ok (map ts_date c)
  else Raise (TypeError "Can only use .dt accessor with datetimelike values").

(** Days since the epoch of a proleptic Gregorian date. *)
Definition days_from_civil (y m d : Z) : Z :=
  let y' := if m <=? 2 then y - 1 else y in
  let era := y' / 400 in
  let yoe := y' - era * 400 in
  let mp := (m + 9) mod 12 in
  let doy := (153 * mp + 2) / 5 + d - 1 in
  let doe := yoe * 365 + yoe / 4 - yoe / 100 + doy in
  era * 146097 + doe - 719468.

(** [date.weekday()]: Monday is 0, Sunday is 6; 1970-01-01 was a Thursday. *)
Definition date_weekday (d : Z) : Z := (d + 3) mod 7.

(* ================================================================== *)
(** ** Floating-point columns as rationals *)

(** numpy's [rint]: round half to even. *)
Definition rint (x : Q) : Z :=
  let f := Qfloor x in
  match Qcompare (x - inject_Z f) (1 # 2) with
  | Lt => f
  | Gt => f + 1
  | Eq => if Z.even f then f else f + 1
  end.

(** [np.round(x, decimals)] for [decimals] in {0, 1}. *)
Definition np_round (x : Q) (decimals : nat) : Q :=
  match decimals with
  | O => inject_Z (rint x)
  | S _ => (inject_Z (rint (x * 10)) / 10)%Q
  end.

Definition col_round (decimals : nat) (c : list (option Q)) : list (option Q) :=
  map (option_map (fun x => np_round x decimals)) c.

(** [a + b] on float cells: NaN propagates. *)
Definition nan_add (a b : option Q) : option Q :=
  match a, b with
  | Some x, Some y => Some (x + y)%Q
  | _, _ => None
  end.

(* ================================================================== *)
(** ** The export tree *)

(** A [Record] element.  [type], [startDate] and [endDate] are mandatory
    attributes of the export format; [get] returns [None] for the others
    when they are absent. *)
Record RawRecord : Type := {
  r_type : string;
  r_sourceName : option string;
  r_sourceVersion : option string;
  r_unit : option string;
  r_value : option string;
  r_startDate : string;
  r_endDate : string
}.

Record WorkoutStatistics : Type := {
  stat_type : string;
  stat_sum : option string;
  stat_unit : option string
}.

Record MetadataEntry : Type := {
  meta_key : string;
  meta_value : string
}.

(** A [Workout] element; [workoutActivityType], [startDate] and [endDate]
    are mandatory in the export format. *)
Record RawWorkout : Type := {
  w_workoutActivityType : string;
  w_duration : option string;
  w_durationUnit : option string;
  w_startDate : string;
  w_endDate : string;
  w_statistics : list WorkoutStatistics;
  w_metadata : list MetadataEntry
}.

Record XmlRoot : Type := {
  findall_Record : list RawRecord;
  findall_Workout : list RawWorkout
}.

(* ================================================================== *)
(** ** NormalizedRecord: the frame returned by [process_health_data] *)

Record HealthFrame : Type := {
  nr_type : list string;
  nr_unit : list (option string);
  nr_value : list (option Q);
  nr_start_datetime : list Timestamp;
  nr_end_datetime : list Timestamp;
  nr_time_elapsed : list Timedelta;
  nr_start_date : list Z;
  nr_end_date : list Z;
  nr_value2 : list (option string)
}.

Definition sleep_categories : list string :=
  [ "HKCategoryValueSleepAnalysisInBed";
    "HKCategoryValueSleepAnalysisAsleepCore";
    "HKCategoryValueSleepAnalysisAsleepDeep";
    "HKCategoryValueSleepAnalysisAwake";
    "HKCategoryValueSleepAnalysisAsleepREM";
    "HKCategoryValueSleepAnalysisAsleepUnspecified" ].

(** The keys of [value_replacements]; every one maps to NaN. *)
Definition value_replacements : list string :=
  [ "HKCategoryValueSleepAnalysisInBed";
    "HKCategoryValueNotApplicable";
    "HKCategoryValueHeadphoneAudioExposureEventSevenDayLimit";
    "HKCategoryValueEnvironmentalAudioExposureEventMomentaryLimit";
    "HKCategoryValueSleepAnalysisAsleepCore";
    "HKCategoryValueSleepAnalysisAsleepDeep";
    "HKCategoryValueSleepAnalysisAwake";
    "HKCategoryValueSleepAnalysisAsleepREM";
    "HKCategoryValueSleepAnalysisAsleepUnspecified";
    "HKCategoryValueAppleStandHourIdle";
    "HKCategoryValueAppleStandHourStood" ].

(** A cell of an object column before the float cast. *)
Inductive ObjCell : Type :=
| ONaN
| ONone
| OStr (s : string).

Definition obj_of_attr (v : option string) : ObjCell :=
  match v with
  | Some s => OStr s
  | None => ONone
  end.

(** [Series.replace(value_replacements)] on one cell. *)
Definition replace_value (v : ObjCell) : ObjCell :=
  match v with
  | OStr s => if existsb (String.eqb s) value_replacements then ONaN else OStr s
  | other => other
  end.

(* ================================================================== *)
(** ** DataFrames with dynamically typed cells *)

Inductive Cell : Type :=
| CNaN
| CNone
| CNaT
| CStr (s : string)
| CFloat (q : Q)
| CInt (z : Z)
| CTimestamp (ts : Timestamp)
| CDate (d : Z).

Definition cell_of_attr (v : option string) : Cell :=
  match v with
  | Some s => CStr s
  | None => CNone
  end.

(** A Python dict with string keys, in insertion order. *)
Definition Dict := list (string * Cell).

Fixpoint dict_get (k : string) (d : Dict) : option Cell :=
  match d with
  | [] => None
  | (k', v) :: d' => if String.eqb k k' then Some v else dict_get k d'
  end.

Fixpoint dict_set (k : string) (v : Cell) (d : Dict) : Dict :=
  match d with
  | [] => [(k, v)]
  | (k', v') :: d' =>
      if String.eqb k k' then (k, v) :: d' else (k', v') :: dict_set k v d'
  end.

Record DataFrame : Type := {
  n_rows : nat;
  columns : list (string * list Cell)
}.

(** The keys of the dicts, in order of first appearance. *)
Definition keys_union (records : list Dict) : list string :=
  fold_left
    (fun acc d =>
       fold_left
         (fun acc k => if existsb (String.eqb k) acc then acc else (acc ++ [k])%list)
         (map fst d) acc)
    records [].

(** [pd.DataFrame(records)] for a list of dicts: a key missing from a dict
    gives NaN in that row; no dict gives a frame with no column. *)
Definition pd_DataFrame (records : list Dict) : DataFrame :=
  {| n_rows := List.length records;
     columns :=
       map (fun k =>
              (k, map (fun d => match dict_get k d with
                                | Some v => v
                                | None => CNaN
                                end) records))
           (keys_union records) |}.

Fixpoint lookup_col (col : string) (cs : list (string * list Cell))
  : option (list Cell) :=
  match cs with
  | [] => None
  | (k, c) :: cs' => if String.eqb col k then Some c else lookup_col col cs'
  end.

Fixpoint assign_col (col : string) (c : list Cell)
  (cs : list (string * list Cell)) : list (string * list Cell) :=
  match cs with
  | [] => [(col, c)]
  | (k, c') :: cs' =>
      if String.eqb col k then (k, c) :: cs' else (k, c') :: assign_col col c cs'
  end.

(** [col in df.columns] *)
Definition in_columns (col : string) (df : DataFrame) : bool :=
  match lookup_col col (columns df) with
  | Some _ => true
  | None => false
  end.

(** [df[col]] *)
Definition getitem (df : DataFrame) (col : string) : Result (list Cell) :=
  match lookup_col col (columns df) with
  | Some c => Ok c
  | None => Raise (KeyError col)
  end.

(** [df[col] = c] *)
Definition setitem (df : DataFrame) (col : string) (c : list Cell)
  : DataFrame :=
  {| n_rows := n_rows df; columns := assign_col col c (columns df) |}.

(** [df[col] = v] for a scalar [v] *)
Definition setitem_scalar (df : DataFrame) (col : string) (v : Cell)
  : DataFrame :=
  setitem df col (repeat v (n_rows df)).

(** [df.rename(columns=m, inplace=True)] *)
Definition rename (df : DataFrame) (m : list (string * string)) : DataFrame :=
  {| n_rows := n_rows df;
     columns :=
       map (fun kc =>
              match find (fun on => String.eqb (fst on) (fst kc)) m with
              | Some on => (snd on, snd kc)
              | None => kc
              end)
           (columns df) |}.

Fixpoint foldM {A S : Type} (f : S -> A -> Result S) (l : list A) (s : S)
  : Result S :=
  match l with
  | [] => Ok s
  | x :: xs => s' <- f s x ;; foldM f xs s'
  end.

(** The float-to-integer cast truncates toward zero. *)
Definition Qtrunc (q : Q) : Z := Z.quot (Qnum q) (Zpos (Qden q)).

Definition cell_slice_from (n : nat) (c : Cell) : Result Cell :=
  match c with
  | CStr s => Ok (CStr (slice_from n s))
  | _ => Raise (TypeError "object is not subscriptable")
  end.

Definition cell_round (decimals : nat) (c : Cell) : Cell :=
  match c with
  | CFloat q => CFloat (np_round q decimals)
  | other => other
  end.

(** [fillna(v)] on one cell. *)
Definition cell_fillna (v : Cell) (c : Cell) : Cell :=
  match c with
  | CNaN | CNone | CNaT => v
  | other => other
  end.

Definition cell_div (d : Q) (c : Cell) : Cell :=
  match c with
  | CFloat q => CFloat (q / d)
  | other => other
  end.

(** [replace({old: new})] on one cell. *)
Definition cell_replace (old new : string) (c : Cell) : Cell :=
  match c with
  | CStr s => if String.eqb s old then CStr new else CStr s
  | other => other
  end.

(** [.dt.date] followed by [pd.to_datetime] on one cell. *)
Definition cell_dt_date (c : Cell) : Result Cell :=
  match c with
  | CTimestamp ts => Ok (CDate (ts_date ts))
  | CNaT => Ok CNaT
  | _ => Raise (TypeError "Can only use .dt accessor with datetimelike values")
  end.

(** The timestamps of a column of cells. *)
Definition cell_timestamps (c : list Cell) : list Timestamp :=
  flat_map (fun x => match x with CTimestamp ts => [ts] | _ => [] end) c.

(** [pd.to_datetime(c.dt.date)] on a column of the workout frame: the
    accessor raises on a column whose timestamps do not share one UTC
    offset, which is no datetime column. *)
Definition column_dt_date (c : list Cell) : Result (list Cell) :=
  if uniform_offsets (cell_timestamps c) then mapM cell_dt_date c
  else Raise (TypeError "Can only use .dt accessor with datetimelike values").

Inductive NumType : Type := as_int | as_float.

Definition numeric_columns : list (string * (nat * NumType)) :=
  [ ("duration", (0%nat, as_int));
    ("distance_walking_running", (1%nat, as_float));
    ("elevation_ascended", (1%nat, as_float)) ].

Definition required_columns : list string :=
  [ "workout_activity_type"; "duration"; "distance_walking_running";
    "elevation_ascended"; "start_date"; "end_date" ].

Section Flatteners.

(** [pd.to_datetime] on one cell; [None] when the text is no timestamp. *)
Variable to_datetime : string -> option Timestamp.

(** The cast of a string cell to float; [None] when the text is no number. *)
Variable to_float : string -> option Q.

Definition pd_to_datetime (s : string) : Result Timestamp :=
  match to_datetime s with
  | Some ts => Ok ts
  | None => Raise (ValueError s)
  end.

(** [astype(float)] on one cell of an object column: [None] and NaN become
    NaN, a string is parsed. *)
Definition astype_float (v : ObjCell) : Result (option Q) :=
  match v with
  | ONaN | ONone => Ok None
  | OStr s =>
      match to_float s with
      | Some q => Ok (Some q)
      | None => Raise (ValueError s)
      end
  end.

(** The row-wise lambdas of lines 67-76: a sleep-category row is moved by
    four hours. *)
Definition adjust_sleep_time (ts : Timestamp) (value : option string)
  : Timestamp :=
  if cell_in value sleep_categories then ts_add ts (Timedelta_hours 4) else ts.

(** The row-wise lambdas of lines 107-115. *)
Definition sleep_duration_value (time_elapsed : Timedelta)
  (value2 : option string) (value : option Q) : option Q :=
  if cell_in value2 sleep_categories
  then Some (inject_Z (td_seconds time_elapsed))
  else value.

Definition sleep_duration_unit (value2 : option string) (unit : option string)
  : option string :=
  if cell_in value2 sleep_categories then Some "s" else unit.

Definition process_health_data (xml_root : XmlRoot) : Result HealthFrame :=
  try_except (
    let health_records := findall_Record xml_root in
    (* df = pd.DataFrame(health_records); a frame built from no record has
       no column, and [df.drop] of the two source columns fails. *)
    _ <- match health_records with
         | [] => Raise (KeyError "source_name")
         | _ :: _ => Ok tt
         end ;;
    let type := map r_type health_records in
    let unit := map r_unit health_records in
    let value := map r_value health_records in
    (* Convert datetime columns *)
    end_datetime <- mapM pd_to_datetime (map r_endDate health_records) ;;
    start_datetime <- mapM pd_to_datetime (map r_startDate health_records) ;;
    (* Adjust sleep times *)
    let end_datetime := map2 adjust_sleep_time end_datetime value in
    let start_datetime := map2 adjust_sleep_time start_datetime value in
    (* Calculate time elapsed *)
    let time_elapsed := map2 ts_sub end_datetime start_datetime in
    (* Extract dates *)
    start_date <- dt_date start_datetime ;;
    end_date <- dt_date end_datetime ;;
    (* Clean type column *)
    let type :=
      map (fun x => slice_from (String.length "HKCategoryTypeIdentifier") x)
          type in
    (* Process values *)
    let value2 := value in
    let value := map (fun v => replace_value (obj_of_attr v)) value in
    value <- mapM astype_float value ;;
    (* Calculate sleep duration *)
    let value := map3 sleep_duration_value time_elapsed value2 value in
    let unit := map2 sleep_duration_unit value2 unit in
    Ok {| nr_type := type;
          nr_unit := unit;
          nr_value := value;
          nr_start_datetime := start_datetime;
          nr_end_datetime := end_datetime;
          nr_time_elapsed := time_elapsed;
          nr_start_date := start_date;
          nr_end_date := end_date;
          nr_value2 := value2 |}).

(* ------------------------------------------------------------------ *)
(** *** The workout frame: a DataFrame whose set of columns is dynamic *)

Definition record_data (record : RawWorkout) : Dict :=
  let record_data :=
    [ ("workout_activity_type", CStr (w_workoutActivityType record));
      ("duration", cell_of_attr (w_duration record));
      ("duration_unit", cell_of_attr (w_durationUnit record));
      ("start_date", CStr (w_startDate record));
      ("end_date", CStr (w_endDate record)) ] in
  (* Extract statistics *)
  let record_data :=
    fold_left
      (fun record_data stat =>
         if String.eqb (stat_type stat)
              "HKQuantityTypeIdentifierDistanceWalkingRunning"
         then dict_set "distance_walking_running_unit"
                (cell_of_attr (stat_unit stat))
                (dict_set "distance_walking_running"
                   (cell_of_attr (stat_sum stat)) record_data)
         else record_data)
      (w_statistics record) record_data in
  (* Extract elevation data *)
  fold_left
    (fun record_data metadata =>
       if String.eqb (meta_key metadata) "HKElevationAscended"
       then
         let elevation_value := meta_value metadata in
         if has_space elevation_value
         then
           let '(value, unit) := split_space1 elevation_value in
           dict_set "elevation_ascended_unit" (CStr unit)
             (dict_set "elevation_ascended" (CStr value) record_data)
         else
           dict_set "elevation_ascended_unit" CNone
             (dict_set "elevation_ascended" (CStr elevation_value) record_data)
       else record_data)
    (w_metadata record) record_data.

(** [astype(float)] on one cell. *)
Definition cell_astype_float (c : Cell) : Result Cell :=
  match c with
  | CNaN | CNone => Ok CNaN
  | CStr s =>
      match to_float s with
      | Some q => Ok (CFloat q)
      | None => Raise (ValueError s)
      end
  | CFloat q => Ok (CFloat q)
  | CInt z => Ok (CFloat (inject_Z z))
  | _ => Raise (TypeError "float() argument must be a string or a number")
  end.

(** [astype(int)] on one cell of a float column: NaN has no integer. *)
Definition cell_astype_int (c : Cell) : Result Cell :=
  match c with
  | CFloat q => Ok (CInt (Qtrunc q))
  | CInt z => Ok (CInt z)
  | CNaN => Raise (ValueError "Cannot convert non-finite values to integer")
  | _ => Raise (TypeError "int() argument must be a string or a number")
  end.

Definition cell_astype (t : NumType) (c : Cell) : Result Cell :=
  match t with
  | as_int => cell_astype_int c
  | as_float => cell_astype_float c
  end.

(** [pd.to_datetime] on one cell of a column. *)
Definition cell_to_datetime (c : Cell) : Result Cell :=
  match c with
  | CStr s => ts <- pd_to_datetime s ;; Ok (CTimestamp ts)
  | CNaN | CNone | CNaT => Ok CNaT
  | CTimestamp ts => Ok (CTimestamp ts)
  | _ => Raise (TypeError "to_datetime")
  end.

(** One turn of the loop over [numeric_columns]. *)
Definition process_numeric_column (df : DataFrame)
  (entry : string * (nat * NumType)) : Result DataFrame :=
  let '(col, (round, type)) := entry in
  if in_columns col df
  then
    c <- getitem df col ;;
    c <- mapM cell_astype_float c ;;
    c <- mapM (cell_astype type) (map (cell_round round) c) ;;
    Ok (setitem df col c)
  else Ok df.

(** One turn of the loop over [datetime_columns]. *)
Definition process_datetime_column (df : DataFrame) (col : string)
  : Result DataFrame :=
  c <- getitem df col ;;
  c <- mapM cell_to_datetime c ;;
  Ok (setitem df col c).

Definition process_workout_data (xml_root : XmlRoot) : Result DataFrame :=
  try_except (
    let workout_records := map record_data (findall_Workout xml_root) in
    let df := pd_DataFrame workout_records in
    (* Clean activity type *)
    c <- getitem df "workout_activity_type" ;;
    c <- mapM (cell_slice_from (String.length "HKWorkoutActivityType")) c ;;
    let df := setitem df "workout_activity_type" c in
    (* Process numeric columns *)
    df <- foldM process_numeric_column numeric_columns df ;;
    (* Handle missing values *)
    c <- getitem df "elevation_ascended" ;;
    let df := setitem df "elevation_ascended" (map (cell_fillna (CFloat 0)) c) in
    c <- getitem df "elevation_ascended" ;;
    c <- mapM cell_astype_float c ;;
    let df :=
      setitem df "elevation_ascended"
        (map (cell_round 1) (map (cell_div 100) c)) in
    c <- getitem df "elevation_ascended_unit" ;;
    let df :=
      setitem df "elevation_ascended_unit" (map (cell_replace "cm" "m") c) in
    (* Process datetime columns *)
    df <- foldM process_datetime_column ["start_date"; "end_date"] df ;;
    let df :=
      rename df [("start_date", "start_datetime");
                 ("end_date", "end_datetime")] in
    (* Extract dates *)
    c <- getitem df "start_datetime" ;;
    c <- column_dt_date c ;;
    let df := setitem df "start_date" c in
    c <- getitem df "end_datetime" ;;
    c <- column_dt_date c ;;
    let df := setitem df "end_date" c in
    (* Ensure all required columns exist *)
    let df :=
      fold_left
        (fun df col =>
           if in_columns col df then df
           else setitem_scalar df col
                  (if existsb (String.eqb col)
                        ["duration"; "distance_walking_running";
                         "elevation_ascended"]
                   then CInt 0 else CNone))
        required_columns df in
    Ok df).

End Flatteners.

(* ================================================================== *)
(** ** The Daily Aggregator: [process_final_data] *)

(** NormalizedWorkout, as the aggregator reads it: the columns it selects
    from [workout_df], with their types after the flattener's casts. *)
Record WorkoutFrame : Type := {
  nw_workout_activity_type : list string;
  nw_duration : list Z;
  nw_distance_walking_running : list (option Q);
  nw_elevation_ascended : list (option Q);
  nw_end_date : list Z
}.

(** DailyFact, column by column. *)
Record DailyFact : Type := {
  EndDate : list Z;
  weekday : list string;
  CoreSleepHours : list (option Q);
  DeepSleepHours : list (option Q);
  REMSleepHours : list (option Q);
  TotalSleepHours : list (option Q);
  CoreSleepHoursNextNight : list (option Q);
  DeepSleepHoursNextNight : list (option Q);
  REMSleepHoursNextNight : list (option Q);
  TotalSleepHoursNextNight : list (option Q);
  AvgRestingHeartRateBPM : list (option Q);
  ActiveCaloriesBurned : list (option Q);
  BasalCaloriesBurned : list (option Q);
  TotalCaloriesBurned : list (option Q);
  StrengthTrainingMinutes : list Z;
  RunningMinutes : list Z;
  HIITMinutes : list Z;
  CoreTrainingMinutes : list Z;
  RunningMiles : list Q;
  RunningMetersAscended : list Q;
  TotalWorkoutMinutes : list Z;
  StrengthTrained : list Z;
  Ran : list Z;
  HIITTrained : list Z;
  CoreTrained : list Z;
  Exercised : list Z;
  WeekEndingDate : list Z
}.

(** [np.unique] on a column of dates: the distinct values, ascending. *)
Fixpoint insert_unique (x : Z) (l : list Z) : list Z :=
  match l with
  | [] => [x]
  | y :: l' =>
      if x <? y then x :: l
      else if x =? y then l
      else y :: insert_unique x l'
  end.

Definition np_unique (l : list Z) : list Z := fold_right insert_unique [] l.

(** [np.sort] *)
Fixpoint insert_sorted (x : Z) (l : list Z) : list Z :=
  match l with
  | [] => [x]
  | y :: l' => if x <=? y then x :: l else y :: insert_sorted x l'
  end.

Definition np_sort (l : list Z) : list Z := fold_right insert_sorted [] l.

Definition weekday_map : list (Z * string) :=
  [ (0, "Monday"); (1, "Tuesday"); (2, "Wednesday"); (3, "Thursday");
    (4, "Friday"); (5, "Saturday"); (6, "Sunday") ].

(** [replace(weekday_map)] on one cell; [date.weekday()] is always one of
    the seven keys. *)
Definition replace_weekday (n : Z) : string :=
  match find (fun kv => fst kv =? n) weekday_map with
  | Some kv => snd kv
  | None => ""
  end.

(** [groupby('end_date').sum()] with the values reduced by [sum]: one row
    per distinct date, dates ascending. *)
Definition groupby_sum {V W : Type} (sum : list V -> W) (rows : list (Z * V))
  : list (Z * W) :=
  map (fun d => (d, sum (map snd (filter (fun r => fst r =? d) rows))))
      (np_unique (map fst rows)).

(** The sum of a float column skips NaN; the sum of no value is 0. *)
Definition sum_skipna (l : list (option Q)) : Q :=
  fold_left (fun acc v => match v with
                          | Some x => (acc + x)%Q
                          | None => acc
                          end) l 0%Q.

Definition sum_int (l : list Z) : Z := fold_left Z.add l 0.

(** [df_final.merge(right, on='end_date', how='left')], read off as the
    column it adds: [right] comes from a groupby, so each date occurs in it
    at most once and every spine row is kept once; a date missing from
    [right] gets NaN ([None]). *)
Definition merge_left {W : Type} (end_date : list Z) (right : list (Z * W))
  : list (option W) :=
  map (fun d => option_map snd (find (fun r => fst r =? d) right)) end_date.

(** [fillna(v)] on a merged column. *)
Definition fillna {W : Type} (v : W) (c : list (option W)) : list W :=
  map (fun x => match x with Some w => w | None => v end) c.

(** [Series.shift(-1)]: every value moves one row up, the last row gets
    NaN. *)
Definition shift_m1 {W : Type} (c : list (option W)) : list (option W) :=
  match c with
  | [] => []
  | _ :: c' => c' ++ [None]
  end.

(** [frame[mask]] on one column. *)
Definition boolean_index {W : Type} (mask : list bool) (c : list W) : list W :=
  map snd (filter fst (combine mask c)).

(** [a + b] on columns. *)
Definition col_add (a b : list (option Q)) : list (option Q) :=
  map2 nan_add a b.

(** int64 arithmetic: a result outside [-2^63, 2^63) wraps around. *)
Definition int64_max : Z := 9223372036854775807.

Definition wrap64 (z : Z) : Z :=
  (z + 9223372036854775808) mod 18446744073709551616 - 9223372036854775808.

(** [a + b] on int64 columns. *)
Definition col_add_int (a b : list Z) : list Z :=
  map2 (fun x y => wrap64 (x + y)) a b.

(** Python's [sum(cols)]: [0 + c1 + c2 + ...], left to right, each sum an
    int64 column. *)
Definition sum_columns (cols : list (list Z)) : list Z :=
  match cols with
  | [] => []
  | c :: cs => fold_left col_add_int cs (map (fun x => wrap64 (0 + x)) c)
  end.

(** [lambda x: 1 if x > 0 else 0] *)
Definition indicator (x : Z) : Z := if x >? 0 then 1 else 0.

(** One turn of the loop over [sleep_metrics]. *)
Definition sleep_metric (health_df : HealthFrame) (end_date : list Z)
  (category : string) : list (option Q) :=
  let selected :=
    filter (fun r => match fst r with
                     | Some v => String.eqb v category
                     | None => false
                     end)
      (combine (nr_value2 health_df)
               (combine (nr_end_date health_df) (nr_value health_df))) in
  let value := merge_left end_date (groupby_sum sum_skipna (map snd selected)) in
  map (option_map (fun v => np_round (v / 3600) 1)) value.

(** One turn of the loop over [health_metrics]. *)
Definition health_metric (health_df : HealthFrame) (end_date : list Z)
  (calories : bool) (metric_type : string) : list (option Q) :=
  let selected :=
    filter (fun r => String.eqb (fst r) metric_type)
      (combine (nr_type health_df)
               (combine (nr_end_date health_df) (nr_value health_df))) in
  let value := merge_left end_date (groupby_sum sum_skipna (map snd selected)) in
  if calories then map (option_map (fun v => np_round v 0)) value else value.

(** [frame.groupby(['workout_activity_type', 'end_date']).sum()
      .loc[workout_type].reset_index()]: the label must be one of the
    group keys. *)
Definition groupby_loc {V W : Type} (sum : list V -> W)
  (rows : list (string * (Z * V))) (workout_type : string)
  : Result (list (Z * W)) :=
  let selected := filter (fun r => String.eqb (fst r) workout_type) rows in
  match selected with
  | [] => Raise (KeyError workout_type)
  | _ :: _ => Ok (groupby_sum sum (map snd selected))
  end.

(** One turn of the loop over [workout_types]. *)
Definition workout_minutes (workout_df : WorkoutFrame) (end_date : list Z)
  (workout_type : string) : Result (list Z) :=
  right <- groupby_loc sum_int
             (combine (nw_workout_activity_type workout_df)
                (combine (nw_end_date workout_df) (nw_duration workout_df)))
             workout_type ;;
  Ok (fillna 0 (merge_left end_date right)).

(** One turn of the loop over [running_metrics]. *)
Definition running_metric (workout_df : WorkoutFrame) (end_date : list Z)
  (col : list (option Q)) : Result (list Q) :=
  right <- groupby_loc sum_skipna
             (combine (nw_workout_activity_type workout_df)
                (combine (nw_end_date workout_df) col))
             "Running" ;;
  Ok (fillna 0%Q (merge_left end_date right)).

Definition process_final_data (health_df : HealthFrame)
  (workout_df : WorkoutFrame) : Result DailyFact :=
  try_except (
    (* Create base DataFrame *)
    let end_date := np_sort (np_unique (nr_end_date health_df)) in
    let weekday := map (fun x => replace_weekday (date_weekday x)) end_date in
    (* Process sleep metrics *)
    let CoreSleepHours :=
      sleep_metric health_df end_date "HKCategoryValueSleepAnalysisAsleepCore" in
    let DeepSleepHours :=
      sleep_metric health_df end_date "HKCategoryValueSleepAnalysisAsleepDeep" in
    let REMSleepHours :=
      sleep_metric health_df end_date "HKCategoryValueSleepAnalysisAsleepREM" in
    (* Calculate total sleep *)
    let TotalSleepHours :=
      col_add (col_add CoreSleepHours DeepSleepHours) REMSleepHours in
    (* Calculate next night's sleep *)
    let CoreSleepHoursNextNight := shift_m1 CoreSleepHours in
    let DeepSleepHoursNextNight := shift_m1 DeepSleepHours in
    let REMSleepHoursNextNight := shift_m1 REMSleepHours in
    let TotalSleepHoursNextNight := shift_m1 TotalSleepHours in
    (* Process health metrics *)
    let AvgRestingHeartRateBPM :=
      health_metric health_df end_date false "RestingHeartRate" in
    let ActiveCaloriesBurned :=
      health_metric health_df end_date true "ActiveEnergyBurned" in
    let BasalCaloriesBurned :=
      health_metric health_df end_date true "BasalEnergyBurned" in
    (* Calculate total calories *)
    let TotalCaloriesBurned := col_add ActiveCaloriesBurned BasalCaloriesBurned in
    (* Process workout data *)
    StrengthTrainingMinutes <-
      workout_minutes workout_df end_date "TraditionalStrengthTraining" ;;
    RunningMinutes <- workout_minutes workout_df end_date "Running" ;;
    HIITMinutes <-
      workout_minutes workout_df end_date "HighIntensityIntervalTraining" ;;
    CoreTrainingMinutes <- workout_minutes workout_df end_date "CoreTraining" ;;
    (* Process running metrics *)
    RunningMiles <-
      running_metric workout_df end_date
        (nw_distance_walking_running workout_df) ;;
    RunningMetersAscended <-
      running_metric workout_df end_date (nw_elevation_ascended workout_df) ;;
    (* Calculate total workout time *)
    let TotalWorkoutMinutes :=
      sum_columns [StrengthTrainingMinutes; RunningMinutes;
                   CoreTrainingMinutes; HIITMinutes] in
    (* Create binary indicators *)
    let StrengthTrained := map indicator StrengthTrainingMinutes in
    let Ran := map indicator RunningMinutes in
    let HIITTrained := map indicator HIITMinutes in
    let CoreTrained := map indicator CoreTrainingMinutes in
    let Exercised := map indicator TotalWorkoutMinutes in
    (* Calculate week ending date *)
    let WeekEndingDate := map (fun d => d + (6 - date_weekday d)) end_date in
    (* Filter data *)
    let mask := map (fun d => d >=? days_from_civil 2024 1 1) end_date in
    Ok {| EndDate := boolean_index mask end_date;
          weekday := boolean_index mask weekday;
          CoreSleepHours := boolean_index mask CoreSleepHours;
          DeepSleepHours := boolean_index mask DeepSleepHours;
          REMSleepHours := boolean_index mask REMSleepHours;
          TotalSleepHours := boolean_index mask TotalSleepHours;
          CoreSleepHoursNextNight := boolean_index mask CoreSleepHoursNextNight;
          DeepSleepHoursNextNight := boolean_index mask DeepSleepHoursNextNight;
          REMSleepHoursNextNight := boolean_index mask REMSleepHoursNextNight;
          TotalSleepHoursNextNight :=
            boolean_index mask TotalSleepHoursNextNight;
          AvgRestingHeartRateBPM := boolean_index mask AvgRestingHeartRateBPM;
          ActiveCaloriesBurned := boolean_index mask ActiveCaloriesBurned;
          BasalCaloriesBurned := boolean_index mask BasalCaloriesBurned;
          TotalCaloriesBurned := boolean_index mask TotalCaloriesBurned;
          StrengthTrainingMinutes := boolean_index mask StrengthTrainingMinutes;
          RunningMinutes := boolean_index mask RunningMinutes;
          HIITMinutes := boolean_index mask HIITMinutes;
          CoreTrainingMinutes := boolean_index mask CoreTrainingMinutes;
          RunningMiles := boolean_index mask RunningMiles;
          RunningMetersAscended := boolean_index mask RunningMetersAscended;
          TotalWorkoutMinutes := boolean_index mask TotalWorkoutMinutes;
          StrengthTrained := boolean_index mask StrengthTrained;
          Ran := boolean_index mask Ran;
          HIITTrained := boolean_index mask HIITTrained;
          CoreTrained := boolean_index mask CoreTrained;
          Exercised := boolean_index mask Exercised;
          WeekEndingDate := boolean_index mask WeekEndingDate |}).

(* ================================================================== *)
(** ** The regimen summary of [refresh.main] (lines 143-180) *)

(** The row that [agg(Min=..., Q1=..., Median=..., Q3=..., Max=...)],
    transposed, contributes to [regimen_dist]. *)
Record FiveNumber : Type := {
  Min : Q;
  Q1 : Q;
  Median : Q;
  Q3 : Q;
  Max : Q
}.

(** [summary] is [None] for a cohort with no row: there is no number to
    summarise (pandas has only NaN, or an error, to offer there). *)
Record RegimenRow : Type := {
  summary : option FiveNumber;
  Regimen : string
}.

Definition list_min (x : list Z) : Z :=
  match x with
  | [] => 0
  | a :: x' => fold_left Z.min x' a
  end.

Definition list_max (x : list Z) : Z :=
  match x with
  | [] => 0
  | a :: x' => fold_left Z.max x' a
  end.

(** The element of rank [i] (from 0) of a sorted column. *)
Definition rank (s : list Z) (i : Z) : Z := nth (Z.to_nat i) s 0.

(** [Series.quantile(q)] with the default linear interpolation: the value at
    the virtual index [q * (n - 1)] of the sorted values, interpolated
    between its two neighbours (the upper one clipped to the last rank). *)
Definition lerp (s : list Z) (pos : Q) : Q :=
  let n := Z.of_nat (List.length s) in
  let lo := Qfloor pos in
  let hi := Z.min (lo + 1) (n - 1) in
  (inject_Z (rank s lo)
   + (inject_Z (rank s hi) - inject_Z (rank s lo)) * (pos - inject_Z lo))%Q.

Definition quantile (x : list Z) (q : Q) : Q :=
  let s := np_sort x in
  lerp s (q * inject_Z (Z.of_nat (List.length s) - 1))%Q.

(** [Series.median()]: the middle value, or the mean of the two middle
    values. *)
Definition median (x : list Z) : Q :=
  let s := np_sort x in
  let n := Z.of_nat (List.length s) in
  if Z.odd n then inject_Z (rank s (n / 2))
  else ((inject_Z (rank s (n / 2 - 1)) + inject_Z (rank s (n / 2))) / 2)%Q.

Definition agg (x : list Z) : option FiveNumber :=
  match x with
  | [] => None
  | _ :: _ =>
      Some {| Min := inject_Z (list_min x);
              Q1 := quantile x (1 # 4);
              Median := median x;
              Q3 := quantile x (3 # 4);
              Max := inject_Z (list_max x) |}
  end.

(** The date that pandas reads in ['12-31-2024']. *)
Definition regimen_cutoff : Z := days_from_civil 2024 12 31.

Definition in_regimen_a (r : Z * Z) : bool :=
  (fst r <? regimen_cutoff) && (snd r >? 0).

Definition in_regimen_b (r : Z * Z) : bool :=
  (fst r >=? regimen_cutoff) && (snd r >? 0).

Definition regimen_a_dist (df_final : DailyFact) : RegimenRow :=
  let regimen_a_dist :=
    combine (EndDate df_final) (StrengthTrainingMinutes df_final) in
  let regimen_a_dist := filter in_regimen_a regimen_a_dist in
  {| summary := agg (map snd regimen_a_dist); Regimen := "A" |}.

Definition regimen_b_dist (df_final : DailyFact) : RegimenRow :=
  let regimen_b_dist :=
    combine (EndDate df_final) (StrengthTrainingMinutes df_final) in
  let regimen_b_dist := filter in_regimen_b regimen_b_dist in
  {| summary := agg (map snd regimen_b_dist); Regimen := "B" |}.

(** [pd.concat([regimen_a_dist, regimen_b_dist])] *)
Definition regimen_dist (df_final : DailyFact) : list RegimenRow :=
  [regimen_a_dist df_final; regimen_b_dist df_final].

(* ================================================================== *)
(** ** Readers of the export's own text formats

    They instantiate the two parameters of the flatteners on the texts the
    export is made of: timestamps written [YYYY-MM-DD HH:MM:SS +ZZZZ] and
    plain decimal numbers. *)

Definition digit (c : ascii) : option Z :=
  let n := Z.of_nat (nat_of_ascii c) in
  if (48 <=? n) && (n <=? 57) then Some (n - 48) else None.

Fixpoint digits (acc : Z) (s : string) : option Z :=
  match s with
  | EmptyString => Some acc
  | String c s' =>
      match digit c with
      | Some d => digits (acc * 10 + d) s'
      | None => None
      end
  end.

Definition number (s : string) : option Z :=
  match s with
  | EmptyString => None
  | _ => digits 0 s
  end.

Definition opt_bind {A B : Type} (m : option A) (k : A -> option B)
  : option B :=
  match m with
  | Some a => k a
  | None => None
  end.

Definition export_to_datetime (s : string) : option Timestamp :=
  if negb (String.length s =? 25)%nat then None
  else
    opt_bind (number (substring 0 4 s)) (fun y =>
    opt_bind (number (substring 5 2 s)) (fun mo =>
    opt_bind (number (substring 8 2 s)) (fun d =>
    opt_bind (number (substring 11 2 s)) (fun h =>
    opt_bind (number (substring 14 2 s)) (fun mi =>
    opt_bind (number (substring 17 2 s)) (fun se =>
    opt_bind (number (substring 21 2 s)) (fun oh =>
    opt_bind (number (substring 23 2 s)) (fun om =>
      let sign := if String.eqb (substring 20 1 s) "-" then -1 else 1 in
      let local := days_from_civil y mo d * 86400 + h * 3600 + mi * 60 + se in
      let offset := sign * (oh * 3600 + om * 60) in
      Some {| instant := (local - offset) * ns_per_second;
              utcoffset := offset * ns_per_second |})))))))).

Fixpoint split_dot (s : string) : string * option string :=
  match s with
  | EmptyString => (EmptyString, None)
  | String c s' =>
      if Ascii.eqb c "."%char then (EmptyString, Some s')
      else let '(a, b) := split_dot s' in (String c a, b)
  end.

Definition decimal_to_float (s : string) : option Q :=
  let '(neg, body) :=
    match s with
    | String "-"%char s' => (true, s')
    | _ => (false, s)
    end in
  let '(whole, frac) := split_dot body in
  opt_bind (number whole) (fun w =>
    match frac with
    | None => Some (inject_Z (if neg then - w else w))
    | Some f =>
        opt_bind (digits 0 f) (fun n =>
          let scale := Z.to_pos (10 ^ Z.of_nat (String.length f)) in
          let v := w * Zpos scale + n in
          Some ((if neg then - v else v) # scale))
    end).

(* ================================================================== *)
(** ** Notions used to state the properties *)

(** A column of texts is read as a datetime column: every text parses and
    the timestamps share one UTC offset. *)
Definition datetime_column (m : Result (list Timestamp)) : bool :=
  match m with
  | Ok c => uniform_offsets c
  | Raise _ => false
  end.

(** The same export with every [type] attribute rewritten by [f]. *)
Definition retype (f : string -> string) (xml_root : XmlRoot) : XmlRoot :=
  {| findall_Record :=
       map (fun r => {| r_type := f (r_type r);
                        r_sourceName := r_sourceName r;
                        r_sourceVersion := r_sourceVersion r;
                        r_unit := r_unit r;
                        r_value := r_value r;
                        r_startDate := r_startDate r;
                        r_endDate := r_endDate r |})
           (findall_Record xml_root);
     findall_Workout := findall_Workout xml_root |}.

(** The date spine of [process_final_data]. *)
Definition spine (health_df : HealthFrame) : list Z :=
  np_sort (np_unique (nr_end_date health_df)).

(** The reporting window of [process_final_data], as a mask on the spine. *)
Definition reporting_mask (health_df : HealthFrame) : list bool :=
  map (fun d => d >=? days_from_civil 2024 1 1) (spine health_df).

Definition core_hours (health_df : HealthFrame) : list (option Q) :=
  sleep_metric health_df (spine health_df)
    "HKCategoryValueSleepAnalysisAsleepCore".

Definition deep_hours (health_df : HealthFrame) : list (option Q) :=
  sleep_metric health_df (spine health_df)
    "HKCategoryValueSleepAnalysisAsleepDeep".

Definition rem_hours (health_df : HealthFrame) : list (option Q) :=
  sleep_metric health_df (spine health_df)
    "HKCategoryValueSleepAnalysisAsleepREM".

Definition monotonic (f : FiveNumber) : Prop :=
  (Min f <= Q1 f)%Q /\ (Q1 f <= Median f)%Q /\
  (Median f <= Q3 f)%Q /\ (Q3 f <= Max f)%Q.

(** The frame that the regimen summary reads: one row per day, its date and
    its strength-training minutes. *)
Definition regimen_rows (df_final : DailyFact) : list (Z * Z) :=
  combine (EndDate df_final) (StrengthTrainingMinutes df_final).

Definition lacks_elevation (df : DataFrame) : Prop :=
  lookup_col "elevation_ascended" (columns df) = None.

(* ================================================================== *)
(** ** Sample exports, used to run the stages *)

Definition mk_record (type : string) (unit value : option string)
  (startDate endDate : string) : RawRecord :=
  {| r_type := type;
     r_sourceName := Some "Watch";
     r_sourceVersion := None;
     r_unit := unit;
     r_value := value;
     r_startDate := startDate;
     r_endDate := endDate |}.

Definition sleep_type : string := "HKCategoryTypeIdentifierSleepAnalysis".

Definition night_export : XmlRoot :=
  {| findall_Record :=
       [ mk_record sleep_type None (Some "HKCategoryValueSleepAnalysisInBed")
           "2024-03-04 21:30:00 -0500" "2024-03-05 05:30:00 -0500";
         mk_record sleep_type None (Some "HKCategoryValueSleepAnalysisAsleepCore")
           "2024-03-04 22:00:00 -0500" "2024-03-05 00:00:00 -0500";
         mk_record sleep_type None (Some "HKCategoryValueSleepAnalysisAsleepDeep")
           "2024-03-05 00:00:00 -0500" "2024-03-05 01:00:00 -0500";
         mk_record sleep_type None (Some "HKCategoryValueSleepAnalysisAsleepREM")
           "2024-03-05 01:00:00 -0500" "2024-03-05 02:30:00 -0500";
         mk_record "HKQuantityTypeIdentifierRestingHeartRate"
           (Some "count/min") (Some "58.5")
           "2024-03-05 09:00:00 -0500" "2024-03-05 09:00:00 -0500";
         mk_record "VO2Max" (Some "mL/min/kg") (Some "41")
           "2024-03-06 10:00:00 -0500" "2024-03-06 10:05:00 -0500" ];
     findall_Workout := [] |}.

Definition empty_health_frame : HealthFrame :=
  {| nr_type := []; nr_unit := []; nr_value := [];
     nr_start_datetime := []; nr_end_datetime := []; nr_time_elapsed := [];
     nr_start_date := []; nr_end_date := []; nr_value2 := [] |}.

Definition frame_of (m : Result HealthFrame) : HealthFrame :=
  match m with
  | Ok df => df
  | Raise _ => empty_health_frame
  end.

Definition night_frame : HealthFrame :=
  Eval vm_compute in
    frame_of (process_health_data export_to_datetime decimal_to_float
                night_export).

(** A Core segment that lasts 26 hours and a half. *)
Definition long_sleep_export : XmlRoot :=
  {| findall_Record :=
       [ mk_record sleep_type None (Some "HKCategoryValueSleepAnalysisAsleepCore")
           "2024-03-04 22:00:00 -0500" "2024-03-06 00:30:00 -0500" ];
     findall_Workout := [] |}.

Definition running_session : RawWorkout :=
  {| w_workoutActivityType := "HKWorkoutActivityTypeRunning";
     w_duration := Some "31.6";
     w_durationUnit := Some "min";
     w_startDate := "2024-03-05 07:00:00 -0500";
     w_endDate := "2024-03-05 07:31:36 -0500";
     w_statistics :=
       [ {| stat_type := "HKQuantityTypeIdentifierDistanceWalkingRunning";
            stat_sum := Some "3.14";
            stat_unit := Some "mi" |} ];
     w_metadata :=
       [ {| meta_key := "HKElevationAscended"; meta_value := "250 cm" |} ] |}.

Definition strength_session : RawWorkout :=
  {| w_workoutActivityType := "HKWorkoutActivityTypeTraditionalStrengthTraining";
     w_duration := Some "45";
     w_durationUnit := Some "min";
     w_startDate := "2024-03-05 17:00:00 -0500";
     w_endDate := "2024-03-05 17:45:00 -0500";
     w_statistics := [];
     w_metadata := [] |}.

Definition mk_sleep (stage startDate endDate : string) : RawRecord :=
  mk_record sleep_type None
    (Some ("HKCategoryValueSleepAnalysisAsleep" ++ stage)) startDate endDate.

Definition week_export : XmlRoot :=
  {| findall_Record :=
       [ mk_sleep "Core" "2023-12-30 23:00:00 -0500" "2023-12-31 01:00:00 -0500";
         mk_sleep "Deep" "2023-12-31 01:00:00 -0500" "2023-12-31 02:00:00 -0500";
         mk_sleep "REM" "2023-12-31 02:00:00 -0500" "2023-12-31 03:30:00 -0500";
         mk_sleep "Core" "2023-12-31 23:00:00 -0500" "2024-01-01 02:00:00 -0500";
         mk_sleep "Deep" "2024-01-01 02:00:00 -0500" "2024-01-01 03:00:00 -0500";
         mk_record "HKQuantityTypeIdentifierRestingHeartRate"
           (Some "count/min") (Some "57")
           "2024-01-01 09:00:00 -0500" "2024-01-01 09:00:00 -0500";
         mk_sleep "Core" "2024-01-01 23:30:00 -0500" "2024-01-02 02:00:00 -0500";
         mk_sleep "Deep" "2024-01-02 02:00:00 -0500" "2024-01-02 02:30:00 -0500";
         mk_sleep "REM" "2024-01-02 02:30:00 -0500" "2024-01-02 03:30:00 -0500" ];
     findall_Workout := [] |}.

Definition week_frame : HealthFrame :=
  Eval vm_compute in
    frame_of (process_health_data export_to_datetime decimal_to_float
                week_export).

Definition week_workouts : WorkoutFrame :=
  {| nw_workout_activity_type :=
       [ "TraditionalStrengthTraining"; "Running";
         "HighIntensityIntervalTraining"; "CoreTraining" ];
     nw_duration := [45; 20; 10; 15];
     nw_distance_walking_running := [None; Some (31 # 10); None; None];
     nw_elevation_ascended := [Some 0; Some (25 # 10); Some 0; Some 0]%Q;
     nw_end_date :=
       [ days_from_civil 2024 1 1; days_from_civil 2024 1 2;
         days_from_civil 2024 1 2; days_from_civil 2023 12 31 ] |}.

(** The same workouts, with a strength session and a run of 2^62 minutes
    each on the first day. *)
Definition long_workouts : WorkoutFrame :=
  {| nw_workout_activity_type :=
       [ "TraditionalStrengthTraining"; "Running";
         "HighIntensityIntervalTraining"; "CoreTraining" ];
     nw_duration := [4611686018427387904; 4611686018427387904; 10; 15];
     nw_distance_walking_running := [None; Some (31 # 10); None; None];
     nw_elevation_ascended := [Some 0; Some (25 # 10); Some 0; Some 0]%Q;
     nw_end_date :=
       [ days_from_civil 2024 1 1; days_from_civil 2024 1 1;
         days_from_civil 2024 1 2; days_from_civil 2023 12 31 ] |}.

(** The same workouts, without the one interval-training session. *)
Definition workouts_without_hiit : WorkoutFrame :=
  {| nw_workout_activity_type :=
       [ "TraditionalStrengthTraining"; "Running"; "CoreTraining" ];
     nw_duration := [45; 20; 15];
     nw_distance_walking_running := [None; Some (31 # 10); None];
     nw_elevation_ascended := [Some 0; Some (25 # 10); Some 0]%Q;
     nw_end_date :=
       [ days_from_civil 2024 1 1; days_from_civil 2024 1 2;
         days_from_civil 2023 12 31 ] |}.

Definition empty_daily_fact : DailyFact :=
  {| EndDate := []; weekday := [];
     CoreSleepHours := []; DeepSleepHours := []; REMSleepHours := [];
     TotalSleepHours := [];
     CoreSleepHoursNextNight := []; DeepSleepHoursNextNight := [];
     REMSleepHoursNextNight := []; TotalSleepHoursNextNight := [];
     AvgRestingHeartRateBPM := []; ActiveCaloriesBurned := [];
     BasalCaloriesBurned := []; TotalCaloriesBurned := [];
     StrengthTrainingMinutes := []; RunningMinutes := []; HIITMinutes := [];
     CoreTrainingMinutes := []; RunningMiles := [];
     RunningMetersAscended := []; TotalWorkoutMinutes := [];
     StrengthTrained := []; Ran := []; HIITTrained := []; CoreTrained := [];
     Exercised := []; WeekEndingDate := [] |}.

Definition fact_of (m : Result DailyFact) : DailyFact :=
  match m with
  | Ok df => df
  | Raise _ => empty_daily_fact
  end.

Definition week_fact : DailyFact :=
  Eval vm_compute in fact_of (process_final_data week_frame week_workouts).

Definition long_fact : DailyFact :=
  Eval vm_compute in fact_of (process_final_data week_frame long_workouts).

Definition new_year_fact : DailyFact :=
  {| EndDate :=
       [ days_from_civil 2024 12 28; days_from_civil 2024 12 29;
         days_from_civil 2024 12 30; days_from_civil 2024 12 31;
         days_from_civil 2025 1 1; days_from_civil 2025 1 2;
         days_from_civil 2025 1 3 ];
     weekday := [];
     CoreSleepHours := []; DeepSleepHours := []; REMSleepHours := [];
     TotalSleepHours := [];
     CoreSleepHoursNextNight := []; DeepSleepHoursNextNight := [];
     REMSleepHoursNextNight := []; TotalSleepHoursNextNight := [];
     AvgRestingHeartRateBPM := []; ActiveCaloriesBurned := [];
     BasalCaloriesBurned := []; TotalCaloriesBurned := [];
     StrengthTrainingMinutes := [30; 0; 40; 45; 60; 0; 50];
     RunningMinutes := []; HIITMinutes := [];
     CoreTrainingMinutes := []; RunningMiles := [];
     RunningMetersAscended := []; TotalWorkoutMinutes := [];
     StrengthTrained := []; Ran := []; HIITTrained := []; CoreTrained := [];
     Exercised := []; WeekEndingDate := [] |}.

(* ================================================================== *)
(** ** Notions and samples for the Record Flattener *)

(** The float cast of line 104 accepts the coded value of a record: no
    value, one of the codes that [value_replacements] turns into NaN, or a
    text that reads as a number. *)
Definition castable (to_float : string -> option Q) (v : option string) : Prop :=
  match v with
  | None => True
  | Some s => In s value_replacements \/ to_float s <> None
  end.

(** The texts of a column that parse give timestamps of one UTC offset. *)
Definition one_offset (to_datetime : string -> option Timestamp)
  (texts : list string) : Prop :=
  forall s s' ts ts',
    In s texts -> In s' texts ->
    to_datetime s = Some ts -> to_datetime s' = Some ts' ->
    utcoffset ts = utcoffset ts'.

(** The local time of day of a timestamp, in nanoseconds after midnight. *)
Definition time_of_day (ts : Timestamp) : Z :=
  (instant ts + utcoffset ts) mod ns_per_day.
(** Two step counts, written on either side of a change of UTC offset. *)
Definition two_offsets_export : XmlRoot :=
  {| findall_Record :=
       [ mk_record "HKQuantityTypeIdentifierStepCount" (Some "count")
           (Some "812")
           "2024-03-09 09:10:00 -0500" "2024-03-09 09:20:00 -0500";
         mk_record "HKQuantityTypeIdentifierStepCount" (Some "count")
           (Some "640")
           "2024-03-10 09:10:00 -0400" "2024-03-10 09:20:00 -0400" ];
     findall_Workout := [] |}.

(** An hour in which the wearer stood, and a step count. *)
Definition stand_export : XmlRoot :=
  {| findall_Record :=
       [ mk_record "HKCategoryTypeIdentifierAppleStandHour" None
           (Some "HKCategoryValueAppleStandHourStood")
           "2024-03-05 09:00:00 -0500" "2024-03-05 10:00:00 -0500";
         mk_record "HKQuantityTypeIdentifierStepCount" (Some "count")
           (Some "812")
           "2024-03-05 09:10:00 -0500" "2024-03-05 09:20:00 -0500" ];
     findall_Workout := [] |}.

Definition stand_frame : HealthFrame :=
  Eval vm_compute in
    frame_of (process_health_data export_to_datetime decimal_to_float
                stand_export).

(* ================================================================== *)
(** ** Notions and samples for the Workout Flattener *)

(** Every column of a frame has one cell per row. *)
Definition rectangular (df : DataFrame) : Prop :=
  Forall (fun kc => List.length (snd kc) = n_rows df) (columns df).

(** One turn and the whole of the loop of lines 216-218. *)
Definition ensure_column (df : DataFrame) (col : string) : DataFrame :=
  if in_columns col df then df
  else setitem_scalar df col
         (if existsb (String.eqb col)
               ["duration"; "distance_walking_running"; "elevation_ascended"]
          then CInt 0 else CNone).

Definition ensure_required_columns (df : DataFrame) : DataFrame :=
  fold_left ensure_column required_columns df.

Definition datetime_renames : list (string * string) :=
  [("start_date", "start_datetime"); ("end_date", "end_datetime")].

(** The value of the last [HKElevationAscended] entry of a workout, and the
    last walking/running distance statistic: the ones [record_data] keeps. *)
Definition last_elevation (record : RawWorkout) : option string :=
  fold_left
    (fun acc m =>
       if String.eqb (meta_key m) "HKElevationAscended"
       then Some (meta_value m) else acc)
    (w_metadata record) None.

Definition last_distance (record : RawWorkout) : option WorkoutStatistics :=
  fold_left
    (fun acc st =>
       if String.eqb (stat_type st)
            "HKQuantityTypeIdentifierDistanceWalkingRunning"
       then Some st else acc)
    (w_statistics record) None.

(** The number and the unit that [record_data] reads in an elevation text. *)
Definition elevation_number (v : string) : string :=
  if has_space v then fst (split_space1 v) else v.

Definition elevation_unit (v : string) : Cell :=
  if has_space v then CStr (snd (split_space1 v)) else CNone.
(** Two samples of workouts: a run and a strength session; a climb and a
    strength session, none with a distance. *)
Definition climb_session : RawWorkout :=
  {| w_workoutActivityType := "HKWorkoutActivityTypeStairClimbing";
     w_duration := Some "12.4";
     w_durationUnit := Some "min";
     w_startDate := "2024-03-06 07:00:00 -0500";
     w_endDate := "2024-03-06 07:12:24 -0500";
     w_statistics := [];
     w_metadata :=
       [ {| meta_key := "HKIndoorWorkout"; meta_value := "1" |};
         {| meta_key := "HKElevationAscended"; meta_value := "1200 cm" |};
         {| meta_key := "HKTimeZone"; meta_value := "America/New_York" |} ] |}.

Definition sessions_export : XmlRoot :=
  {| findall_Record := [];
     findall_Workout := [running_session; strength_session] |}.

Definition climb_export : XmlRoot :=
  {| findall_Record := [];
     findall_Workout := [climb_session; strength_session] |}.

Definition workouts_of (m : Result DataFrame) : DataFrame :=
  match m with
  | Ok df => df
  | Raise _ => {| n_rows := 0; columns := [] |}
  end.

Definition sessions_frame : DataFrame :=
  Eval vm_compute in
    workouts_of (process_workout_data export_to_datetime decimal_to_float
                   sessions_export).

Definition climb_frame : DataFrame :=
  Eval vm_compute in
    workouts_of (process_workout_data export_to_datetime decimal_to_float
                   climb_export).

(* ================================================================== *)
(** ** Notions for the Daily Aggregator *)

(** The rows of the workout table that the aggregator groups. *)
Definition workout_rows {V : Type} (workout_df : WorkoutFrame) (col : list V)
  : list (string * (Z * V)) :=
  combine (nw_workout_activity_type workout_df)
    (combine (nw_end_date workout_df) col).

(** The values of one day: of the rows with a given coded value, of the
    rows of a given type, of the workouts of a given activity type. *)
Definition sleep_values (health_df : HealthFrame) (category : string) (d : Z)
  : list (option Q) :=
  map snd
    (filter (fun r => fst r =? d)
       (map snd
          (filter (fun r => match fst r with
                            | Some v => String.eqb v category
                            | None => false
                            end)
             (combine (nr_value2 health_df)
                (combine (nr_end_date health_df) (nr_value health_df)))))).

Definition metric_values (health_df : HealthFrame) (metric_type : string)
  (d : Z) : list (option Q) :=
  map snd
    (filter (fun r => fst r =? d)
       (map snd
          (filter (fun r => String.eqb (fst r) metric_type)
             (combine (nr_type health_df)
                (combine (nr_end_date health_df) (nr_value health_df)))))).

Definition workout_values {V : Type} (workout_df : WorkoutFrame)
  (col : list V) (workout_type : string) (d : Z) : list V :=
  map snd
    (filter (fun r => fst r =? d)
       (map snd
          (filter (fun r => String.eqb (fst r) workout_type)
             (workout_rows workout_df col)))).

(** A day's cell of a summed column that is missing when the day has no
    row. *)
Definition summed_cell (round : Q -> Q) (values : list (option Q))
  : option Q :=
  match values with
  | [] => None
  | _ :: _ => Some (round (sum_skipna values))
  end.
(** The columns of a workout table have one cell per workout. *)
Definition workouts_rectangular (workout_df : WorkoutFrame) : Prop :=
  let n := List.length (nw_workout_activity_type workout_df) in
  List.length (nw_duration workout_df) = n /\
  List.length (nw_distance_walking_running workout_df) = n /\
  List.length (nw_elevation_ascended workout_df) = n /\
  List.length (nw_end_date workout_df) = n.

Definition workout_types : list string :=
  [ "TraditionalStrengthTraining"; "Running";
    "HighIntensityIntervalTraining"; "CoreTraining" ].

(* ================================================================== *)
(** ** The export archive and the grouped workouts of [refresh.main]
       (lines 23-27 and 106-113) *)

Definition new_year_summary_b : FiveNumber :=
  Eval vm_compute in
    match summary (regimen_b_dist new_year_fact) with
    | Some f => f
    | None => {| Min := 0; Q1 := 0; Median := 0; Q3 := 0; Max := 0 |}
    end.

(** Python's [x[:n]]. *)
Fixpoint slice_to (n : nat) (x : string) : string :=
  match n, x with
  | O, _ => EmptyString
  | S _, EmptyString => EmptyString
  | S n', String c x' => String c (slice_to n' x')
  end.

(** Python's [x[-n:]] for a positive [n]: the whole of a shorter text. *)
Definition slice_last (n : nat) (x : string) : string :=
  slice_from (String.length x - n) x.

(** Python's [x[-k]] for a positive [k]: IndexError ([None]) on a list of
    fewer than [k] elements. *)
Definition index_from_end {A : Type} (x : list A) (k : nat) : option A :=
  if (k <=? List.length x)%nat then nth_error x (List.length x - k)
  else None.

(** The comprehension of [refresh.main] over [os.listdir]. *)
Definition export_files (listdir : list string) : list string :=
  filter (fun element =>
            String.eqb (slice_to 6 element) "export"
            && String.eqb (slice_last 4 element) ".zip") listdir.

(** [x[-1] if len(x) == 1 else x[-2]], the file name that [main] joins to
    the downloads directory. *)
Definition zip_file (listdir : list string) : option string :=
  let x := export_files listdir in
  if (List.length x =? 1)%nat then index_from_end x 1
  else index_from_end x 2.

Definition downloads_listing : list string :=
  [ "export.zip"; "notes.txt"; "export 2.zip"; "export 3.zip";
    "exported.csv" ].

(** The order of the group keys [(end_date, workout_activity_type)]: by
    date, then by the text of the type. *)
Definition key_ltb (a b : Z * string) : bool :=
  (fst a <? fst b) || ((fst a =? fst b) && String.ltb (snd a) (snd b)).

Definition key_eqb (a b : Z * string) : bool :=
  (fst a =? fst b) && String.eqb (snd a) (snd b).

Fixpoint insert_key (k : Z * string) (l : list (Z * string))
  : list (Z * string) :=
  match l with
  | [] => [k]
  | y :: l' =>
      if key_ltb k y then k :: l
      else if key_eqb k y then l
      else y :: insert_key k l'
  end.

(** The distinct group keys, ascending. *)
Definition group_keys (l : list (Z * string)) : list (Z * string) :=
  fold_right insert_key [] l.

(** [replace(to_replace={"TraditionalStrengthTraining": "StrengthTraining"})]
    on one cell. *)
Definition replace_strength (workout_activity_type : string) : string :=
  if String.eqb workout_activity_type "TraditionalStrengthTraining"
  then "StrengthTraining" else workout_activity_type.

(** One row of [raw_data_grouped]. *)
Record GroupedRow : Type := {
  g_end_date : Z;
  g_workout_activity_type : string;
  g_duration : Z
}.

(** [raw_data_grouped] of [refresh.main] (lines 106-113): the durations
    summed by day and activity type, the strength sessions relabelled. *)
Definition raw_data_grouped (df2 : WorkoutFrame) : list GroupedRow :=
  let rows :=
    combine (combine (nw_end_date df2) (nw_workout_activity_type df2))
            (nw_duration df2) in
  map (fun k =>
         {| g_end_date := fst k;
            g_workout_activity_type := replace_strength (snd k);
            g_duration :=
              sum_int (map snd (filter (fun r => key_eqb (fst r) k) rows)) |})
      (group_keys (map fst rows)).
Definition keys_sorted (l : list (Z * string)) : Prop :=
  StronglySorted (fun a b => key_ltb a b = true) l.

(* ================================================================== *)
(** ** The weekly sleep summary of [refresh.main] (lines 124-140) *)

(** The values that a reduction with [skipna] keeps. *)
Definition dropna (x : list (option Q)) : list Q :=
  flat_map (fun v => match v with Some q => [q] | None => [] end) x.

Fixpoint insert_value (x : Q) (l : list Q) : list Q :=
  match l with
  | [] => [x]
  | y :: l' => if Qle_bool x y then x :: l else y :: insert_value x l'
  end.

(** The values of a float column, ascending. *)
Definition sort_values (l : list Q) : list Q := fold_right insert_value [] l.

Definition value_min (x : list Q) : Q :=
  match x with
  | [] => 0
  | a :: x' => fold_left (fun m v => if Qle_bool v m then v else m) x' a
  end.

Definition value_max (x : list Q) : Q :=
  match x with
  | [] => 0
  | a :: x' => fold_left (fun m v => if Qle_bool m v then v else m) x' a
  end.

Definition value_rank (s : list Q) (i : Z) : Q := nth (Z.to_nat i) s 0%Q.

(** [Series.quantile(q)] on a float column, as [lerp] is on an integer
    one. *)
Definition value_lerp (s : list Q) (pos : Q) : Q :=
  let n := Z.of_nat (List.length s) in
  let lo := Qfloor pos in
  let hi := Z.min (lo + 1) (n - 1) in
  (value_rank s lo + (value_rank s hi - value_rank s lo) * (pos - inject_Z lo))%Q.

Definition value_quantile (x : list Q) (q : Q) : Q :=
  let s := sort_values x in
  value_lerp s (q * inject_Z (Z.of_nat (List.length s) - 1))%Q.

Definition value_median (x : list Q) : Q :=
  let s := sort_values x in
  let n := Z.of_nat (List.length s) in
  if Z.odd n then value_rank s (n / 2)
  else ((value_rank s (n / 2 - 1) + value_rank s (n / 2)) / 2)%Q.

(** The five aggregations of one group; a group whose values are all
    missing gets five NaN ([None]). *)
Definition value_agg (x : list (option Q)) : option FiveNumber :=
  match dropna x with
  | [] => None
  | v :: vs =>
      Some {| Min := value_min (v :: vs);
              Q1 := value_quantile (v :: vs) (1 # 4);
              Median := value_median (v :: vs);
              Q3 := value_quantile (v :: vs) (3 # 4);
              Max := value_max (v :: vs) |}
  end.

(** One row of [sleep_dist]. *)
Record SleepBoxplot : Type := {
  sb_WeekEndingDate : Z;
  sb_summary : option FiveNumber
}.

Definition sleep_week (d : Z) : Z := d + (6 - date_weekday d).

(** The nights of the daily table, each with the Sunday that ends its
    week. *)
Definition sleep_nights (df_final : DailyFact) : list (Z * option Q) :=
  combine (map sleep_week (EndDate df_final)) (TotalSleepHours df_final).

Definition nights_of_week (df_final : DailyFact) (w : Z) : list (option Q) :=
  map snd (filter (fun r => fst r =? w) (sleep_nights df_final)).

Definition sleep_dist (df_final : DailyFact) : list SleepBoxplot :=
  let sleep_dist :=
    map (fun w => {| sb_WeekEndingDate := w;
                     sb_summary := value_agg (nights_of_week df_final w) |})
        (np_unique (map fst (sleep_nights df_final))) in
  filter (fun r => sb_WeekEndingDate r >? days_from_civil 2024 11 17)
         sleep_dist.

Definition autumn_fact : DailyFact :=
  {| EndDate :=
       [ days_from_civil 2024 11 16; days_from_civil 2024 11 18;
         days_from_civil 2024 11 19; days_from_civil 2024 11 20;
         days_from_civil 2024 11 24; days_from_civil 2024 11 25 ];
     weekday := [];
     CoreSleepHours := []; DeepSleepHours := []; REMSleepHours := [];
     TotalSleepHours :=
       [ Some (70 # 10); Some (65 # 10); None; Some (81 # 10);
         Some (59 # 10); None ]%Q;
     CoreSleepHoursNextNight := []; DeepSleepHoursNextNight := [];
     REMSleepHoursNextNight := []; TotalSleepHoursNextNight := [];
     AvgRestingHeartRateBPM := []; ActiveCaloriesBurned := [];
     BasalCaloriesBurned := []; TotalCaloriesBurned := [];
     StrengthTrainingMinutes := [];
     RunningMinutes := []; HIITMinutes := [];
     CoreTrainingMinutes := []; RunningMiles := [];
     RunningMetersAscended := []; TotalWorkoutMinutes := [];
     StrengthTrained := []; Ran := []; HIITTrained := []; CoreTrained := [];
     Exercised := []; WeekEndingDate := [] |}.
(** Its first week after the cutoff. *)
Definition autumn_week : SleepBoxplot :=
  Eval vm_compute in
    hd {| sb_WeekEndingDate := 0; sb_summary := None |}
       (sleep_dist autumn_fact).

(* ================================================================== *)
(** ** The configuration of [src/config.py]

    [json.load] gives a Python value of one of six shapes; an object is a
    dict, kept here as the list of its members, each key once. *)

#[local] Unset Elimination Schemes.
Inductive Json : Type :=
| JNull
| JBool (b : bool)
| JNumber (n : Q)
| JString (s : string)
| JArray (items : list Json)
| JObject (members : list (string * Json)).
#[local] Set Elimination Schemes.

(** What [main] sees of a failure of the configuration functions: a
    [ConfigError], whose message is kept as the reason it words, or a
    [TypeError] that no handler of [config.py] catches. *)
Inductive ConfigReason : Type :=
| FileNotFound
| InvalidJson
| MissingSections (missing_sections : list string)
| NotIterable
| MissingKey (key : string)
| MissingDownloads.

Inductive ConfigExn : Type :=
| ConfigError (reason : ConfigReason)
| UncaughtTypeError.

Inductive ConfigResult (A : Type) : Type :=
| Loaded (a : A)
| Failed (e : ConfigExn).
Arguments Loaded {A} a.
Arguments Failed {A} e.

(** Python's [sub in text] on two texts. *)
Fixpoint str_contains (text sub : string) : bool :=
  String.prefix sub text
  || match text with
     | EmptyString => false
     | String _ text' => str_contains text' sub
     end.

(** Python's [key in value]: a key of a dict, an element of a list, a part
    of a text; [None] is the TypeError of a value that is not iterable. *)
Definition json_in (key : string) (value : Json) : option bool :=
  match value with
  | JObject members => Some (existsb (String.eqb key) (map fst members))
  | JArray items =>
      Some (existsb (fun item => match item with
                                 | JString s => String.eqb s key
                                 | _ => false
                                 end) items)
  | JString s => Some (str_contains s key)
  | JNull | JBool _ | JNumber _ => None
  end.

Definition json_get (members : list (string * Json)) (key : string)
  : option Json :=
  option_map snd (find (fun kv => String.eqb (fst kv) key) members).

Definition required_sections : list string :=
  [ "BQ_PROJECT"; "BQ_DATASET"; "BQ_TABLES"; "PATHS" ].

(** [[section for section in required_sections if section not in config]] *)
Fixpoint missing_from (config : Json) (sections : list string)
  : option (list string) :=
  match sections with
  | [] => Some []
  | section :: sections' =>
      match json_in section config with
      | None => None
      | Some present =>
          match missing_from config sections' with
          | None => None
          | Some missing =>
              Some (if present then missing else section :: missing)
          end
      end
  end.

(** [load_config], on what it finds at [config/config.json]: no file
    ([None]), a text that is not JSON ([Some None]), or a value.  Every
    failure leaves as a [ConfigError]: the handlers of the function catch
    all exceptions. *)
Definition load_config (file : option (option Json)) : ConfigResult Json :=
  match file with
  | None => Failed (ConfigError FileNotFound)
  | Some None => Failed (ConfigError InvalidJson)
  | Some (Some config) =>
      match missing_from config required_sections with
      | None => Failed (ConfigError NotIterable)
      | Some [] => Loaded config
      | Some (section :: missing) =>
          Failed (ConfigError (MissingSections (section :: missing)))
      end
  end.

(** [config[key]] inside a handler of KeyError only. *)
Definition config_getitem (config : Json) (key : string)
  : ConfigResult Json :=
  match config with
  | JObject members =>
      match json_get members key with
      | Some v => Loaded v
      | None => Failed (ConfigError (MissingKey key))
      end
  | _ => Failed UncaughtTypeError
  end.

Record BigQueryConfig : Type := {
  project_id : Json;
  dataset_id : Json;
  tables : Json
}.

Definition get_bigquery_config (config : Json)
  : ConfigResult BigQueryConfig :=
  match config_getitem config "BQ_PROJECT" with
  | Failed e => Failed e
  | Loaded project =>
      match config_getitem config "BQ_DATASET" with
      | Failed e => Failed e
      | Loaded dataset =>
          match config_getitem config "BQ_TABLES" with
          | Failed e => Failed e
          | Loaded bq_tables =>
              Loaded {| project_id := project;
                        dataset_id := dataset;
                        tables := bq_tables |}
          end
      end
  end.

Definition get_paths_config (config : Json) : ConfigResult Json :=
  match config_getitem config "PATHS" with
  | Failed e => Failed e
  | Loaded paths =>
      match json_in "downloads" paths with
      | None => Failed UncaughtTypeError
      | Some false => Failed (ConfigError MissingDownloads)
      | Some true => Loaded paths
      end
  end.

Definition sample_members : list (string * Json) :=
  [ ("BQ_PROJECT", JString "health");
    ("BQ_DATASET", JString "apple");
    ("BQ_TABLES", JObject [ ("health_record", JString "daily") ]);
    ("PATHS", JObject [ ("downloads", JString "/home/me/Downloads") ]) ].

Definition sample_config : Json := JObject sample_members.

Definition sample_list_config : Json :=
  JArray [ JString "BQ_PROJECT"; JString "BQ_DATASET"; JString "BQ_TABLES";
           JString "PATHS" ].

(* ================================================================== *)
(** * Properties *)

(* ================================================================== *)
(** ** Lists and results: the lemmas the proofs share *)

Lemma mapM_length {A B : Type} (f : A -> Result B) (l : list A) (l' : list B) :
  mapM f l = Ok l' -> List.length l' = List.length l.
Proof.
  revert l'. induction l as [|x xs IH]; simpl; intros l' H.
  - inversion H. reflexivity.
  - destruct (f x) as [y|e]; simpl in H; [|discriminate].
    destruct (mapM f xs) as [ys|e]; simpl in H; [|discriminate].
    inversion H. simpl. f_equal. apply IH. reflexivity.
Qed.

Lemma mapM_nth_error {A B : Type} (f : A -> Result B) (l : list A)
  (l' : list B) :
  mapM f l = Ok l' ->
  forall i x, nth_error l i = Some x ->
  exists y, f x = Ok y /\ nth_error l' i = Some y.
Proof.
  revert l'. induction l as [|a xs IH]; simpl; intros l' H i x Hi.
  - destruct i; discriminate.
  - destruct (f a) as [y|e] eqn:Ea; simpl in H; [|discriminate].
    destruct (mapM f xs) as [ys|e] eqn:Exs; simpl in H; [|discriminate].
    inversion H; subst l'. destruct i as [|i]; simpl in *.
    + inversion Hi; subst. exists y. split; [assumption | reflexivity].
    + apply (IH ys eq_refl i x Hi).
Qed.

Lemma nth_error_map2 {A B C : Type} (f : A -> B -> C) (l1 : list A)
  (l2 : list B) (i : nat) :
  nth_error (map2 f l1 l2) i =
  match nth_error l1 i, nth_error l2 i with
  | Some a, Some b => Some (f a b)
  | _, _ => None
  end.
Proof.
  revert l2 i. induction l1 as [|a l1 IH]; intros l2 i.
  - destruct i; reflexivity.
  - destruct l2 as [|b l2].
    + destruct i; simpl; [reflexivity|]. destruct (nth_error l1 i); reflexivity.
    + destruct i; simpl; [reflexivity | apply IH].
Qed.

Lemma nth_error_map3 {A B C D : Type} (f : A -> B -> C -> D) (l1 : list A)
  (l2 : list B) (l3 : list C) (i : nat) :
  nth_error (map3 f l1 l2 l3) i =
  match nth_error l1 i, nth_error l2 i, nth_error l3 i with
  | Some a, Some b, Some c => Some (f a b c)
  | _, _, _ => None
  end.
Proof.
  revert l2 l3 i. induction l1 as [|a l1 IH]; intros l2 l3 i.
  - destruct i; reflexivity.
  - destruct l2 as [|b l2].
    + destruct i; simpl; [reflexivity|]. destruct (nth_error l1 i); reflexivity.
    + destruct l3 as [|c l3].
      * destruct i; simpl; [reflexivity|].
        destruct (nth_error l1 i); [|reflexivity].
        destruct (nth_error l2 i); reflexivity.
      * destruct i; simpl; [reflexivity | apply IH].
Qed.

Lemma length_map2 {A B C : Type} (f : A -> B -> C) (l1 : list A) (l2 : list B) :
  List.length (map2 f l1 l2) = Nat.min (List.length l1) (List.length l2).
Proof.
  revert l2. induction l1 as [|a l1 IH]; intros [|b l2]; simpl; auto.
Qed.

(** What a successful run of the Record Flattener has computed. *)
Lemma process_health_data_ok (to_datetime : string -> option Timestamp)
  (to_float : string -> option Q) (xml_root : XmlRoot) (df : HealthFrame) :
  process_health_data to_datetime to_float xml_root = Ok df ->
  let recs := findall_Record xml_root in
  exists end_raw start_raw value,
    mapM (pd_to_datetime to_datetime) (map r_endDate recs) = Ok end_raw /\
    mapM (pd_to_datetime to_datetime) (map r_startDate recs) = Ok start_raw /\
    mapM (astype_float to_float)
         (map (fun v => replace_value (obj_of_attr v)) (map r_value recs))
      = Ok value /\
    nr_type df = map (fun x => slice_from 24 x) (map r_type recs) /\
    nr_value2 df = map r_value recs /\
    nr_end_datetime df = map2 adjust_sleep_time end_raw (map r_value recs) /\
    nr_start_datetime df = map2 adjust_sleep_time start_raw (map r_value recs) /\
    nr_time_elapsed df = map2 ts_sub (nr_end_datetime df) (nr_start_datetime df) /\
    nr_value df =
      map3 sleep_duration_value (nr_time_elapsed df) (map r_value recs) value /\
    nr_unit df = map2 sleep_duration_unit (map r_value recs) (map r_unit recs).
Proof.
  intros H. cbv zeta. unfold process_health_data, try_except in H.
  remember (findall_Record xml_root) as recs eqn:Erecs.
  destruct recs as [|r0 rs]; [discriminate|].
  remember (r0 :: rs) as l eqn:El. clear Erecs El r0 rs.
  cbv beta iota zeta in H. unfold bind at 1 in H. unfold bind at 1 in H.
  destruct (mapM (pd_to_datetime to_datetime) (map r_endDate l))
    as [end_raw|e] eqn:E1; [|discriminate].
  unfold bind at 1 in H.
  destruct (mapM (pd_to_datetime to_datetime) (map r_startDate l))
    as [start_raw|e] eqn:E2; [|discriminate].
  unfold bind at 1 in H.
  destruct (dt_date _) as [start_date|e]; [|discriminate].
  unfold bind at 1 in H.
  destruct (dt_date _) as [end_date|e]; [|discriminate].
  unfold bind at 1 in H.
  destruct (mapM (astype_float to_float) _) as [value|e] eqn:E3; [|discriminate].
  inversion H; subst df; clear H. simpl.
  exists end_raw, start_raw, value. repeat split; assumption.
Qed.

Lemma cell_in_sleep_categories (v : option string) :
  cell_in v sleep_categories = true <->
  exists s, v = Some s /\ In s sleep_categories.
Proof.
  unfold cell_in. destruct v as [s|].
  - rewrite existsb_exists. split.
    + intros [x [Hx Hs]]. apply String.eqb_eq in Hs. subst x.
      exists s. split; [reflexivity | assumption].
    + intros [s' [Hs Hin]]. inversion Hs; subst s'.
      exists s. split; [assumption | apply String.eqb_refl].
  - split; [discriminate | intros [s [Hs _]]; discriminate].
Qed.

Lemma night_frame_ok :
  process_health_data export_to_datetime decimal_to_float night_export
  = Ok night_frame.
Proof. vm_compute. reflexivity. Qed.

(* ================================================================== *)
(** ** The Record Flattener *)

(** C4.  For every input record of a successful run, the output
    [start_datetime] and [end_datetime] are the parsed raw timestamps, except
    when the raw coded value is one of the six sleep-analysis codes: then
    both are the parsed raw timestamps plus exactly four hours (the same UTC
    offset, the instant 4 * 3600 * 10^9 nanoseconds later). *)
Theorem sleep_rows_shifted_by_four_hours
  (to_datetime : string -> option Timestamp) (to_float : string -> option Q)
  (xml_root : XmlRoot) (df : HealthFrame) (i : nat) (r : RawRecord) :
  process_health_data to_datetime to_float xml_root = Ok df ->
  nth_error (findall_Record xml_root) i = Some r ->
  exists start_raw end_raw,
    to_datetime (r_startDate r) = Some start_raw /\
    to_datetime (r_endDate r) = Some end_raw /\
    List.length sleep_categories = 6%nat /\
    (cell_in (r_value r) sleep_categories = false ->
       nth_error (nr_start_datetime df) i = Some start_raw /\
       nth_error (nr_end_datetime df) i = Some end_raw) /\
    (cell_in (r_value r) sleep_categories = true ->
       nth_error (nr_start_datetime df) i
         = Some {| instant := instant start_raw + 4 * 3600 * 1000000000;
                   utcoffset := utcoffset start_raw |} /\
       nth_error (nr_end_datetime df) i
         = Some {| instant := instant end_raw + 4 * 3600 * 1000000000;
                   utcoffset := utcoffset end_raw |}).
Proof.
  intros H Hr.
  destruct (process_health_data_ok _ _ _ _ H)
    as (end_raw & start_raw & value & E1 & E2 & _ & _ & _ & Hend & Hstart & _).
  destruct (mapM_nth_error _ _ _ E1 i (r_endDate r)) as (e & He & Hie).
  { rewrite nth_error_map, Hr. reflexivity. }
  destruct (mapM_nth_error _ _ _ E2 i (r_startDate r)) as (s & Hs & His).
  { rewrite nth_error_map, Hr. reflexivity. }
  unfold pd_to_datetime in He, Hs.
  destruct (to_datetime (r_endDate r)) as [e'|] eqn:Ee; [|discriminate].
  destruct (to_datetime (r_startDate r)) as [s'|] eqn:Es; [|discriminate].
  inversion He; inversion Hs; subst e' s'.
  exists s, e. split; [reflexivity|]. split; [reflexivity|].
  split; [reflexivity|].
  rewrite Hend, Hstart, !nth_error_map2, Hie, His, nth_error_map, Hr.
  simpl. unfold adjust_sleep_time.
  split; intros Hc; rewrite Hc; split; reflexivity.
Qed.

Lemma sleep_rows_shifted_by_four_hours_witness :
  exists start_raw end_raw,
    export_to_datetime "2024-03-04 22:00:00 -0500" = Some start_raw /\
    export_to_datetime "2024-03-05 00:00:00 -0500" = Some end_raw /\
    nth_error (nr_start_datetime night_frame) 1
      = Some {| instant := instant start_raw + 4 * 3600 * 1000000000;
                utcoffset := utcoffset start_raw |} /\
    nth_error (nr_end_datetime night_frame) 1
      = Some {| instant := instant end_raw + 4 * 3600 * 1000000000;
                utcoffset := utcoffset end_raw |}.
Proof.
  destruct (sleep_rows_shifted_by_four_hours export_to_datetime decimal_to_float
              night_export night_frame 1
              (mk_record sleep_type None
                 (Some "HKCategoryValueSleepAnalysisAsleepCore")
                 "2024-03-04 22:00:00 -0500" "2024-03-05 00:00:00 -0500")
              night_frame_ok eq_refl)
    as (s & e & Hs & He & _ & _ & Hshift).
  exists s, e. split; [exact Hs|]. split; [exact He|].
  apply Hshift. reflexivity.
Defined.

(** [Timedelta.seconds] is the whole elapsed time only for a duration that
    is not negative and shorter than one day. *)
Lemma td_seconds_within_a_day (td : Timedelta) :
  0 <= td < ns_per_day -> td_seconds td = td_whole_seconds td.
Proof.
  intros H. unfold td_seconds, td_whole_seconds.
  rewrite Z.mod_small by exact H. reflexivity.
Qed.

(** [Timedelta.seconds] is the whole elapsed time exactly for a duration
    that is not negative and shorter than one day. *)
Lemma td_seconds_is_elapsed_iff (td : Timedelta) :
  td_seconds td = td_whole_seconds td <-> 0 <= td < ns_per_day.
Proof.
  split; [|apply td_seconds_within_a_day].
  unfold td_seconds, td_whole_seconds, ns_per_day, ns_per_second.
  intros H. Z.to_euclidean_division_equations. lia.
Qed.

(** C2, as the code has it.  The value/unit overwrite is applied exactly to
    the rows whose original coded value ([value2]) is one of the six
    sleep-analysis codes, "in bed", "awake" and "unspecified" included: such
    a row gets the unit "s" and a value read off its elapsed time; every
    other row keeps its unit and the float cast of its value. *)
Theorem overwrite_applies_to_all_six_sleep_codes
  (to_datetime : string -> option Timestamp) (to_float : string -> option Q)
  (xml_root : XmlRoot) (df : HealthFrame) (i : nat) (r : RawRecord) :
  process_health_data to_datetime to_float xml_root = Ok df ->
  nth_error (findall_Record xml_root) i = Some r ->
  nth_error (nr_value2 df) i = Some (r_value r) /\
  exists time_elapsed value,
    nth_error (nr_time_elapsed df) i = Some time_elapsed /\
    astype_float to_float (replace_value (obj_of_attr (r_value r))) = Ok value /\
    ((exists s, r_value r = Some s /\ In s sleep_categories) ->
       nth_error (nr_unit df) i = Some (Some "s") /\
       nth_error (nr_value df) i
         = Some (Some (inject_Z (td_seconds time_elapsed)))) /\
    (~ (exists s, r_value r = Some s /\ In s sleep_categories) ->
       nth_error (nr_unit df) i = Some (r_unit r) /\
       nth_error (nr_value df) i = Some value).
Proof.
  intros H Hr.
  destruct (process_health_data_ok _ _ _ _ H)
    as (end_raw & start_raw & value & E1 & E2 & E3 & _ & Hv2 & Hend & Hstart
        & Hte & Hval & Hunit).
  destruct (mapM_nth_error _ _ _ E1 i (r_endDate r)) as (e & _ & Hie).
  { rewrite nth_error_map, Hr. reflexivity. }
  destruct (mapM_nth_error _ _ _ E2 i (r_startDate r)) as (s & _ & His).
  { rewrite nth_error_map, Hr. reflexivity. }
  destruct (mapM_nth_error _ _ _ E3 i
              (replace_value (obj_of_attr (r_value r)))) as (v & Hv & Hiv).
  { rewrite !nth_error_map, Hr. reflexivity. }
  assert (Hite : nth_error (nr_time_elapsed df) i
                 = Some (ts_sub (adjust_sleep_time e (r_value r))
                                (adjust_sleep_time s (r_value r)))).
  { rewrite Hte, Hend, Hstart, !nth_error_map2, Hie, His, nth_error_map, Hr.
    reflexivity. }
  split.
  { rewrite Hv2, nth_error_map, Hr. reflexivity. }
  eexists. exists v. split; [exact Hite|]. split; [exact Hv|].
  rewrite Hunit, Hval, nth_error_map3, nth_error_map2, Hite, Hiv.
  rewrite !nth_error_map, Hr. simpl.
  unfold sleep_duration_unit, sleep_duration_value.
  split; intros Hc.
  - apply cell_in_sleep_categories in Hc. rewrite Hc. split; reflexivity.
  - destruct (cell_in (r_value r) sleep_categories) eqn:Ec.
    + exfalso. apply Hc. apply cell_in_sleep_categories. exact Ec.
    + split; reflexivity.
Qed.

Lemma overwrite_applies_to_all_six_sleep_codes_witness :
  nth_error (nr_unit night_frame) 0 = Some (Some "s") /\
  nth_error (nr_value night_frame) 0 = Some (Some (inject_Z 28800)).
Proof.
  destruct (overwrite_applies_to_all_six_sleep_codes export_to_datetime
              decimal_to_float night_export night_frame 0
              (mk_record sleep_type None
                 (Some "HKCategoryValueSleepAnalysisInBed")
                 "2024-03-04 21:30:00 -0500" "2024-03-05 05:30:00 -0500")
              night_frame_ok eq_refl)
    as (_ & te & v & Hte & _ & Hsleep & _).
  destruct Hsleep as [Hu Hv].
  { exists "HKCategoryValueSleepAnalysisInBed".
    split; [reflexivity | left; reflexivity]. }
  split; [exact Hu|].
  rewrite Hv. vm_compute in Hte. inversion Hte. reflexivity.
Defined.

(** C2, as stated, fails: an "in bed" row does not keep its unit and its
    missing value; it is overwritten like a Core, Deep or REM row. *)
Lemma in_bed_row_is_overwritten :
  ~ (forall (xml_root : XmlRoot) (df : HealthFrame) (i : nat) (r : RawRecord),
       process_health_data export_to_datetime decimal_to_float xml_root
         = Ok df ->
       nth_error (findall_Record xml_root) i = Some r ->
       cell_in (r_value r)
         [ "HKCategoryValueSleepAnalysisInBed";
           "HKCategoryValueSleepAnalysisAwake";
           "HKCategoryValueSleepAnalysisAsleepUnspecified" ] = true ->
       nth_error (nr_unit df) i = Some (r_unit r) /\
       nth_error (nr_value df) i = Some None).
Proof.
  intros claim.
  destruct (claim night_export night_frame 0%nat
              (mk_record sleep_type None
                 (Some "HKCategoryValueSleepAnalysisInBed")
                 "2024-03-04 21:30:00 -0500" "2024-03-05 05:30:00 -0500")
              night_frame_ok eq_refl eq_refl) as [Hu _].
  vm_compute in Hu. discriminate Hu.
Qed.

(** C3 at a segment longer than a day.  The row is a Core row, its unit is
    "s", its elapsed time is 95400 whole seconds, and its value is 9000: the
    seconds component of the elapsed time, with the whole day dropped. *)
Theorem long_core_segment_loses_a_day :
  exists df,
    process_health_data export_to_datetime decimal_to_float long_sleep_export
      = Ok df /\
    nr_value2 df = [Some "HKCategoryValueSleepAnalysisAsleepCore"] /\
    nr_unit df = [Some "s"] /\
    map td_whole_seconds (nr_time_elapsed df) = [95400] /\
    nr_value df = [Some (inject_Z 9000)].
Proof.
  eexists. split; [vm_compute; reflexivity|].
  repeat split; vm_compute; reflexivity.
Qed.

Lemma slice_from_short (n : nat) (s : string) :
  (String.length s <= n)%nat -> slice_from n s = "".
Proof.
  revert s. induction n as [|n IH]; intros s H.
  - destruct s; simpl in *; [reflexivity | lia].
  - destruct s as [|c s]; simpl in *; [reflexivity|]. apply IH. lia.
Qed.

Lemma slice_from_append (p s : string) :
  slice_from (String.length p) (p ++ s) = s.
Proof. induction p as [|c p IH]; simpl; [destruct s; reflexivity | exact IH]. Qed.

(** When the Record Flattener succeeds. *)
(** The four hours added to a sleep row leave its UTC offset alone. *)
Lemma uniform_offsets_shift (c : list Timestamp) (value : list (option string)) :
  List.length value = List.length c ->
  uniform_offsets (map2 adjust_sleep_time c value) = uniform_offsets c.
Proof.
  assert (O : forall ts v, utcoffset (adjust_sleep_time ts v) = utcoffset ts).
  { intros ts v. unfold adjust_sleep_time.
    destruct (cell_in v sleep_categories); reflexivity. }
  destruct c as [|ts c]; [reflexivity|].
  destruct value as [|v value]; [discriminate|]. intros L.
  cbn [map2 uniform_offsets]. rewrite O. generalize (utcoffset ts).
  intros o. simpl in L.
  revert value L. induction c as [|ts' c IH]; intros value L; [reflexivity|].
  destruct value as [|v' value]; [discriminate|].
  cbn [map2 forallb]. rewrite O, (IH value) by (simpl in L; lia).
  reflexivity.
Qed.

Lemma process_health_data_is_ok (to_datetime : string -> option Timestamp)
  (to_float : string -> option Q) (xml_root : XmlRoot) :
  let recs := findall_Record xml_root in
  is_ok (process_health_data to_datetime to_float xml_root)
  = (negb (List.length recs =? 0)%nat
     && datetime_column
          (mapM (pd_to_datetime to_datetime) (map r_endDate recs))
     && datetime_column
          (mapM (pd_to_datetime to_datetime) (map r_startDate recs))
     && is_ok (mapM (astype_float to_float)
                 (map (fun v => replace_value (obj_of_attr v))
                    (map r_value recs))))%bool.
Proof.
  cbv zeta. unfold process_health_data, try_except.
  destruct (findall_Record xml_root) as [|r0 rs]; [reflexivity|].
  remember (r0 :: rs) as l eqn:El.
  replace (List.length l =? 0)%nat with false by (subst l; reflexivity).
  clear El. cbv beta iota zeta. unfold bind at 1. unfold bind at 1.
  destruct (mapM (pd_to_datetime to_datetime) (map r_endDate l))
    as [end_raw|e] eqn:E1; [|reflexivity].
  unfold bind at 1.
  destruct (mapM (pd_to_datetime to_datetime) (map r_startDate l))
    as [start_raw|e] eqn:E2;
    [|cbn [datetime_column negb andb];
      destruct (uniform_offsets end_raw); reflexivity].
  apply mapM_length in E1, E2. rewrite length_map in E1, E2.
  unfold bind at 1. unfold dt_date at 1.
  rewrite uniform_offsets_shift by (rewrite length_map; congruence).
  cbn [datetime_column negb andb].
  destruct (uniform_offsets start_raw);
    [|destruct (uniform_offsets end_raw); reflexivity].
  unfold bind at 1. unfold dt_date at 1.
  rewrite uniform_offsets_shift by (rewrite length_map; congruence).
  destruct (uniform_offsets end_raw); [|reflexivity].
  unfold bind.
  destruct (mapM (astype_float to_float) _); reflexivity.
Qed.

(** The type of a record plays no part in the success of the flattener. *)
Lemma retype_is_ok (to_datetime : string -> option Timestamp)
  (to_float : string -> option Q) (f : string -> string) (xml_root : XmlRoot) :
  is_ok (process_health_data to_datetime to_float (retype f xml_root))
  = is_ok (process_health_data to_datetime to_float xml_root).
Proof.
  rewrite !process_health_data_is_ok. unfold retype. simpl findall_Record.
  rewrite !map_map, length_map. simpl. reflexivity.
Qed.

(** C9.  The output [type] of every record is the input type with its first
    24 characters removed, whatever they are: nothing tests for the category
    prefix.  A quantity-type identifier loses its prefix because that prefix
    is 24 characters long too; a type of at most 24 characters becomes the
    empty string, and no type makes the flattener fail. *)
Theorem type_loses_its_first_24_characters
  (to_datetime : string -> option Timestamp) (to_float : string -> option Q)
  (xml_root : XmlRoot) (df : HealthFrame) :
  process_health_data to_datetime to_float xml_root = Ok df ->
  (forall i r, nth_error (findall_Record xml_root) i = Some r ->
     nth_error (nr_type df) i = Some (slice_from 24 (r_type r))) /\
  String.length "HKCategoryTypeIdentifier" = 24%nat /\
  String.length "HKQuantityTypeIdentifier" = 24%nat /\
  (forall s, slice_from 24 ("HKQuantityTypeIdentifier" ++ s) = s) /\
  (forall s, (String.length s < 24)%nat -> slice_from 24 s = "") /\
  (forall f : string -> string,
     is_ok (process_health_data to_datetime to_float (retype f xml_root))
     = true).
Proof.
  intros H.
  destruct (process_health_data_ok _ _ _ _ H)
    as (_ & _ & _ & _ & _ & _ & Ht & _).
  split.
  { intros i r Hr. rewrite Ht, !nth_error_map, Hr. reflexivity. }
  split; [reflexivity|]. split; [reflexivity|].
  split.
  { intros s. apply (slice_from_append "HKQuantityTypeIdentifier" s). }
  split.
  { intros s Hs. apply slice_from_short. lia. }
  intros f. rewrite retype_is_ok, H. reflexivity.
Qed.

Lemma type_loses_its_first_24_characters_witness :
  nth_error (nr_type night_frame) 4 = Some "RestingHeartRate" /\
  nth_error (nr_type night_frame) 5 = Some "".
Proof.
  destruct (type_loses_its_first_24_characters export_to_datetime
              decimal_to_float night_export night_frame night_frame_ok)
    as (Htype & _).
  split.
  - exact (Htype 4%nat
             (mk_record "HKQuantityTypeIdentifierRestingHeartRate"
                (Some "count/min") (Some "58.5")
                "2024-03-05 09:00:00 -0500" "2024-03-05 09:00:00 -0500")
             eq_refl).
  - exact (Htype 5%nat
             (mk_record "VO2Max" (Some "mL/min/kg") (Some "41")
                "2024-03-06 10:00:00 -0500" "2024-03-06 10:05:00 -0500")
             eq_refl).
Defined.

(* ================================================================== *)
(** ** The Workout Flattener *)

Lemma dict_set_keys (k k' : string) (v : Cell) (d : Dict) :
  In k (map fst (dict_set k' v d)) -> k = k' \/ In k (map fst d).
Proof.
  induction d as [|[k0 v0] d IH]; simpl.
  - intros [H|[]]. left. symmetry. exact H.
  - destruct (String.eqb k' k0) eqn:E; simpl.
    + intros [H|H]; [left; symmetry; exact H | right; right; exact H].
    + intros [H|H]; [right; left; exact H|].
      destruct (IH H) as [H'|H']; [left; exact H' | right; right; exact H'].
Qed.

(** A workout with no [HKElevationAscended] entry gives a dict with no
    ['elevation_ascended'] key. *)
Lemma record_data_without_elevation (record : RawWorkout) :
  (forall m, In m (w_metadata record) -> meta_key m <> "HKElevationAscended") ->
  ~ In "elevation_ascended" (map fst (record_data record)).
Proof.
  intros Hm. unfold record_data.
  set (d0 := [("workout_activity_type", _); _; _; _; _]).
  assert (H0 : ~ In "elevation_ascended" (map fst d0)).
  { simpl. intros [H|[H|[H|[H|[H|[]]]]]]; discriminate H. }
  clearbody d0.
  assert (H1 : forall (stats : list WorkoutStatistics) (d : Dict), ~ In "elevation_ascended" (map fst d) ->
     ~ In "elevation_ascended"
         (map fst
            (fold_left
               (fun record_data stat =>
                  if String.eqb (stat_type stat)
                       "HKQuantityTypeIdentifierDistanceWalkingRunning"
                  then dict_set "distance_walking_running_unit"
                         (cell_of_attr (stat_unit stat))
                         (dict_set "distance_walking_running"
                            (cell_of_attr (stat_sum stat)) record_data)
                  else record_data) stats d))).
  { induction stats as [|st stats IH]; intros d Hd; simpl; [exact Hd|].
    apply IH. destruct (String.eqb (stat_type st) _); [|exact Hd].
    intros H. apply dict_set_keys in H. destruct H as [H|H]; [discriminate H|].
    apply dict_set_keys in H. destruct H as [H|H]; [discriminate H|].
    exact (Hd H). }
  specialize (H1 (w_statistics record) d0 H0).
  match goal with
  | |- ~ In _ (map fst (fold_left _ (w_metadata record) ?d)) =>
      set (d1 := d) in *
  end.
  clearbody d1.
  revert d1 H1. induction (w_metadata record) as [|m ms IH]; intros d1 H1.
  - exact H1.
  - simpl. destruct (String.eqb (meta_key m) "HKElevationAscended") eqn:E.
    + apply String.eqb_eq in E. exfalso. apply (Hm m); [left; reflexivity | exact E].
    + apply IH; [|exact H1]. intros m' Hm'. apply Hm. right. exact Hm'.
Qed.

Lemma keys_union_In (k : string) (records : list Dict) :
  In k (keys_union records) -> exists d, In d records /\ In k (map fst d).
Proof.
  unfold keys_union.
  assert (G : forall (records : list Dict) (acc : list string),
             In k (fold_left
                     (fun acc d =>
                        fold_left
                          (fun acc k =>
                             if existsb (String.eqb k) acc then acc
                             else (acc ++ [k])%list)
                          (map fst d) acc) records acc) ->
             In k acc \/ exists d, In d records /\ In k (map fst d)).
  { clear records. induction records as [|d ds IH]; intros acc H; simpl in H.
    - left. exact H.
    - destruct (IH _ H) as [H1|(d' & Hd' & Hk)].
      + assert (F : forall ks acc : list string,
                  In k (fold_left
                          (fun acc k =>
                             if existsb (String.eqb k) acc then acc
                             else (acc ++ [k])%list) ks acc) ->
                  In k acc \/ In k ks).
        { clear. induction ks as [|k0 ks IH]; intros acc H; simpl in H.
          - left. exact H.
          - destruct (IH _ H) as [H1|H1]; [|right; right; exact H1].
            destruct (existsb (String.eqb k0) acc); [left; exact H1|].
            apply in_app_or in H1. destruct H1 as [H1|[H1|[]]];
              [left; exact H1 | right; left; exact H1]. }
        destruct (F _ _ H1) as [H2|H2]; [left; exact H2|].
        right. exists d. split; [left; reflexivity | exact H2].
      + right. exists d'. split; [right; exact Hd' | exact Hk]. }
  intros H. destruct (G _ _ H) as [[]|H']. exact H'.
Qed.

Lemma lookup_col_not_in (k : string) (f : string -> list Cell)
  (keys : list string) :
  ~ In k keys -> lookup_col k (map (fun k => (k, f k)) keys) = None.
Proof.
  induction keys as [|k0 keys IH]; simpl; intros H; [reflexivity|].
  destruct (String.eqb k k0) eqn:E.
  - apply String.eqb_eq in E. exfalso. apply H. left. symmetry. exact E.
  - apply IH. intros H'. apply H. right. exact H'.
Qed.

Lemma lookup_col_assign_other (k k' : string) (c : list Cell)
  (cs : list (string * list Cell)) :
  k <> k' -> lookup_col k (assign_col k' c cs) = lookup_col k cs.
Proof.
  intros Hk. induction cs as [|[k0 c0] cs IH]; simpl.
  - destruct (String.eqb k k') eqn:E; [|reflexivity].
    apply String.eqb_eq in E. contradiction.
  - destruct (String.eqb k' k0) eqn:E; simpl.
    + apply String.eqb_eq in E. subst k0.
      destruct (String.eqb k k') eqn:E'; [|reflexivity].
      apply String.eqb_eq in E'. contradiction.
    + rewrite IH. reflexivity.
Qed.

Section NoElevation.

Variable to_datetime : string -> option Timestamp.
Variable to_float : string -> option Q.

Lemma process_numeric_column_lacks (df df' : DataFrame)
  (entry : string * (nat * NumType)) :
  lacks_elevation df ->
  process_numeric_column to_float df entry = Ok df' ->
  lacks_elevation df'.
Proof.
  unfold process_numeric_column, lacks_elevation.
  destruct entry as [col [round type]]. intros Hdf.
  destruct (in_columns col df) eqn:Ein.
  - unfold bind. destruct (getitem df col); [|discriminate].
    destruct (mapM (cell_astype_float to_float) a); [|discriminate].
    destruct (mapM _ _); [|discriminate].
    intros H. inversion H. simpl.
    rewrite lookup_col_assign_other; [exact Hdf|].
    intros <-. unfold in_columns in Ein. rewrite Hdf in Ein. discriminate.
  - intros H. inversion H. subst df'. exact Hdf.
Qed.

Lemma foldM_numeric_lacks (entries : list (string * (nat * NumType)))
  (df df' : DataFrame) :
  lacks_elevation df ->
  foldM (process_numeric_column to_float) entries df = Ok df' ->
  lacks_elevation df'.
Proof.
  revert df. induction entries as [|e es IH]; intros df Hdf; simpl.
  - intros H. inversion H. subst df'. exact Hdf.
  - unfold bind. destruct (process_numeric_column to_float df e) eqn:E;
      [|discriminate].
    apply IH. apply (process_numeric_column_lacks df a e Hdf E).
Qed.

(** A collection in which no workout carries elevation metadata is never
    flattened: the run ends in a [DataProcessingError]. *)
Lemma no_elevation_metadata_raises (xml_root : XmlRoot) :
  (forall w m, In w (findall_Workout xml_root) -> In m (w_metadata w) ->
     meta_key m <> "HKElevationAscended") ->
  is_ok (process_workout_data to_datetime to_float xml_root) = false.
Proof.
  intros Hm. unfold process_workout_data, try_except.
  set (df0 := pd_DataFrame (map record_data (findall_Workout xml_root))).
  assert (H0 : lacks_elevation df0).
  { unfold lacks_elevation, df0, pd_DataFrame. simpl.
    apply lookup_col_not_in. intros H.
    apply keys_union_In in H. destruct H as (d & Hd & Hk).
    apply in_map_iff in Hd. destruct Hd as (w & <- & Hw).
    apply (record_data_without_elevation w); [|exact Hk].
    intros m Hmw. apply (Hm w m Hw Hmw). }
  clearbody df0.
  unfold bind at 1. destruct (getitem df0 "workout_activity_type");
    [|reflexivity].
  unfold bind at 1. destruct (mapM _ a) as [c|]; [|reflexivity].
  unfold bind at 1.
  destruct (foldM (process_numeric_column to_float) numeric_columns
              (setitem df0 "workout_activity_type" c)) as [df1|] eqn:E1;
    [|reflexivity].
  assert (H1 : lacks_elevation df1).
  { apply (foldM_numeric_lacks numeric_columns
             (setitem df0 "workout_activity_type" c) df1); [|exact E1].
    unfold lacks_elevation. simpl.
    rewrite lookup_col_assign_other; [exact H0 | discriminate]. }
  unfold bind at 1. unfold getitem at 1. rewrite H1. reflexivity.
Qed.

End NoElevation.

(** The flattener on a run that reports its elevation as "250 cm": 2.5
    metres. *)
Example elevation_in_centimetres :
  exists df,
    process_workout_data export_to_datetime decimal_to_float
      {| findall_Record := [];
         findall_Workout := [running_session; strength_session] |} = Ok df /\
    getitem df "workout_activity_type"
      = Ok [CStr "Running"; CStr "TraditionalStrengthTraining"] /\
    getitem df "duration" = Ok [CInt 32; CInt 45] /\
    getitem df "elevation_ascended"
      = Ok [CFloat (inject_Z 25 / 10); CFloat (inject_Z 0 / 10)] /\
    getitem df "elevation_ascended_unit" = Ok [CStr "m"; CNaN] /\
    map (fun c => in_columns c df) required_columns
      = [true; true; true; true; true; true].
Proof.
  eexists. split; [vm_compute; reflexivity|].
  repeat split; vm_compute; reflexivity.
Qed.

(** C5 at a collection in which no workout carries elevation metadata, and
    at the empty collection: the flattener does not return a frame.  It
    raises at line 188, resp. line 172, on a column that no row ever
    emitted, before the loop that would add the missing columns is
    reached. *)
Theorem workouts_without_elevation_raise :
  process_workout_data export_to_datetime decimal_to_float
    {| findall_Record := []; findall_Workout := [strength_session] |}
  = Raise (DataProcessingError (KeyError "elevation_ascended")) /\
  process_workout_data export_to_datetime decimal_to_float
    {| findall_Record := []; findall_Workout := [] |}
  = Raise (DataProcessingError (KeyError "workout_activity_type")).
Proof. split; vm_compute; reflexivity. Qed.

(* ================================================================== *)
(** ** The Daily Aggregator: columns, masks and the date spine *)

Lemma map2_nil_r {A B C : Type} (f : A -> B -> C) (l : list A) :
  map2 f l [] = [].
Proof. destruct l; reflexivity. Qed.

Lemma boolean_index_nil {W : Type} (mask : list bool) :
  boolean_index mask (@nil W) = [].
Proof. unfold boolean_index. destruct mask; reflexivity. Qed.

Lemma boolean_index_cons {W : Type} (b : bool) (mask : list bool) (x : W)
  (c : list W) :
  boolean_index (b :: mask) (x :: c)
  = if b then x :: boolean_index mask c else boolean_index mask c.
Proof. unfold boolean_index. simpl. destruct b; reflexivity. Qed.

Lemma boolean_index_map {A B : Type} (f : A -> B) (mask : list bool)
  (c : list A) :
  boolean_index mask (map f c) = map f (boolean_index mask c).
Proof.
  revert c. induction mask as [|b mask IH]; intros c.
  - reflexivity.
  - destruct c as [|x c]; [reflexivity|].
    simpl map. rewrite !boolean_index_cons, IH. destruct b; reflexivity.
Qed.

Lemma boolean_index_map2 {A B C : Type} (f : A -> B -> C) (mask : list bool)
  (a : list A) (b : list B) :
  boolean_index mask (map2 f a b)
  = map2 f (boolean_index mask a) (boolean_index mask b).
Proof.
  revert a b. induction mask as [|m mask IH]; intros a b.
  - reflexivity.
  - destruct a as [|x a]; [rewrite !boolean_index_nil; reflexivity|].
    destruct b as [|y b].
    + simpl map2. rewrite !boolean_index_nil, map2_nil_r. reflexivity.
    + simpl map2. rewrite !boolean_index_cons, IH. destruct m; reflexivity.
Qed.

Lemma boolean_index_all {W : Type} (f : Z -> bool) (l : list Z) (c : list W) :
  Forall (fun d => f d = true) l ->
  List.length c = List.length l ->
  boolean_index (map f l) c = c.
Proof.
  revert c. induction l as [|d l IH]; intros c Hall Hlen.
  - destruct c; [reflexivity | discriminate].
  - destruct c as [|x c]; [discriminate|].
    inversion Hall; subst. simpl map. rewrite boolean_index_cons, H1.
    f_equal. apply IH; [assumption | simpl in Hlen; lia].
Qed.

(** On an ascending spine, keeping the dates from a day on drops a prefix:
    every column loses its first [k] rows. *)
Lemma boolean_index_from_a_day (t : Z) (l : list Z) :
  StronglySorted Z.lt l ->
  exists k : nat,
    (k <= List.length l)%nat /\
    forall (W : Type) (c : list W),
      List.length c = List.length l ->
      boolean_index (map (fun d => d >=? t) l) c = skipn k c.
Proof.
  induction 1 as [|d l Hs IH Hd].
  - exists 0%nat. split; [simpl; lia|]. intros W c Hc.
    destruct c; [reflexivity | discriminate].
  - destruct (d >=? t) eqn:Edt.
    + exists 0%nat. split; [simpl; lia|]. intros W c Hc.
      change (skipn 0 c) with c. apply boolean_index_all; [|exact Hc].
      constructor; [exact Edt|].
      apply (Forall_impl _ (P := Z.lt d)); [|exact Hd].
      intros a Ha. apply Z.geb_le. apply Z.geb_le in Edt. lia.
    + destruct IH as (k & Hk & IH). exists (S k). split; [simpl; lia|].
      intros W c Hc. destruct c as [|x c]; [discriminate|].
      simpl map. rewrite boolean_index_cons, Edt. simpl skipn.
      apply IH. simpl in Hc. lia.
Qed.

Lemma insert_unique_Forall (P : Z -> Prop) (x : Z) (l : list Z) :
  P x -> Forall P l -> Forall P (insert_unique x l).
Proof.
  intros Hx. induction 1 as [|y l Hy Hl IH]; simpl.
  - constructor; [assumption | constructor].
  - destruct (x <? y); [constructor; [assumption | constructor; assumption]|].
    destruct (x =? y); constructor; assumption.
Qed.

Lemma insert_unique_sorted (x : Z) (l : list Z) :
  StronglySorted Z.lt l -> StronglySorted Z.lt (insert_unique x l).
Proof.
  induction 1 as [|y l Hs IH Hy]; simpl.
  - constructor; constructor.
  - destruct (x <? y) eqn:Exy.
    + apply Z.ltb_lt in Exy. constructor.
      * constructor; assumption.
      * constructor; [assumption|].
        apply (Forall_impl _ (P := Z.lt y)); [intros; lia | assumption].
    + destruct (x =? y) eqn:Eeq.
      * constructor; assumption.
      * apply Z.ltb_ge in Exy. apply Z.eqb_neq in Eeq.
        constructor; [assumption|].
        apply insert_unique_Forall; [lia | assumption].
Qed.

Lemma np_unique_sorted (l : list Z) : StronglySorted Z.lt (np_unique l).
Proof.
  induction l as [|x l IH]; simpl.
  - constructor.
  - apply insert_unique_sorted. exact IH.
Qed.

(** [np.sort] leaves an ascending column as it is. *)
Lemma np_sort_sorted_id (l : list Z) :
  StronglySorted Z.lt l -> np_sort l = l.
Proof.
  induction 1 as [|x l Hs IH Hx]; [reflexivity|].
  simpl. rewrite IH. destruct l as [|y l]; [reflexivity|].
  simpl. inversion Hx; subst.
  replace (x <=? y) with true by (symmetry; apply Z.leb_le; lia).
  reflexivity.
Qed.

Lemma spine_sorted (health_df : HealthFrame) :
  StronglySorted Z.lt (spine health_df).
Proof.
  unfold spine. rewrite np_sort_sorted_id; apply np_unique_sorted.
Qed.

Lemma StronglySorted_lt_NoDup (l : list Z) :
  StronglySorted Z.lt l -> NoDup l.
Proof.
  induction 1 as [|d l Hs IH Hd]; constructor; [|exact IH].
  intros Hin. rewrite Forall_forall in Hd. specialize (Hd d Hin). lia.
Qed.

(** A grouped frame has one row per date: a left join on it neither drops
    nor repeats a row of the spine. *)
Lemma groupby_sum_keys_distinct {V W : Type} (sum : list V -> W)
  (rows : list (Z * V)) :
  NoDup (map fst (groupby_sum sum rows)).
Proof.
  unfold groupby_sum. rewrite map_map. simpl. rewrite map_id.
  apply StronglySorted_lt_NoDup. apply np_unique_sorted.
Qed.

Lemma length_merge_left {W : Type} (end_date : list Z) (right : list (Z * W)) :
  List.length (merge_left end_date right) = List.length end_date.
Proof. unfold merge_left. apply length_map. Qed.

Lemma length_sleep_metric (health_df : HealthFrame) (end_date : list Z)
  (category : string) :
  List.length (sleep_metric health_df end_date category)
  = List.length end_date.
Proof. unfold sleep_metric. rewrite length_map. apply length_merge_left. Qed.

Lemma workout_minutes_length (workout_df : WorkoutFrame) (end_date : list Z)
  (workout_type : string) (c : list Z) :
  workout_minutes workout_df end_date workout_type = Ok c ->
  List.length c = List.length end_date.
Proof.
  unfold workout_minutes. destruct (groupby_loc _ _ _) as [right|e]; simpl;
    [|discriminate].
  intros H. inversion H. unfold fillna.
  rewrite length_map. apply length_merge_left.
Qed.

Lemma nth_error_shift_m1_next {W : Type} (c : list (option W)) (i : nat) :
  (S i < List.length c)%nat ->
  nth_error (shift_m1 c) i = nth_error c (S i).
Proof.
  destruct c as [|x c]; simpl; intros H; [lia|].
  apply nth_error_app1. lia.
Qed.

Lemma nth_error_shift_m1_last {W : Type} (c : list (option W)) (i : nat) :
  S i = List.length c ->
  nth_error (shift_m1 c) i = Some None.
Proof.
  destruct c as [|x c]; simpl; intros H; [discriminate|].
  rewrite nth_error_app2 by lia.
  replace (i - List.length c)%nat with 0%nat by lia. reflexivity.
Qed.

(** What a successful run of the aggregator has computed, for the columns
    the properties below are about. *)
Lemma process_final_data_ok (health_df : HealthFrame)
  (workout_df : WorkoutFrame) (df : DailyFact) :
  process_final_data health_df workout_df = Ok df ->
  let end_date := spine health_df in
  let mask := reporting_mask health_df in
  let total :=
    col_add (col_add (core_hours health_df) (deep_hours health_df))
            (rem_hours health_df) in
  exists strength running hiit core,
    workout_minutes workout_df end_date "TraditionalStrengthTraining"
      = Ok strength /\
    workout_minutes workout_df end_date "Running" = Ok running /\
    workout_minutes workout_df end_date "HighIntensityIntervalTraining"
      = Ok hiit /\
    workout_minutes workout_df end_date "CoreTraining" = Ok core /\
    EndDate df = boolean_index mask end_date /\
    CoreSleepHours df = boolean_index mask (core_hours health_df) /\
    DeepSleepHours df = boolean_index mask (deep_hours health_df) /\
    REMSleepHours df = boolean_index mask (rem_hours health_df) /\
    TotalSleepHours df = boolean_index mask total /\
    CoreSleepHoursNextNight df
      = boolean_index mask (shift_m1 (core_hours health_df)) /\
    DeepSleepHoursNextNight df
      = boolean_index mask (shift_m1 (deep_hours health_df)) /\
    REMSleepHoursNextNight df
      = boolean_index mask (shift_m1 (rem_hours health_df)) /\
    TotalSleepHoursNextNight df = boolean_index mask (shift_m1 total) /\
    StrengthTrainingMinutes df = boolean_index mask strength /\
    RunningMinutes df = boolean_index mask running /\
    HIITMinutes df = boolean_index mask hiit /\
    CoreTrainingMinutes df = boolean_index mask core /\
    TotalWorkoutMinutes df
      = boolean_index mask (sum_columns [strength; running; core; hiit]) /\
    StrengthTrained df = boolean_index mask (map indicator strength) /\
    Ran df = boolean_index mask (map indicator running) /\
    HIITTrained df = boolean_index mask (map indicator hiit) /\
    CoreTrained df = boolean_index mask (map indicator core) /\
    Exercised df
      = boolean_index mask
          (map indicator (sum_columns [strength; running; core; hiit])).
Proof.
  intros H. cbv zeta.
  unfold process_final_data, try_except in H. cbv zeta in H.
  fold (spine health_df) in H.
  unfold bind at 1 in H.
  destruct (workout_minutes workout_df (spine health_df)
              "TraditionalStrengthTraining") as [strength|e]; [|discriminate].
  unfold bind at 1 in H.
  destruct (workout_minutes workout_df (spine health_df) "Running")
    as [running|e]; [|discriminate].
  unfold bind at 1 in H.
  destruct (workout_minutes workout_df (spine health_df)
              "HighIntensityIntervalTraining") as [hiit|e]; [|discriminate].
  unfold bind at 1 in H.
  destruct (workout_minutes workout_df (spine health_df) "CoreTraining")
    as [core|e]; [|discriminate].
  unfold bind at 1 in H.
  destruct (running_metric workout_df (spine health_df)
              (nw_distance_walking_running workout_df))
    as [miles|e]; [|discriminate].
  unfold bind at 1 in H.
  destruct (running_metric workout_df (spine health_df)
              (nw_elevation_ascended workout_df))
    as [ascended|e]; [|discriminate].
  inversion H; subst df; clear H. simpl.
  exists strength, running, hiit, core.
  repeat split; reflexivity.
Qed.

Lemma week_fact_ok : process_final_data week_frame week_workouts = Ok week_fact.
Proof. vm_compute. reflexivity. Qed.

Lemma long_fact_ok : process_final_data week_frame long_workouts = Ok long_fact.
Proof. vm_compute. reflexivity. Qed.

(* ================================================================== *)
(** ** The Daily Aggregator *)

(** The aggregator on the three nights: the night that ended in 2023 is
    outside the reporting window, the first kept night has no REM segment. *)
Example week_fact_columns :
  EndDate week_fact = [days_from_civil 2024 1 1; days_from_civil 2024 1 2] /\
  weekday week_fact = ["Monday"; "Tuesday"] /\
  WeekEndingDate week_fact
    = [days_from_civil 2024 1 7; days_from_civil 2024 1 7] /\
  REMSleepHours week_fact = [None; Some (inject_Z 10 / 10)%Q] /\
  StrengthTrainingMinutes week_fact = [45; 0] /\
  RunningMinutes week_fact = [0; 20] /\
  StrengthTrained week_fact = [1; 0] /\
  Exercised week_fact = [1; 1].
Proof. repeat split; vm_compute; reflexivity. Qed.

(** C1 at a workout table with no interval-training row: the aggregation
    does not produce a 0-filled [HIITMinutes] column, it raises; the label
    given to [.loc] is not a key of the grouped frame. *)
Theorem absent_workout_type_raises :
  process_final_data week_frame workouts_without_hiit
  = Raise (DataProcessingError (KeyError "HighIntensityIntervalTraining")).
Proof. vm_compute. reflexivity. Qed.

(** A workout table with no row of one of the four activity types is never
    aggregated: the run ends in a [DataProcessingError]. *)
Lemma workout_minutes_absent (workout_df : WorkoutFrame) (end_date : list Z)
  (workout_type : string) :
  ~ In workout_type (nw_workout_activity_type workout_df) ->
  workout_minutes workout_df end_date workout_type
  = Raise (KeyError workout_type).
Proof.
  intros Habs. unfold workout_minutes, groupby_loc.
  destruct (filter _ _) as [|r rs] eqn:E; [reflexivity|].
  exfalso. apply Habs.
  assert (Hr : In r (r :: rs)) by (left; reflexivity).
  rewrite <- E in Hr. apply filter_In in Hr. destruct Hr as [Hin Heq].
  apply String.eqb_eq in Heq. rewrite <- Heq.
  destruct r as [t de]. apply in_combine_l in Hin. exact Hin.
Qed.

Lemma absent_activity_type_raises (health_df : HealthFrame)
  (workout_df : WorkoutFrame) (workout_type : string) :
  In workout_type
     [ "TraditionalStrengthTraining"; "Running";
       "HighIntensityIntervalTraining"; "CoreTraining" ] ->
  ~ In workout_type (nw_workout_activity_type workout_df) ->
  is_ok (process_final_data health_df workout_df) = false.
Proof.
  intros Hty Habs.
  destruct (process_final_data health_df workout_df) as [df|e] eqn:E;
    [|reflexivity].
  exfalso.
  destruct (process_final_data_ok _ _ _ E)
    as (s & r & h & c & E1 & E2 & E3 & E4 & _).
  pose proof (workout_minutes_absent workout_df (spine health_df)
                workout_type Habs) as Hr.
  simpl in Hty.
  destruct Hty as [<-|[<-|[<-|[<-|[]]]]]; congruence.
Qed.

Lemma StronglySorted_skipn {A : Type} (R : A -> A -> Prop) (k : nat)
  (l : list A) :
  StronglySorted R l -> StronglySorted R (skipn k l).
Proof.
  intros Hs. revert k. induction Hs as [|d l Hs IH Hd]; intros k.
  - destruct k; constructor.
  - destruct k as [|k]; [constructor; assumption|]. simpl. apply IH.
Qed.

Lemma length_col_add (a b : list (option Q)) :
  List.length (col_add a b) = Nat.min (List.length a) (List.length b).
Proof. apply length_map2. Qed.

Create Rewrite HintDb columns.

#[local] Hint Rewrite length_col_add length_sleep_metric
  @length_merge_left @length_map : columns.

(** The sleep columns have one cell per date of the spine. *)
Lemma sleep_columns_length (health_df : HealthFrame) :
  let n := List.length (spine health_df) in
  List.length (core_hours health_df) = n /\
  List.length (deep_hours health_df) = n /\
  List.length (rem_hours health_df) = n /\
  List.length (col_add (col_add (core_hours health_df) (deep_hours health_df))
                       (rem_hours health_df)) = n.
Proof.
  unfold core_hours, deep_hours, rem_hours. cbv zeta.
  repeat split; autorewrite with columns; lia.
Qed.

(** C6.  In every row of DailyFact, [TotalSleepHours] is
    [CoreSleepHours + DeepSleepHours + REMSleepHours] when the three are
    present, and missing when one of them is missing; the four columns have
    one cell per row. *)
Theorem total_sleep_is_the_sum_of_the_three
  (health_df : HealthFrame) (workout_df : WorkoutFrame) (df : DailyFact) :
  process_final_data health_df workout_df = Ok df ->
  List.length (CoreSleepHours df) = List.length (EndDate df) /\
  List.length (DeepSleepHours df) = List.length (EndDate df) /\
  List.length (REMSleepHours df) = List.length (EndDate df) /\
  List.length (TotalSleepHours df) = List.length (EndDate df) /\
  forall (i : nat) (core deep rem : option Q),
    nth_error (CoreSleepHours df) i = Some core ->
    nth_error (DeepSleepHours df) i = Some deep ->
    nth_error (REMSleepHours df) i = Some rem ->
    nth_error (TotalSleepHours df) i
    = Some (match core, deep, rem with
            | Some c, Some d, Some r => Some (c + d + r)%Q
            | _, _, _ => None
            end).
Proof.
  intros H.
  destruct (process_final_data_ok _ _ _ H)
    as (strength & running & hiit & core & _ & _ & _ & _ & HE & HC & HD & HR
        & HT & _).
  destruct (boolean_index_from_a_day (days_from_civil 2024 1 1)
              (spine health_df) (spine_sorted health_df)) as (k & Hk & Hmask).
  fold (reporting_mask health_df) in Hmask.
  destruct (sleep_columns_length health_df) as (Lc & Ld & Lr & Lt).
  split. { rewrite HC, HE, !Hmask, !length_skipn by auto. lia. }
  split. { rewrite HD, HE, !Hmask, !length_skipn by auto. lia. }
  split. { rewrite HR, HE, !Hmask, !length_skipn by auto. lia. }
  split. { rewrite HT, HE, !Hmask, !length_skipn by auto. lia. }
  intros i c d r Hc Hd Hr.
  rewrite HT. unfold col_add. rewrite !boolean_index_map2.
  rewrite <- HC, <- HD, <- HR, !nth_error_map2, Hc, Hd, Hr.
  destruct c, d, r; reflexivity.
Qed.

Lemma total_sleep_is_the_sum_of_the_three_witness :
  nth_error (TotalSleepHours week_fact) 1
    = Some (Some ((25 # 10) + (5 # 10) + (10 # 10))%Q) /\
  nth_error (TotalSleepHours week_fact) 0 = Some None.
Proof.
  destruct (total_sleep_is_the_sum_of_the_three week_frame week_workouts
              week_fact week_fact_ok) as (_ & _ & _ & _ & Hsum).
  split.
  - exact (Hsum 1%nat (Some (25 # 10)) (Some (5 # 10)) (Some (10 # 10))
             eq_refl eq_refl eq_refl).
  - exact (Hsum 0%nat (Some (30 # 10)) (Some (10 # 10)) None
             eq_refl eq_refl eq_refl).
Defined.

(** C7.  For each of the four sleep metrics, the NextNight cell of a row of
    DailyFact is the metric's cell on the row that follows it, the rows
    being in ascending date order, and the NextNight cells of the last row
    are missing. *)
Theorem next_night_is_the_following_row
  (health_df : HealthFrame) (workout_df : WorkoutFrame) (df : DailyFact) :
  process_final_data health_df workout_df = Ok df ->
  StronglySorted Z.lt (EndDate df) /\
  (forall i : nat,
     (S i < List.length (EndDate df))%nat ->
     (exists v, nth_error (CoreSleepHours df) (S i) = Some v) /\
     nth_error (CoreSleepHoursNextNight df) i
       = nth_error (CoreSleepHours df) (S i) /\
     nth_error (DeepSleepHoursNextNight df) i
       = nth_error (DeepSleepHours df) (S i) /\
     nth_error (REMSleepHoursNextNight df) i
       = nth_error (REMSleepHours df) (S i) /\
     nth_error (TotalSleepHoursNextNight df) i
       = nth_error (TotalSleepHours df) (S i)) /\
  (forall i : nat,
     S i = List.length (EndDate df) ->
     nth_error (CoreSleepHoursNextNight df) i = Some None /\
     nth_error (DeepSleepHoursNextNight df) i = Some None /\
     nth_error (REMSleepHoursNextNight df) i = Some None /\
     nth_error (TotalSleepHoursNextNight df) i = Some None).
Proof.
  intros H.
  destruct (process_final_data_ok _ _ _ H)
    as (strength & running & hiit & core & _ & _ & _ & _ & HE & HC & HD & HR
        & HT & HCN & HDN & HRN & HTN & _).
  destruct (boolean_index_from_a_day (days_from_civil 2024 1 1)
              (spine health_df) (spine_sorted health_df)) as (k & Hk & Hmask).
  fold (reporting_mask health_df) in Hmask.
  set (n := List.length (spine health_df)) in *.
  destruct (sleep_columns_length health_df) as (Lc & Ld & Lr & Lt).
  fold n in Lc, Ld, Lr, Lt.
  set (total := col_add (col_add (core_hours health_df) (deep_hours health_df))
                        (rem_hours health_df)) in *.
  fold total in Lt.
  assert (Lshift : forall c : list (option Q),
             List.length c = n -> List.length (shift_m1 c) = n).
  { intros c Hc. destruct c as [|x c]; [exact Hc|].
    simpl. rewrite length_app. simpl in *. lia. }
  rewrite HE, HC, HD, HR, HT, HCN, HDN, HRN, HTN.
  rewrite !Hmask by auto.
  rewrite length_skipn. fold n.
  split.
  { apply StronglySorted_skipn. apply spine_sorted. }
  split.
  - intros i Hi. rewrite !nth_error_skipn.
    replace (k + S i)%nat with (S (k + i)) by lia.
    split.
    { destruct (nth_error (core_hours health_df) (S (k + i))) as [v|] eqn:E.
      - exists v. reflexivity.
      - apply nth_error_None in E. lia. }
    repeat split; apply nth_error_shift_m1_next; lia.
  - intros i Hi. rewrite !nth_error_skipn.
    repeat split; apply nth_error_shift_m1_last; lia.
Qed.

Lemma next_night_is_the_following_row_witness :
  nth_error (CoreSleepHoursNextNight week_fact) 0
    = nth_error (CoreSleepHours week_fact) 1 /\
  nth_error (TotalSleepHoursNextNight week_fact) 0
    = nth_error (TotalSleepHours week_fact) 1 /\
  nth_error (CoreSleepHoursNextNight week_fact) 1 = Some None /\
  nth_error (TotalSleepHoursNextNight week_fact) 1 = Some None.
Proof.
  destruct (next_night_is_the_following_row week_frame week_workouts
              week_fact week_fact_ok) as (_ & Hnext & Hlast).
  destruct (Hnext 0%nat) as (_ & Hc & _ & _ & Ht).
  { simpl. lia. }
  destruct (Hlast 1%nat eq_refl) as (Hcl & _ & _ & Htl).
  split; [exact Hc|]. split; [exact Ht|]. split; [exact Hcl | exact Htl].
Defined.

Lemma indicator_spec (x : Z) :
  (indicator x = 1 /\ 0 < x) \/ (indicator x = 0 /\ x <= 0).
Proof. unfold indicator. destruct (x >? 0) eqn:E; lia. Qed.

Lemma wrap64_small (z : Z) :
  - int64_max - 1 <= z <= int64_max -> wrap64 z = z.
Proof.
  unfold wrap64, int64_max. intros H.
  rewrite Z.mod_small by lia. lia.
Qed.

(** C10.  In every row of DailyFact whose four workout-minute cells are
    nonnegative and add up to an int64, [TotalWorkoutMinutes] is their sum,
    each indicator is 0 or 1, and [Exercised] is 1 exactly when one of
    [StrengthTrained], [Ran], [HIITTrained], [CoreTrained] is 1. *)
Theorem exercised_is_the_disjunction_of_the_indicators
  (health_df : HealthFrame) (workout_df : WorkoutFrame) (df : DailyFact)
  (i : nat) (strength running hiit core : Z) :
  process_final_data health_df workout_df = Ok df ->
  nth_error (StrengthTrainingMinutes df) i = Some strength ->
  nth_error (RunningMinutes df) i = Some running ->
  nth_error (HIITMinutes df) i = Some hiit ->
  nth_error (CoreTrainingMinutes df) i = Some core ->
  0 <= strength -> 0 <= running -> 0 <= hiit -> 0 <= core ->
  strength + running + core + hiit <= int64_max ->
  exists st ra hi co ex,
    nth_error (TotalWorkoutMinutes df) i
      = Some (strength + running + core + hiit) /\
    nth_error (StrengthTrained df) i = Some st /\
    nth_error (Ran df) i = Some ra /\
    nth_error (HIITTrained df) i = Some hi /\
    nth_error (CoreTrained df) i = Some co /\
    nth_error (Exercised df) i = Some ex /\
    (ex = 0 \/ ex = 1) /\
    (ex = 1 <-> st = 1 \/ ra = 1 \/ hi = 1 \/ co = 1).
Proof.
  intros H Hs Hr Hh Hc Ps Pr Ph Pc Pmax.
  destruct (process_final_data_ok _ _ _ H)
    as (S & R & Hi & C & _ & _ & _ & _ & _ & _ & _ & _ & _ & _ & _ & _ & _
        & HS & HR & HH & HC & HT & HSt & HRa & HHi & HCo & HEx).
  exists (indicator strength), (indicator running), (indicator hiit),
         (indicator core), (indicator (strength + running + core + hiit)).
  rewrite HT, HSt, HRa, HHi, HCo, HEx.
  unfold sum_columns, col_add_int. cbn [fold_left].
  rewrite !boolean_index_map, !boolean_index_map2, !boolean_index_map.
  rewrite <- HS, <- HR, <- HH, <- HC.
  rewrite !nth_error_map, !nth_error_map2, !nth_error_map, Hs, Hr, Hh, Hc.
  cbn [option_map].
  assert (W : wrap64
                (wrap64 (wrap64 (wrap64 (0 + strength) + running) + core)
                 + hiit)
              = strength + running + core + hiit).
  { unfold int64_max in Pmax.
    rewrite (wrap64_small (0 + strength)) by (unfold int64_max; lia).
    rewrite (wrap64_small (0 + strength + running))
      by (unfold int64_max; lia).
    rewrite (wrap64_small (0 + strength + running + core))
      by (unfold int64_max; lia).
    rewrite wrap64_small by (unfold int64_max; lia). lia. }
  rewrite W.
  repeat (split; [reflexivity|]).
  destruct (indicator_spec strength), (indicator_spec running),
    (indicator_spec hiit), (indicator_spec core),
    (indicator_spec (strength + running + core + hiit)); lia.
Qed.

Lemma exercised_is_the_disjunction_of_the_indicators_witness :
  exists st ra hi co ex,
    nth_error (TotalWorkoutMinutes week_fact) 1 = Some (0 + 20 + 0 + 10) /\
    nth_error (StrengthTrained week_fact) 1 = Some st /\
    nth_error (Ran week_fact) 1 = Some ra /\
    nth_error (HIITTrained week_fact) 1 = Some hi /\
    nth_error (CoreTrained week_fact) 1 = Some co /\
    nth_error (Exercised week_fact) 1 = Some ex /\
    (ex = 0 \/ ex = 1) /\
    (ex = 1 <-> st = 1 \/ ra = 1 \/ hi = 1 \/ co = 1).
Proof.
  apply (exercised_is_the_disjunction_of_the_indicators week_frame
           week_workouts week_fact 1 0 20 10 0 week_fact_ok);
    first [reflexivity | unfold int64_max; lia].
Defined.

(** C10, as stated, fails: on a day with a strength session and a run of
    2^62 minutes each, the four minute cells are nonnegative and two
    indicators are 1, but the int64 total wraps around to -2^63 and
    [Exercised] is 0. *)
Lemma long_sessions_are_not_exercise :
  ~ (forall (health_df : HealthFrame) (workout_df : WorkoutFrame)
            (df : DailyFact) (i : nat) (strength running hiit core : Z),
       process_final_data health_df workout_df = Ok df ->
       nth_error (StrengthTrainingMinutes df) i = Some strength ->
       nth_error (RunningMinutes df) i = Some running ->
       nth_error (HIITMinutes df) i = Some hiit ->
       nth_error (CoreTrainingMinutes df) i = Some core ->
       0 <= strength -> 0 <= running -> 0 <= hiit -> 0 <= core ->
       exists st ra hi co ex,
         nth_error (StrengthTrained df) i = Some st /\
         nth_error (Ran df) i = Some ra /\
         nth_error (HIITTrained df) i = Some hi /\
         nth_error (CoreTrained df) i = Some co /\
         nth_error (Exercised df) i = Some ex /\
         (ex = 1 <-> st = 1 \/ ra = 1 \/ hi = 1 \/ co = 1)).
Proof.
  intros claim.
  destruct (claim week_frame long_workouts long_fact 0%nat
              4611686018427387904 4611686018427387904 0 0
              long_fact_ok eq_refl eq_refl eq_refl eq_refl)
    as (st & ra & hi & co & ex & Hst & _ & _ & _ & Hex & Hiff); try lia.
  vm_compute in Hst, Hex. inversion Hst. inversion Hex. subst st ex.
  assert (F : 0 = 1) by (apply Hiff; left; reflexivity). discriminate F.
Qed.

(* ================================================================== *)
(** ** The regimen summary *)

Lemma insert_sorted_In (x y : Z) (l : list Z) :
  In y (insert_sorted x l) <-> y = x \/ In y l.
Proof.
  induction l as [|a l IH]; simpl.
  - intuition.
  - destruct (x <=? a); simpl; [intuition|]. rewrite IH. intuition.
Qed.

Lemma np_sort_In (y : Z) (l : list Z) : In y (np_sort l) <-> In y l.
Proof.
  induction l as [|a l IH]; simpl; [reflexivity|].
  rewrite insert_sorted_In, IH. intuition.
Qed.

Lemma length_insert_sorted (x : Z) (l : list Z) :
  List.length (insert_sorted x l) = S (List.length l).
Proof.
  induction l as [|a l IH]; simpl; [reflexivity|].
  destruct (x <=? a); simpl; [reflexivity | rewrite IH; reflexivity].
Qed.

Lemma length_np_sort (l : list Z) : List.length (np_sort l) = List.length l.
Proof.
  induction l as [|a l IH]; simpl; [reflexivity|].
  rewrite length_insert_sorted, IH. reflexivity.
Qed.

Lemma insert_sorted_sorted (x : Z) (l : list Z) :
  StronglySorted Z.le l -> StronglySorted Z.le (insert_sorted x l).
Proof.
  induction 1 as [|a l Hs IH Ha]; simpl.
  - constructor; constructor.
  - destruct (x <=? a) eqn:E.
    + apply Z.leb_le in E. constructor; [constructor; assumption|].
      constructor; [assumption|].
      apply (Forall_impl _ (P := Z.le a)); [intros; lia | assumption].
    + apply Z.leb_gt in E. constructor; [assumption|].
      apply Forall_forall. intros y Hy. apply insert_sorted_In in Hy.
      destruct Hy as [->|Hy]; [lia|].
      rewrite Forall_forall in Ha. apply Ha. exact Hy.
Qed.

Lemma np_sort_sorted (l : list Z) : StronglySorted Z.le (np_sort l).
Proof.
  induction l as [|a l IH]; simpl; [constructor|].
  apply insert_sorted_sorted. exact IH.
Qed.

Lemma sorted_nth_le (s : list Z) :
  StronglySorted Z.le s ->
  forall i j : nat, (i <= j < List.length s)%nat -> nth i s 0 <= nth j s 0.
Proof.
  induction 1 as [|a l Hs IH Ha]; intros i j Hij; simpl in Hij; [lia|].
  destruct j as [|j].
  - replace i with 0%nat by lia. simpl. lia.
  - destruct i as [|i]; simpl.
    + rewrite Forall_forall in Ha. apply Ha. apply nth_In. lia.
    + apply IH. lia.
Qed.

Lemma rank_le (s : list Z) (i j : Z) :
  StronglySorted Z.le s ->
  0 <= i <= j -> j < Z.of_nat (List.length s) ->
  rank s i <= rank s j.
Proof.
  intros Hs Hij Hj. unfold rank. apply sorted_nth_le; [exact Hs | lia].
Qed.

Lemma rank_In (s : list Z) (i : Z) :
  0 <= i < Z.of_nat (List.length s) -> In (rank s i) s.
Proof. intros H. unfold rank. apply nth_In. lia. Qed.

Lemma fold_min_le (l : list Z) (a : Z) :
  fold_left Z.min l a <= a /\ forall y, In y l -> fold_left Z.min l a <= y.
Proof.
  revert a. induction l as [|b l IH]; intros a; simpl.
  - split; [lia | intros y []].
  - destruct (IH (Z.min a b)) as [H1 H2]. split; [lia|].
    intros y [<-|Hy]; [lia | apply H2; exact Hy].
Qed.

Lemma fold_max_ge (l : list Z) (a : Z) :
  a <= fold_left Z.max l a /\ forall y, In y l -> y <= fold_left Z.max l a.
Proof.
  revert a. induction l as [|b l IH]; intros a; simpl.
  - split; [lia | intros y []].
  - destruct (IH (Z.max a b)) as [H1 H2]. split; [lia|].
    intros y [<-|Hy]; [lia | apply H2; exact Hy].
Qed.

Lemma list_min_le (x : list Z) (y : Z) : In y x -> list_min x <= y.
Proof.
  destruct x as [|a x]; simpl; [intros []|].
  destruct (fold_min_le x a) as [H1 H2]. intros [<-|Hy]; [exact H1 | auto].
Qed.

Lemma list_max_ge (x : list Z) (y : Z) : In y x -> y <= list_max x.
Proof.
  destruct x as [|a x]; simpl; [intros []|].
  destruct (fold_max_ge x a) as [H1 H2]. intros [<-|Hy]; [exact H1 | auto].
Qed.

(** The interpolated value lies between its two neighbours. *)
Lemma lerp_bounds (s : list Z) (pos : Q) :
  StronglySorted Z.le s ->
  (0 <= pos)%Q -> (pos <= inject_Z (Z.of_nat (List.length s) - 1))%Q ->
  let lo := Qfloor pos in
  let hi := Z.min (lo + 1) (Z.of_nat (List.length s) - 1) in
  0 <= lo <= hi /\ hi < Z.of_nat (List.length s) /\
  (inject_Z (rank s lo) <= lerp s pos)%Q /\
  (lerp s pos <= inject_Z (rank s hi))%Q.
Proof.
  intros Hs H0 Hn lo hi.
  assert (Hlo0 : 0 <= lo).
  { apply Qfloor_resp_le in H0. exact H0. }
  assert (Hlon : lo <= Z.of_nat (List.length s) - 1).
  { apply Qfloor_resp_le in Hn. rewrite Qfloor_Z in Hn. exact Hn. }
  assert (Hhi : lo <= hi) by (unfold hi; lia).
  assert (Hhn : hi < Z.of_nat (List.length s)) by (unfold hi; lia).
  split; [lia|]. split; [exact Hhn|].
  assert (Hr : (inject_Z (rank s lo) <= inject_Z (rank s hi))%Q).
  { rewrite <- Zle_Qle. apply rank_le; [exact Hs | lia | lia]. }
  pose proof (Qfloor_le pos) as Hf1. pose proof (Qlt_floor pos) as Hf2.
  fold lo in Hf1, Hf2. rewrite inject_Z_plus in Hf2.
  unfold lerp. fold lo. fold hi.
  set (a := inject_Z (rank s lo)) in *. set (b := inject_Z (rank s hi)) in *.
  set (l := inject_Z lo) in *.
  change (inject_Z 1) with 1%Q in Hf2.
  split; nra.
Qed.

Lemma lerp_monotone (s : list Z) (p1 p2 : Q) :
  StronglySorted Z.le s ->
  (0 <= p1)%Q -> (p1 <= p2)%Q ->
  (p2 <= inject_Z (Z.of_nat (List.length s) - 1))%Q ->
  (lerp s p1 <= lerp s p2)%Q.
Proof.
  intros Hs H0 H12 Hn.
  assert (H1n : (p1 <= inject_Z (Z.of_nat (List.length s) - 1))%Q) by lra.
  assert (H02 : (0 <= p2)%Q) by lra.
  destruct (lerp_bounds s p1 Hs H0 H1n) as (Hl1 & Hh1 & Hlo1 & Hhi1).
  destruct (lerp_bounds s p2 Hs H02 Hn) as (Hl2 & Hh2 & Hlo2 & Hhi2).
  pose proof (Qfloor_resp_le _ _ H12) as Hfl.
  destruct (Z.eq_dec (Qfloor p1) (Qfloor p2)) as [E|NE].
  - unfold lerp. rewrite <- E.
    set (lo := Qfloor p1) in *.
    set (hi := Z.min (lo + 1) (Z.of_nat (List.length s) - 1)) in *.
    assert (Hr : (inject_Z (rank s lo) <= inject_Z (rank s hi))%Q).
    { rewrite <- Zle_Qle. apply rank_le; [exact Hs | lia | lia]. }
    set (a := inject_Z (rank s lo)) in *. set (b := inject_Z (rank s hi)) in *.
    nra.
  - apply Qle_trans with (1 := Hhi1). apply Qle_trans with (2 := Hlo2).
    rewrite <- Zle_Qle. apply rank_le; [exact Hs | lia | lia].
Qed.

Lemma Qfloor_half (m : Z) : Qfloor ((1 # 2) * inject_Z m) = m / 2.
Proof.
  unfold Qfloor, Qmult, inject_Z. simpl.
  destruct m; reflexivity.
Qed.

(** The median is the quantile of order one half. *)
Lemma median_is_the_half_quantile (x : list Z) :
  x <> [] -> (median x == quantile x (1 # 2))%Q.
Proof.
  intros Hx. unfold median, quantile, lerp.
  set (s := np_sort x).
  assert (Hn : 1 <= Z.of_nat (List.length s)).
  { unfold s. rewrite length_np_sort. destruct x; [contradiction | simpl; lia]. }
  set (n := Z.of_nat (List.length s)) in *. clearbody n.
  rewrite Qfloor_half.
  destruct (Z.odd n) eqn:Eodd.
  - apply Z.odd_spec in Eodd. destruct Eodd as [k Hk].
    replace (n / 2) with k by (Z.to_euclidean_division_equations; lia).
    replace ((n - 1) / 2) with k by (Z.to_euclidean_division_equations; lia).
    replace (n - 1) with (2 * k) by lia.
    rewrite inject_Z_mult. change (inject_Z 2) with 2%Q. ring.
  - assert (Heven : Z.even n = true).
    { rewrite <- Z.negb_odd, Eodd. reflexivity. }
    apply Z.even_spec in Heven. destruct Heven as [k Hk].
    replace (n / 2) with k by (Z.to_euclidean_division_equations; lia).
    replace ((n - 1) / 2) with (k - 1)
      by (Z.to_euclidean_division_equations; lia).
    replace (Z.min (k - 1 + 1) (n - 1)) with k by lia.
    replace (n - 1) with (2 * k - 1) by lia.
    unfold Z.sub. rewrite !inject_Z_plus, inject_Z_mult.
    change (inject_Z 2) with 2%Q. change (inject_Z (- (1))) with (-1)%Q.
    field.
Qed.

Lemma agg_monotonic (x : list Z) (f : FiveNumber) :
  agg x = Some f -> monotonic f.
Proof.
  intros H.
  assert (Hx : x <> []) by (destruct x; [discriminate | discriminate]).
  assert (Hf : f = {| Min := inject_Z (list_min x);
                      Q1 := quantile x (1 # 4);
                      Median := median x;
                      Q3 := quantile x (3 # 4);
                      Max := inject_Z (list_max x) |}).
  { destruct x; [discriminate|]. inversion H. reflexivity. }
  subst f. clear H. unfold monotonic. simpl.
  rewrite (median_is_the_half_quantile x Hx).
  unfold quantile.
  pose proof (np_sort_sorted x) as Hs.
  set (s := np_sort x) in *.
  assert (Hn : 1 <= Z.of_nat (List.length s)).
  { unfold s. rewrite length_np_sort. destruct x; [contradiction | simpl; lia]. }
  set (M := inject_Z (Z.of_nat (List.length s) - 1)).
  assert (HM : (0 <= M)%Q).
  { unfold M. change 0%Q with (inject_Z 0). rewrite <- Zle_Qle. lia. }
  assert (B1 : (0 <= (1 # 4) * M)%Q) by lra.
  assert (B1' : ((1 # 4) * M <= M)%Q) by lra.
  assert (B3 : (0 <= (3 # 4) * M)%Q) by lra.
  assert (B3' : ((3 # 4) * M <= M)%Q) by lra.
  destruct (lerp_bounds s _ Hs B1 B1') as (Hl1 & Hh1 & Hlo1 & _).
  destruct (lerp_bounds s _ Hs B3 B3') as (Hl3 & Hh3 & _ & Hhi3).
  split; [|split; [|split]].
  - apply Qle_trans with (2 := Hlo1). rewrite <- Zle_Qle.
    apply list_min_le. apply (np_sort_In _ x). apply rank_In. fold s. lia.
  - apply lerp_monotone; [exact Hs | lra | lra | fold M; lra].
  - apply lerp_monotone; [exact Hs | lra | lra | fold M; lra].
  - apply Qle_trans with (1 := Hhi3). rewrite <- Zle_Qle.
    apply list_max_ge. apply (np_sort_In _ x). apply rank_In. fold s. lia.
Qed.

(** C8.  The regimen summary has two rows, labelled 'A' and 'B'.  Row A is
    the five-number summary of the strength-training minutes of exactly the
    DailyFact rows with EndDate before 2024-12-31 and minutes above 0, row B
    of exactly those with EndDate on or after 2024-12-31 and minutes above 0;
    a cohort with a row has a summary, and in each summary
    Min <= Q1 <= Median <= Q3 <= Max. *)
Theorem regimen_summary_by_cohort (df_final : DailyFact) :
  exists a b : RegimenRow,
    regimen_dist df_final = [a; b] /\
    Regimen a = "A" /\ Regimen b = "B" /\
    summary a = agg (map snd (filter in_regimen_a (regimen_rows df_final))) /\
    summary b = agg (map snd (filter in_regimen_b (regimen_rows df_final))) /\
    (forall r, In r (filter in_regimen_a (regimen_rows df_final)) <->
               In r (regimen_rows df_final) /\
               fst r < days_from_civil 2024 12 31 /\ 0 < snd r) /\
    (forall r, In r (filter in_regimen_b (regimen_rows df_final)) <->
               In r (regimen_rows df_final) /\
               days_from_civil 2024 12 31 <= fst r /\ 0 < snd r) /\
    (forall r, In r (filter in_regimen_a (regimen_rows df_final)) ->
               exists f, summary a = Some f) /\
    (forall r, In r (filter in_regimen_b (regimen_rows df_final)) ->
               exists f, summary b = Some f) /\
    (forall f, summary a = Some f -> monotonic f) /\
    (forall f, summary b = Some f -> monotonic f).
Proof.
  exists (regimen_a_dist df_final), (regimen_b_dist df_final).
  unfold regimen_a_dist, regimen_b_dist. fold (regimen_rows df_final). simpl.
  split; [reflexivity|]. split; [reflexivity|]. split; [reflexivity|].
  split; [reflexivity|]. split; [reflexivity|].
  split.
  { intros r. rewrite filter_In. unfold in_regimen_a, regimen_cutoff.
    rewrite andb_true_iff, Z.ltb_lt, Z.gtb_ltb, Z.ltb_lt. tauto. }
  split.
  { intros r. rewrite filter_In. unfold in_regimen_b, regimen_cutoff.
    rewrite andb_true_iff, Z.geb_le, Z.gtb_ltb, Z.ltb_lt. tauto. }
  split.
  { intros r Hr. destruct (filter in_regimen_a (regimen_rows df_final));
      [destruct Hr | simpl; eexists; reflexivity]. }
  split.
  { intros r Hr. destruct (filter in_regimen_b (regimen_rows df_final));
      [destruct Hr | simpl; eexists; reflexivity]. }
  split; intros f Hf; apply (agg_monotonic _ _ Hf).
Qed.

Lemma regimen_summary_by_cohort_witness :
  exists fa fb : FiveNumber,
    map summary (regimen_dist new_year_fact) = [Some fa; Some fb] /\
    map Regimen (regimen_dist new_year_fact) = ["A"; "B"] /\
    monotonic fa /\ monotonic fb /\
    (Min fb == 45 /\ Q1 fb == 95 # 2 /\ Median fb == 50 /\ Q3 fb == 55
     /\ Max fb == 60)%Q.
Proof.
  destruct (regimen_summary_by_cohort new_year_fact)
    as (a & b & Hd & Ha & Hb & Hsa & Hsb & _ & _ & _ & _ & Hma & Hmb).
  destruct (summary a) as [fa|] eqn:Ea; [|vm_compute in Hsa; discriminate].
  destruct (summary b) as [fb|] eqn:Eb; [|vm_compute in Hsb; discriminate].
  exists fa, fb. rewrite Hd. simpl map. rewrite Ha, Hb, Ea, Eb.
  split; [reflexivity|]. split; [reflexivity|].
  split; [apply Hma; reflexivity|]. split; [apply Hmb; reflexivity|].
  vm_compute in Hsb. inversion Hsb. simpl.
  repeat split; reflexivity.
Defined.

(* ================================================================== *)
(** ** The Record Flattener, row by row *)

Lemma mapM_is_ok {A B : Type} (f : A -> Result B) (l : list A) :
  is_ok (mapM f l) = true <-> Forall (fun x => is_ok (f x) = true) l.
Proof.
  induction l as [|x l IH]; simpl.
  - split; [constructor | reflexivity].
  - destruct (f x) as [y|e] eqn:E; simpl.
    + destruct (mapM f l) as [ys|e]; simpl.
      * split; [|reflexivity]. intros _. constructor; [rewrite E; reflexivity|].
        apply IH. reflexivity.
      * split; [discriminate|]. intros H. inversion H; subst.
        apply IH. assumption.
    + split; [discriminate|]. intros H. inversion H; subst.
      rewrite E in *. discriminate.
Qed.

Lemma astype_float_is_ok (to_float : string -> option Q) (v : option string) :
  is_ok (astype_float to_float (replace_value (obj_of_attr v))) = true
  <-> castable to_float v.
Proof.
  unfold castable, replace_value, obj_of_attr.
  set (vr := value_replacements). clearbody vr.
  destruct v as [s|]; [|split; auto].
  destruct (existsb (String.eqb s) vr) eqn:E.
  - split; [|reflexivity]. intros _. left.
    apply existsb_exists in E. destruct E as (x & Hx & Hs).
    apply String.eqb_eq in Hs. subst x. exact Hx.
  - unfold astype_float. destruct (to_float s) eqn:F.
    + split; [|reflexivity]. intros _. right. discriminate.
    + split; [discriminate|]. intros [H|H]; [|contradiction].
      assert (existsb (String.eqb s) vr = true).
      { apply existsb_exists. exists s. split; [exact H | apply String.eqb_refl]. }
      congruence.
Qed.

Lemma uniform_offsets_spec (c : list Timestamp) :
  uniform_offsets c = true
  <-> forall a b, In a c -> In b c -> utcoffset a = utcoffset b.
Proof.
  destruct c as [|ts c]; [split; [intros _ a b []|reflexivity]|].
  cbn [uniform_offsets]. rewrite forallb_forall. split.
  - intros H a b Ha Hb.
    assert (K : forall x, In x (ts :: c) -> utcoffset x = utcoffset ts).
    { intros x [<-|Hx]; [reflexivity|]. apply Z.eqb_eq. apply H. exact Hx. }
    rewrite (K a Ha), (K b Hb). reflexivity.
  - intros H x Hx. apply Z.eqb_eq. apply H; [right; exact Hx|].
    left. reflexivity.
Qed.

Lemma mapM_to_datetime_parsed (to_datetime : string -> option Timestamp)
  (texts : list string) (c : list Timestamp) :
  mapM (pd_to_datetime to_datetime) texts = Ok c ->
  Forall2 (fun s ts => to_datetime s = Some ts) texts c.
Proof.
  revert c. induction texts as [|s texts IH]; intros c H.
  - inversion H. constructor.
  - cbn [mapM] in H. unfold pd_to_datetime at 1 in H.
    destruct (to_datetime s) as [ts|] eqn:E; [|discriminate].
    cbn [bind] in H.
    destruct (mapM (pd_to_datetime to_datetime) texts) as [c'|e];
      [|discriminate].
    cbn [bind] in H. inversion H. constructor; [exact E|].
    apply IH. reflexivity.
Qed.

Lemma Forall2_In_l {A B : Type} (R : A -> B -> Prop) (l : list A)
  (l' : list B) (x : A) :
  Forall2 R l l' -> In x l -> exists y, In y l' /\ R x y.
Proof.
  induction 1 as [|a b l l' Hab HF IH]; [intros []|].
  intros [<-|Hx].
  - exists b. split; [left; reflexivity | exact Hab].
  - destruct (IH Hx) as (y & Hy & Hr). exists y. split; [right|]; assumption.
Qed.

Lemma Forall2_In_r {A B : Type} (R : A -> B -> Prop) (l : list A)
  (l' : list B) (y : B) :
  Forall2 R l l' -> In y l' -> exists x, In x l /\ R x y.
Proof.
  induction 1 as [|a b l l' Hab HF IH]; [intros []|].
  intros [<-|Hy].
  - exists a. split; [left; reflexivity | exact Hab].
  - destruct (IH Hy) as (x & Hx & Hr). exists x. split; [right|]; assumption.
Qed.

(** When a column of texts is read as a datetime column. *)
Lemma datetime_column_iff (to_datetime : string -> option Timestamp)
  (texts : list string) :
  datetime_column (mapM (pd_to_datetime to_datetime) texts) = true
  <-> (forall s, In s texts -> to_datetime s <> None)
      /\ one_offset to_datetime texts.
Proof.
  assert (Hd : forall s, is_ok (pd_to_datetime to_datetime s) = true
                         <-> to_datetime s <> None).
  { intros s. unfold pd_to_datetime. destruct (to_datetime s); simpl.
    - split; [discriminate | reflexivity].
    - split; [discriminate | intros H; contradiction]. }
  destruct (mapM (pd_to_datetime to_datetime) texts) as [c|e] eqn:E.
  - pose proof (mapM_to_datetime_parsed _ _ _ E) as F.
    cbn [datetime_column]. rewrite uniform_offsets_spec. split.
    + intros U. split.
      * intros s Hs. destruct (Forall2_In_l _ _ _ _ F Hs) as (ts & _ & P).
        congruence.
      * intros s s' ts ts' Hs Hs' P P'.
        destruct (Forall2_In_l _ _ _ _ F Hs) as (t & Ht & Q).
        destruct (Forall2_In_l _ _ _ _ F Hs') as (t' & Ht' & Q').
        rewrite P in Q. rewrite P' in Q'. inversion Q; inversion Q'.
        subst t t'. apply U; assumption.
    + intros [_ O] a b Ha Hb.
      destruct (Forall2_In_r _ _ _ _ F Ha) as (s & Hs & P).
      destruct (Forall2_In_r _ _ _ _ F Hb) as (s' & Hs' & P').
      exact (O s s' a b Hs Hs' P P').
  - cbn [datetime_column]. split; [discriminate|]. intros [P _]. exfalso.
    assert (K : is_ok (mapM (pd_to_datetime to_datetime) texts) = true).
    { apply mapM_is_ok. apply Forall_forall. intros s Hs. apply Hd, P, Hs. }
    rewrite E in K. discriminate K.
Qed.

(** X1. The Record Flattener returns a table exactly when the export has at
    least one record; in every record the end date and the start date read
    as timestamps and the value is absent, one of the codes of
    [value_replacements], or a text that reads as a number; and the end
    dates share one UTC offset, as do the start dates.  In every other case
    it raises. *)
Theorem process_health_data_succeeds_iff
  (to_datetime : string -> option Timestamp) (to_float : string -> option Q)
  (xml_root : XmlRoot) :
  is_ok (process_health_data to_datetime to_float xml_root) = true <->
  findall_Record xml_root <> [] /\
  (forall r, In r (findall_Record xml_root) ->
     to_datetime (r_endDate r) <> None /\
     to_datetime (r_startDate r) <> None /\
     castable to_float (r_value r)) /\
  one_offset to_datetime (map r_endDate (findall_Record xml_root)) /\
  one_offset to_datetime (map r_startDate (findall_Record xml_root)).
Proof.
  rewrite process_health_data_is_ok. cbv zeta.
  rewrite !andb_true_iff, !datetime_column_iff, mapM_is_ok, !Forall_map,
    !Forall_forall.
  split.
  - intros [[[Hn [He Oe]] [Hs Os]] Hv]. split.
    + destruct (findall_Record xml_root); [discriminate | discriminate].
    + split; [|split; assumption].
      intros r Hr. split; [apply He, in_map, Hr|].
      split; [apply Hs, in_map, Hr|]. apply astype_float_is_ok, Hv, Hr.
  - intros (Hn & H & Oe & Os). repeat split; try assumption.
    + destruct (findall_Record xml_root); [contradiction | reflexivity].
    + intros s Hs. apply in_map_iff in Hs. destruct Hs as (r & <- & Hr).
      apply (H r Hr).
    + intros s Hs. apply in_map_iff in Hs. destruct Hs as (r & <- & Hr).
      apply (H r Hr).
    + intros r Hr. apply astype_float_is_ok. apply (H r Hr).
Qed.

Lemma process_health_data_succeeds_iff_witness :
  (findall_Record night_export <> [] /\
   (forall r, In r (findall_Record night_export) ->
      export_to_datetime (r_endDate r) <> None /\
      export_to_datetime (r_startDate r) <> None /\
      castable decimal_to_float (r_value r)) /\
   one_offset export_to_datetime (map r_endDate (findall_Record night_export))
   /\ one_offset export_to_datetime
        (map r_startDate (findall_Record night_export))) /\
  is_ok (process_health_data export_to_datetime decimal_to_float
           {| findall_Record := []; findall_Workout := [] |}) = false /\
  is_ok (process_health_data export_to_datetime decimal_to_float
           two_offsets_export) = false.
Proof.
  split; [|split].
  - apply (proj1 (process_health_data_succeeds_iff export_to_datetime
                    decimal_to_float night_export)).
    vm_compute. reflexivity.
  - destruct (is_ok (process_health_data export_to_datetime decimal_to_float
                       {| findall_Record := []; findall_Workout := [] |}))
      eqn:E; [|reflexivity].
    apply (proj1 (process_health_data_succeeds_iff _ _ _)) in E.
    destruct E as [E _]. exfalso. apply E. reflexivity.
  - destruct (is_ok (process_health_data export_to_datetime decimal_to_float
                       two_offsets_export)) eqn:E; [|reflexivity].
    apply (proj1 (process_health_data_succeeds_iff _ _ _)) in E.
    destruct E as (_ & _ & O & _). exfalso.
    assert (F : -18000000000000 = -14400000000000).
    { apply (O "2024-03-09 09:20:00 -0500" "2024-03-10 09:20:00 -0400"
               {| instant := 1709994000000000000;
                  utcoffset := -18000000000000 |}
               {| instant := 1710076800000000000;
                  utcoffset := -14400000000000 |});
        [left; reflexivity | right; left; reflexivity
        | vm_compute; reflexivity | vm_compute; reflexivity]. }
    discriminate F.
Defined.

Lemma map3_length {A B C D : Type} (f : A -> B -> C -> D) (l1 : list A)
  (l2 : list B) (l3 : list C) (n : nat) :
  List.length l1 = n -> List.length l2 = n -> List.length l3 = n ->
  List.length (map3 f l1 l2 l3) = n.
Proof.
  revert l2 l3 n. induction l1 as [|a l1 IH]; intros l2 l3 n H1 H2 H3.
  - simpl in *. exact H1.
  - destruct l2 as [|b l2]; [simpl in *; lia|].
    destruct l3 as [|c l3]; [simpl in *; lia|].
    simpl in *. destruct n; [lia|]. f_equal. apply IH; lia.
Qed.

(** The calendar dates of a successful run are read off the shifted
    timestamps. *)
Lemma process_health_data_dates (to_datetime : string -> option Timestamp)
  (to_float : string -> option Q) (xml_root : XmlRoot) (df : HealthFrame) :
  process_health_data to_datetime to_float xml_root = Ok df ->
  nr_start_date df = map ts_date (nr_start_datetime df) /\
  nr_end_date df = map ts_date (nr_end_datetime df).
Proof.
  intros H. unfold process_health_data, try_except in H.
  destruct (findall_Record xml_root) as [|r0 rs]; [discriminate|].
  remember (r0 :: rs) as l eqn:El. clear El r0 rs.
  cbv beta iota zeta in H. unfold bind at 1 in H. unfold bind at 1 in H.
  destruct (mapM (pd_to_datetime to_datetime) (map r_endDate l));
    [|discriminate].
  unfold bind at 1 in H.
  destruct (mapM (pd_to_datetime to_datetime) (map r_startDate l));
    [|discriminate].
  unfold bind at 1 in H. unfold dt_date at 1 in H.
  destruct (uniform_offsets _); [|discriminate].
  unfold bind at 1 in H. unfold dt_date at 1 in H.
  destruct (uniform_offsets _); [|discriminate].
  unfold bind at 1 in H.
  destruct (mapM (astype_float to_float) _); [|discriminate].
  inversion H; subst df; clear H. simpl. split; reflexivity.
Qed.

(** X2. A table returned by the Record Flattener has one row per record of
    the export, in each of its nine modelled columns, and at least one
    row. *)
Theorem health_frame_is_rectangular
  (to_datetime : string -> option Timestamp) (to_float : string -> option Q)
  (xml_root : XmlRoot) (df : HealthFrame) :
  process_health_data to_datetime to_float xml_root = Ok df ->
  let n := List.length (findall_Record xml_root) in
  (0 < n)%nat /\
  List.length (nr_type df) = n /\
  List.length (nr_unit df) = n /\
  List.length (nr_value df) = n /\
  List.length (nr_value2 df) = n /\
  List.length (nr_start_datetime df) = n /\
  List.length (nr_end_datetime df) = n /\
  List.length (nr_time_elapsed df) = n /\
  List.length (nr_start_date df) = n /\
  List.length (nr_end_date df) = n.
Proof.
  intros H. cbv zeta.
  pose proof (f_equal is_ok H) as Hok. simpl in Hok.
  rewrite process_health_data_is_ok in Hok. cbv zeta in Hok.
  rewrite !andb_true_iff in Hok. destruct Hok as [[[Hne _] _] _].
  destruct (process_health_data_dates _ _ _ _ H) as [Hsd Hed].
  destruct (process_health_data_ok _ _ _ _ H)
    as (e & s & v & E1 & E2 & E3 & Ht & Hv2 & Hend & Hstart & Hte & Hval
        & Hunit).
  apply mapM_length in E1, E2, E3.
  rewrite !length_map in E1. rewrite !length_map in E2.
  rewrite !length_map in E3.
  set (n := List.length (findall_Record xml_root)) in *.
  assert (Le : List.length (nr_end_datetime df) = n).
  { rewrite Hend, length_map2, length_map. fold n. lia. }
  assert (Ls : List.length (nr_start_datetime df) = n).
  { rewrite Hstart, length_map2, length_map. fold n. lia. }
  assert (Lte : List.length (nr_time_elapsed df) = n).
  { rewrite Hte, length_map2. lia. }
  split.
  { unfold n. destruct (findall_Record xml_root);
      [discriminate Hne | simpl; lia]. }
  split. { rewrite Ht, !length_map. reflexivity. }
  split. { rewrite Hunit, length_map2, !length_map. fold n. lia. }
  split. { rewrite Hval. apply map3_length; [exact Lte | | exact E3].
           rewrite length_map. reflexivity. }
  split. { rewrite Hv2, length_map. reflexivity. }
  split; [exact Ls|]. split; [exact Le|]. split; [exact Lte|].
  split; [rewrite Hsd, length_map; exact Ls | rewrite Hed, length_map; exact Le].
Qed.

Lemma health_frame_is_rectangular_witness :
  List.length (nr_value night_frame) = 6%nat /\
  List.length (nr_end_date night_frame) = 6%nat.
Proof.
  destruct (health_frame_is_rectangular export_to_datetime decimal_to_float
              night_export night_frame night_frame_ok)
    as (_ & _ & _ & Hv & _ & _ & _ & _ & _ & He).
  split; [exact Hv | exact He].
Defined.

(** Row [i] of a successful run, cell by cell, from record [i]. *)
Lemma health_row (to_datetime : string -> option Timestamp)
  (to_float : string -> option Q) (xml_root : XmlRoot) (df : HealthFrame)
  (i : nat) (r : RawRecord) :
  process_health_data to_datetime to_float xml_root = Ok df ->
  nth_error (findall_Record xml_root) i = Some r ->
  exists start_raw end_raw value,
    to_datetime (r_startDate r) = Some start_raw /\
    to_datetime (r_endDate r) = Some end_raw /\
    astype_float to_float (replace_value (obj_of_attr (r_value r))) = Ok value /\
    let start_datetime := adjust_sleep_time start_raw (r_value r) in
    let end_datetime := adjust_sleep_time end_raw (r_value r) in
    let time_elapsed := ts_sub end_datetime start_datetime in
    nth_error (nr_start_datetime df) i = Some start_datetime /\
    nth_error (nr_end_datetime df) i = Some end_datetime /\
    nth_error (nr_time_elapsed df) i = Some time_elapsed /\
    nth_error (nr_start_date df) i = Some (ts_date start_datetime) /\
    nth_error (nr_end_date df) i = Some (ts_date end_datetime) /\
    nth_error (nr_value df) i
      = Some (sleep_duration_value time_elapsed (r_value r) value) /\
    nth_error (nr_unit df) i
      = Some (sleep_duration_unit (r_value r) (r_unit r)).
Proof.
  intros H Hr.
  destruct (process_health_data_dates _ _ _ _ H) as [Hsd Hed].
  destruct (process_health_data_ok _ _ _ _ H)
    as (e & s & v & E1 & E2 & E3 & _ & _ & Hend & Hstart & Hte & Hval & Hunit).
  destruct (mapM_nth_error _ _ _ E1 i (r_endDate r)) as (e' & He' & Hie).
  { rewrite nth_error_map, Hr. reflexivity. }
  destruct (mapM_nth_error _ _ _ E2 i (r_startDate r)) as (s' & Hs' & His).
  { rewrite nth_error_map, Hr. reflexivity. }
  destruct (mapM_nth_error _ _ _ E3 i
              (replace_value (obj_of_attr (r_value r)))) as (v' & Hv' & Hiv).
  { rewrite !nth_error_map, Hr. reflexivity. }
  unfold pd_to_datetime in He', Hs'.
  destruct (to_datetime (r_endDate r)) as [e0|]; [|discriminate].
  destruct (to_datetime (r_startDate r)) as [s0|]; [|discriminate].
  inversion He'; inversion Hs'; subst e0 s0.
  exists s', e', v'. cbv zeta.
  assert (Ae : nth_error (nr_end_datetime df) i
               = Some (adjust_sleep_time e' (r_value r))).
  { rewrite Hend, nth_error_map2, Hie, nth_error_map, Hr. reflexivity. }
  assert (As : nth_error (nr_start_datetime df) i
               = Some (adjust_sleep_time s' (r_value r))).
  { rewrite Hstart, nth_error_map2, His, nth_error_map, Hr. reflexivity. }
  assert (At : nth_error (nr_time_elapsed df) i
               = Some (ts_sub (adjust_sleep_time e' (r_value r))
                              (adjust_sleep_time s' (r_value r)))).
  { rewrite Hte, nth_error_map2, Ae, As. reflexivity. }
  repeat split; try reflexivity; try assumption.
  - rewrite Hsd, nth_error_map, As. reflexivity.
  - rewrite Hed, nth_error_map, Ae. reflexivity.
  - rewrite Hval, nth_error_map3, At, Hiv, nth_error_map, Hr. reflexivity.
  - rewrite Hunit, nth_error_map2, !nth_error_map, Hr. reflexivity.
Qed.

(** X3. [time_elapsed] of every row is the end instant minus the start
    instant as the export wrote them: the four hours added to both ends of
    a sleep row cancel. *)
Theorem shift_leaves_elapsed_time_unchanged
  (to_datetime : string -> option Timestamp) (to_float : string -> option Q)
  (xml_root : XmlRoot) (df : HealthFrame) (i : nat) (r : RawRecord)
  (start_raw end_raw : Timestamp) :
  process_health_data to_datetime to_float xml_root = Ok df ->
  nth_error (findall_Record xml_root) i = Some r ->
  to_datetime (r_startDate r) = Some start_raw ->
  to_datetime (r_endDate r) = Some end_raw ->
  nth_error (nr_time_elapsed df) i = Some (instant end_raw - instant start_raw).
Proof.
  intros H Hr Hs He.
  destruct (health_row _ _ _ _ i r H Hr)
    as (s & e & v & Hs' & He' & _ & _ & _ & Hte & _).
  rewrite Hs in Hs'. rewrite He in He'. inversion Hs'; inversion He'; subst s e.
  rewrite Hte. f_equal. unfold adjust_sleep_time, ts_sub.
  destruct (cell_in (r_value r) sleep_categories); simpl; lia.
Qed.

Lemma shift_leaves_elapsed_time_unchanged_witness :
  nth_error (nr_time_elapsed night_frame) 1 = Some (2 * 3600 * 1000000000).
Proof.
  exact (shift_leaves_elapsed_time_unchanged export_to_datetime
           decimal_to_float night_export night_frame 1
           (mk_record sleep_type None
              (Some "HKCategoryValueSleepAnalysisAsleepCore")
              "2024-03-04 22:00:00 -0500" "2024-03-05 00:00:00 -0500")
           {| instant := 1709607600000000000; utcoffset := -18000000000000 |}
           {| instant := 1709614800000000000; utcoffset := -18000000000000 |}
           night_frame_ok eq_refl eq_refl eq_refl).
Defined.

Lemma td_seconds_range (td : Timedelta) : 0 <= td_seconds td < 86400.
Proof.
  unfold td_seconds, ns_per_day, ns_per_second.
  Z.to_euclidean_division_equations. lia.
Qed.

(** X4. The value of a row whose coded value is a sleep category is a whole
    number of seconds, at least 0 and less than 86400, whatever the length
    of the segment. *)
Theorem sleep_value_is_less_than_a_day
  (to_datetime : string -> option Timestamp) (to_float : string -> option Q)
  (xml_root : XmlRoot) (df : HealthFrame) (i : nat) (r : RawRecord) :
  process_health_data to_datetime to_float xml_root = Ok df ->
  nth_error (findall_Record xml_root) i = Some r ->
  cell_in (r_value r) sleep_categories = true ->
  exists seconds : Z,
    nth_error (nr_value df) i = Some (Some (inject_Z seconds)) /\
    0 <= seconds < 86400.
Proof.
  intros H Hr Hc.
  destruct (health_row _ _ _ _ i r H Hr)
    as (s & e & v & _ & _ & _ & _ & _ & _ & _ & _ & Hv & _).
  unfold sleep_duration_value in Hv. rewrite Hc in Hv.
  eexists. split; [exact Hv | apply td_seconds_range].
Qed.

Lemma sleep_value_is_less_than_a_day_witness :
  exists seconds : Z,
    nth_error (nr_value night_frame) 0 = Some (Some (inject_Z seconds)) /\
    0 <= seconds < 86400.
Proof.
  exact (sleep_value_is_less_than_a_day export_to_datetime decimal_to_float
           night_export night_frame 0
           (mk_record sleep_type None
              (Some "HKCategoryValueSleepAnalysisInBed")
              "2024-03-04 21:30:00 -0500" "2024-03-05 05:30:00 -0500")
           night_frame_ok eq_refl eq_refl).
Defined.

Lemma ts_date_shift (ts : Timestamp) :
  ts_date (ts_add ts (Timedelta_hours 4))
  = ts_date ts + (if time_of_day ts >=? Timedelta_hours 20 then 1 else 0).
Proof.
  unfold ts_date, ts_add, time_of_day, Timedelta_hours, ns_per_day,
    ns_per_second. cbn [instant utcoffset].
  change (86400 * 1000000000) with 86400000000000.
  change (20 * 3600 * 1000000000) with 72000000000000.
  change (4 * 3600 * 1000000000) with 14400000000000.
  set (x := instant ts). set (o := utcoffset ts).
  destruct (Z.geb_spec ((x + o) mod 86400000000000) 72000000000000);
    Z.to_euclidean_division_equations; lia.
Qed.

(** X5. [start_date] and [end_date] of a row are the local calendar days of
    the raw timestamps, moved to the next day exactly when the row is a
    sleep row and the local time of day is 20:00 or later; rows of other
    kinds keep the day of the export. *)
Theorem sleep_after_eight_pm_is_dated_the_next_day
  (to_datetime : string -> option Timestamp) (to_float : string -> option Q)
  (xml_root : XmlRoot) (df : HealthFrame) (i : nat) (r : RawRecord)
  (start_raw end_raw : Timestamp) :
  process_health_data to_datetime to_float xml_root = Ok df ->
  nth_error (findall_Record xml_root) i = Some r ->
  to_datetime (r_startDate r) = Some start_raw ->
  to_datetime (r_endDate r) = Some end_raw ->
  let moved (ts : Timestamp) : Z :=
    if cell_in (r_value r) sleep_categories
       && (time_of_day ts >=? Timedelta_hours 20)
    then 1 else 0 in
  nth_error (nr_start_date df) i = Some (ts_date start_raw + moved start_raw) /\
  nth_error (nr_end_date df) i = Some (ts_date end_raw + moved end_raw).
Proof.
  intros H Hr Hs He. cbv zeta.
  destruct (health_row _ _ _ _ i r H Hr)
    as (s & e & v & Hs' & He' & _ & _ & _ & _ & Hsd & Hed & _).
  rewrite Hs in Hs'. rewrite He in He'. inversion Hs'; inversion He'; subst s e.
  rewrite Hsd, Hed. unfold adjust_sleep_time.
  destruct (cell_in (r_value r) sleep_categories); simpl andb.
  - rewrite !ts_date_shift. split; reflexivity.
  - split; f_equal; lia.
Qed.

Lemma sleep_after_eight_pm_is_dated_the_next_day_witness :
  nth_error (nr_start_date night_frame) 1
    = Some (days_from_civil 2024 3 4 + 1) /\
  nth_error (nr_end_date night_frame) 1 = Some (days_from_civil 2024 3 5 + 0).
Proof.
  exact (sleep_after_eight_pm_is_dated_the_next_day export_to_datetime
           decimal_to_float night_export night_frame 1
           (mk_record sleep_type None
              (Some "HKCategoryValueSleepAnalysisAsleepCore")
              "2024-03-04 22:00:00 -0500" "2024-03-05 00:00:00 -0500")
           {| instant := 1709607600000000000; utcoffset := -18000000000000 |}
           {| instant := 1709614800000000000; utcoffset := -18000000000000 |}
           night_frame_ok eq_refl eq_refl eq_refl).
Defined.

(** X6. A record whose value is one of the five codes of
    [value_replacements] that are no sleep category (not applicable, the two
    audio exposure limits, stand hour idle and stood) gets the value NaN,
    keeps its unit, and keeps the code in [value2]. *)
Theorem enum_only_codes_become_missing
  (to_datetime : string -> option Timestamp) (to_float : string -> option Q)
  (xml_root : XmlRoot) (df : HealthFrame) (i : nat) (r : RawRecord)
  (code : string) :
  process_health_data to_datetime to_float xml_root = Ok df ->
  nth_error (findall_Record xml_root) i = Some r ->
  r_value r = Some code ->
  In code [ "HKCategoryValueNotApplicable";
            "HKCategoryValueHeadphoneAudioExposureEventSevenDayLimit";
            "HKCategoryValueEnvironmentalAudioExposureEventMomentaryLimit";
            "HKCategoryValueAppleStandHourIdle";
            "HKCategoryValueAppleStandHourStood" ] ->
  nth_error (nr_value df) i = Some None /\
  nth_error (nr_unit df) i = Some (r_unit r) /\
  nth_error (nr_value2 df) i = Some (Some code).
Proof.
  intros H Hr Hv Hcode.
  destruct (health_row _ _ _ _ i r H Hr)
    as (s & e & v & _ & _ & Hcast & _ & _ & _ & _ & _ & Hval & Hunit).
  destruct (process_health_data_ok _ _ _ _ H)
    as (_ & _ & _ & _ & _ & _ & _ & Hv2 & _).
  rewrite Hval, Hunit, Hv2, nth_error_map, Hr. simpl option_map.
  rewrite !Hv. rewrite Hv in Hcast.
  unfold sleep_duration_value, sleep_duration_unit.
  simpl in Hcode.
  destruct Hcode as [<-|[<-|[<-|[<-|[<-|[]]]]]];
    vm_compute in Hcast; inversion Hcast; subst v;
    repeat split; reflexivity.
Qed.

Lemma stand_frame_ok :
  process_health_data export_to_datetime decimal_to_float stand_export
  = Ok stand_frame.
Proof. vm_compute. reflexivity. Qed.

Lemma enum_only_codes_become_missing_witness :
  nth_error (nr_value stand_frame) 0 = Some None /\
  nth_error (nr_unit stand_frame) 0 = Some None /\
  nth_error (nr_value2 stand_frame) 0
  = Some (Some "HKCategoryValueAppleStandHourStood").
Proof.
  refine (enum_only_codes_become_missing export_to_datetime decimal_to_float
            stand_export stand_frame 0
            (mk_record "HKCategoryTypeIdentifierAppleStandHour" None
               (Some "HKCategoryValueAppleStandHourStood")
               "2024-03-05 09:00:00 -0500" "2024-03-05 10:00:00 -0500")
            "HKCategoryValueAppleStandHourStood"
            stand_frame_ok eq_refl eq_refl _).
  simpl. tauto.
Defined.

(* ================================================================== *)
(** ** The Workout Flattener, column by column *)

Lemma try_except_ok {A : Type} (body : Result A) (a : A) :
  try_except body = Ok a -> body = Ok a.
Proof. destruct body; simpl; [auto | discriminate]. Qed.

Lemma bind_ok {A B : Type} (m : Result A) (k : A -> Result B) (b : B) :
  bind m k = Ok b -> exists a, m = Ok a /\ k a = Ok b.
Proof.
  destruct m as [a|e]; simpl; [|discriminate]. intros H. exists a. auto.
Qed.

Ltac step H x Hx :=
  apply bind_ok in H; destruct H as (x & Hx & H); cbv beta in H.

(** *** Dicts and frames *)

Lemma dict_get_set_same (k : string) (v : Cell) (d : Dict) :
  dict_get k (dict_set k v d) = Some v.
Proof.
  induction d as [|[k0 v0] d IH]; simpl.
  - rewrite String.eqb_refl. reflexivity.
  - destruct (String.eqb k k0) eqn:E; simpl.
    + rewrite String.eqb_refl. reflexivity.
    + rewrite E. exact IH.
Qed.

Lemma dict_get_set_other (k k' : string) (v : Cell) (d : Dict) :
  k <> k' -> dict_get k (dict_set k' v d) = dict_get k d.
Proof.
  intros Hk. induction d as [|[k0 v0] d IH]; simpl.
  - destruct (String.eqb k k') eqn:E; [|reflexivity].
    apply String.eqb_eq in E. contradiction.
  - destruct (String.eqb k' k0) eqn:E; simpl.
    + apply String.eqb_eq in E. subst k0.
      destruct (String.eqb k k') eqn:E'; [|reflexivity].
      apply String.eqb_eq in E'. contradiction.
    + rewrite IH. reflexivity.
Qed.

Lemma dict_get_In (k : string) (d : Dict) (v : Cell) :
  dict_get k d = Some v -> In k (map fst d).
Proof.
  induction d as [|[k0 v0] d IH]; simpl; [discriminate|].
  destruct (String.eqb k k0) eqn:E.
  - apply String.eqb_eq in E. intros _. left. symmetry. exact E.
  - intros H. right. apply IH. exact H.
Qed.

Lemma lookup_col_assign_same (k : string) (c : list Cell)
  (cs : list (string * list Cell)) :
  lookup_col k (assign_col k c cs) = Some c.
Proof.
  induction cs as [|[k0 c0] cs IH]; simpl.
  - rewrite String.eqb_refl. reflexivity.
  - destruct (String.eqb k k0) eqn:E; simpl.
    + rewrite E. reflexivity.
    + rewrite E. exact IH.
Qed.

Lemma lookup_col_in (k : string) (f : string -> list Cell)
  (keys : list string) :
  In k keys -> lookup_col k (map (fun k => (k, f k)) keys) = Some (f k).
Proof.
  induction keys as [|k0 keys IH]; simpl; [intros []|].
  destruct (String.eqb k k0) eqn:E.
  - apply String.eqb_eq in E. subst k0. reflexivity.
  - intros [H|H]; [|apply IH; exact H].
    subst k0. rewrite String.eqb_refl in E. discriminate.
Qed.

Lemma keys_fold_keeps (ks acc : list string) (k : string) :
  In k acc ->
  In k (fold_left (fun acc k => if existsb (String.eqb k) acc then acc
                                else (acc ++ [k])%list) ks acc).
Proof.
  revert acc. induction ks as [|k0 ks IH]; intros acc H; simpl; [exact H|].
  apply IH. destruct (existsb (String.eqb k0) acc); [exact H|].
  apply in_or_app. left. exact H.
Qed.

Lemma keys_fold_adds (ks acc : list string) (k : string) :
  In k ks ->
  In k (fold_left (fun acc k => if existsb (String.eqb k) acc then acc
                                else (acc ++ [k])%list) ks acc).
Proof.
  revert acc. induction ks as [|k0 ks IH]; intros acc H; simpl; [destruct H|].
  destruct H as [->|H]; [|apply IH; exact H].
  apply keys_fold_keeps.
  destruct (existsb (String.eqb k) acc) eqn:E.
  - apply existsb_exists in E. destruct E as (x & Hx & Hk).
    apply String.eqb_eq in Hk. subst x. exact Hx.
  - apply in_or_app. right. left. reflexivity.
Qed.

Lemma keys_union_fold_keeps (k : string) (ds : list Dict)
  (acc : list string) :
  In k acc ->
  In k (fold_left
          (fun acc d =>
             fold_left
               (fun acc k => if existsb (String.eqb k) acc then acc
                             else (acc ++ [k])%list)
               (map fst d) acc) ds acc).
Proof.
  revert acc. induction ds as [|d ds IH]; intros acc H; simpl; [exact H|].
  apply IH. apply keys_fold_keeps. exact H.
Qed.

Lemma keys_union_fold_adds (k : string) (ds : list Dict) (d : Dict)
  (acc : list string) :
  In d ds -> In k (map fst d) ->
  In k (fold_left
          (fun acc d =>
             fold_left
               (fun acc k => if existsb (String.eqb k) acc then acc
                             else (acc ++ [k])%list)
               (map fst d) acc) ds acc).
Proof.
  revert acc. induction ds as [|d0 ds IH]; intros acc Hd Hk; [destruct Hd|].
  simpl. destruct Hd as [->|Hd].
  - apply keys_union_fold_keeps. apply keys_fold_adds. exact Hk.
  - apply IH; assumption.
Qed.

Lemma keys_union_complete (k : string) (records : list Dict) (d : Dict) :
  In d records -> In k (map fst d) -> In k (keys_union records).
Proof. unfold keys_union. apply keys_union_fold_adds. Qed.

(** A column of [pd.DataFrame(records)]: the value of the key in each dict,
    NaN where the dict has no such key. *)
Lemma pd_DataFrame_column (records : list Dict) (k : string) :
  In k (keys_union records) ->
  lookup_col k (columns (pd_DataFrame records))
  = Some (map (fun d => match dict_get k d with
                        | Some v => v
                        | None => CNaN
                        end) records).
Proof.
  intros H. unfold pd_DataFrame. simpl.
  apply (lookup_col_in k
           (fun k => map (fun d => match dict_get k d with
                                   | Some v => v
                                   | None => CNaN
                                   end) records)).
  exact H.
Qed.

Lemma pd_DataFrame_rectangular (records : list Dict) :
  rectangular (pd_DataFrame records).
Proof.
  unfold rectangular, pd_DataFrame. simpl.
  apply Forall_forall. intros [k c] H. apply in_map_iff in H.
  destruct H as (k' & E & _). inversion E. simpl. apply length_map.
Qed.

Lemma lookup_col_length (df : DataFrame) (k : string) (c : list Cell) :
  rectangular df -> lookup_col k (columns df) = Some c ->
  List.length c = n_rows df.
Proof.
  unfold rectangular. generalize (n_rows df) as n. intros n.
  induction (columns df) as [|[k0 c0] cs IH]; simpl; intros H E;
    [discriminate|].
  inversion H; subst.
  destruct (String.eqb k k0); [|apply IH; assumption].
  inversion E; subst. reflexivity.
Qed.

Lemma getitem_length (df : DataFrame) (k : string) (c : list Cell) :
  rectangular df -> getitem df k = Ok c -> List.length c = n_rows df.
Proof.
  intros R. unfold getitem.
  destruct (lookup_col k (columns df)) as [c'|] eqn:E; [|discriminate].
  intros H. inversion H; subst. apply (lookup_col_length df k c R E).
Qed.

Lemma getitem_lookup (df : DataFrame) (k : string) (c : list Cell) :
  getitem df k = Ok c <-> lookup_col k (columns df) = Some c.
Proof.
  unfold getitem. destruct (lookup_col k (columns df)).
  - split; intros H; inversion H; reflexivity.
  - split; discriminate.
Qed.

Lemma setitem_rectangular (df : DataFrame) (k : string) (c : list Cell) :
  rectangular df -> List.length c = n_rows df -> rectangular (setitem df k c).
Proof.
  unfold rectangular, setitem. simpl. generalize (n_rows df) as n. intros n.
  induction (columns df) as [|[k0 c0] cs IH]; simpl; intros R L.
  - constructor; [exact L | constructor].
  - inversion R as [|x l R1 R2]. destruct (String.eqb k k0).
    + constructor; [exact L | exact R2].
    + constructor; [exact R1 | apply IH; assumption].
Qed.

Lemma rename_rectangular (df : DataFrame) (m : list (string * string)) :
  rectangular df -> rectangular (rename df m).
Proof.
  unfold rectangular, rename. simpl. intros R.
  apply Forall_map. apply (Forall_impl _ (P := fun kc =>
    List.length (snd kc) = n_rows df)); [|exact R].
  intros [k c] H. destruct (find _ m); exact H.
Qed.

Lemma rename_two_other (df : DataFrame) (k a a' b b' : string) :
  k <> a -> k <> a' -> k <> b -> k <> b' ->
  lookup_col k (columns (rename df [(a, a'); (b, b')]))
  = lookup_col k (columns df).
Proof.
  intros Ha Ha' Hb Hb'. unfold rename. cbn [columns].
  apply String.eqb_neq in Ha, Ha', Hb, Hb'.
  induction (columns df) as [|[k0 c0] cs IH]; [reflexivity|].
  simpl in *.
  destruct (String.eqb a k0) eqn:E1; simpl.
  - apply String.eqb_eq in E1. subst k0. rewrite Ha, Ha'. exact IH.
  - destruct (String.eqb b k0) eqn:E2; simpl.
    + apply String.eqb_eq in E2. subst k0. rewrite Hb, Hb'. exact IH.
    + rewrite IH. reflexivity.
Qed.

(** The two renamings leave every other column under its name. *)
Lemma rename_other (df : DataFrame) (k : string) :
  ~ In k ["start_date"; "end_date"; "start_datetime"; "end_datetime"] ->
  lookup_col k (columns (rename df datetime_renames))
  = lookup_col k (columns df).
Proof.
  intros Hk. unfold datetime_renames.
  apply rename_two_other; intros ->; apply Hk; simpl; tauto.
Qed.

Lemma ensure_column_n_rows (df : DataFrame) (col : string) :
  n_rows (ensure_column df col) = n_rows df.
Proof. unfold ensure_column. destruct (in_columns col df); reflexivity. Qed.

Lemma ensure_column_rectangular (df : DataFrame) (col : string) :
  rectangular df -> rectangular (ensure_column df col).
Proof.
  intros R. unfold ensure_column. destruct (in_columns col df); [exact R|].
  apply setitem_rectangular; [exact R | apply repeat_length].
Qed.

Lemma ensure_column_keeps (df : DataFrame) (col k : string) (c : list Cell) :
  lookup_col k (columns df) = Some c ->
  lookup_col k (columns (ensure_column df col)) = Some c.
Proof.
  intros H. unfold ensure_column, in_columns.
  destruct (lookup_col col (columns df)) eqn:E; [exact H|].
  unfold setitem_scalar, setitem. simpl.
  rewrite lookup_col_assign_other; [exact H|].
  intros <-. congruence.
Qed.

Lemma ensure_column_present (df : DataFrame) (col : string) :
  in_columns col (ensure_column df col) = true.
Proof.
  unfold ensure_column. destruct (in_columns col df) eqn:E; [exact E|].
  unfold in_columns, setitem_scalar, setitem. simpl.
  rewrite lookup_col_assign_same. reflexivity.
Qed.

Lemma ensure_fold_n_rows (cols : list string) (df : DataFrame) :
  n_rows (fold_left ensure_column cols df) = n_rows df.
Proof.
  revert df. induction cols as [|c cols IH]; intros df; simpl; [reflexivity|].
  rewrite IH. apply ensure_column_n_rows.
Qed.

Lemma ensure_fold_rectangular (cols : list string) (df : DataFrame) :
  rectangular df -> rectangular (fold_left ensure_column cols df).
Proof.
  revert df. induction cols as [|c cols IH]; intros df R; simpl; [exact R|].
  apply IH. apply ensure_column_rectangular. exact R.
Qed.

Lemma ensure_fold_keeps (cols : list string) (df : DataFrame) (k : string)
  (c : list Cell) :
  lookup_col k (columns df) = Some c ->
  lookup_col k (columns (fold_left ensure_column cols df)) = Some c.
Proof.
  revert df. induction cols as [|c0 cols IH]; intros df H; simpl; [exact H|].
  apply IH. apply ensure_column_keeps. exact H.
Qed.

Lemma ensure_fold_present (cols : list string) (df : DataFrame) (k : string) :
  In k cols -> in_columns k (fold_left ensure_column cols df) = true.
Proof.
  revert df. induction cols as [|c0 cols IH]; intros df H; simpl; [destruct H|].
  destruct H as [->|H]; [|apply IH; exact H].
  pose proof (ensure_column_present df k) as P. unfold in_columns in P.
  destruct (lookup_col k (columns (ensure_column df k))) as [c|] eqn:E;
    [|discriminate].
  unfold in_columns. rewrite (ensure_fold_keeps cols _ k c E). reflexivity.
Qed.

(** The five attributes read first keep their entry in [record_data]:
    the statistics and the metadata write other keys. *)
Lemma record_data_base (record : RawWorkout) (k : string) :
  In k [ "workout_activity_type"; "duration"; "duration_unit"; "start_date";
         "end_date" ] ->
  dict_get k (record_data record)
  = dict_get k
      [ ("workout_activity_type", CStr (w_workoutActivityType record));
        ("duration", cell_of_attr (w_duration record));
        ("duration_unit", cell_of_attr (w_durationUnit record));
        ("start_date", CStr (w_startDate record));
        ("end_date", CStr (w_endDate record)) ].
Proof.
  intros Hk. unfold record_data.
  set (d0 := [("workout_activity_type", _); _; _; _; _]).
  assert (N : forall x, In x [ "distance_walking_running";
                               "distance_walking_running_unit";
                               "elevation_ascended";
                               "elevation_ascended_unit" ] -> k <> x).
  { intros x Hx <-. simpl in Hk, Hx.
    destruct Hk as [<-|[<-|[<-|[<-|[<-|[]]]]]];
      destruct Hx as [Hx|[Hx|[Hx|[Hx|[]]]]]; discriminate Hx. }
  clearbody d0.
  match goal with
  | |- dict_get k (fold_left ?g (w_metadata record)
                     (fold_left ?f (w_statistics record) d0)) = _ =>
      assert (F : forall stats d, dict_get k (fold_left f stats d)
                                  = dict_get k d);
      [| assert (G : forall ms d, dict_get k (fold_left g ms d)
                                  = dict_get k d) ]
  end.
  - induction stats as [|st stats IH]; intros d; simpl; [reflexivity|].
    rewrite IH. destruct (String.eqb (stat_type st) _); [|reflexivity].
    rewrite !dict_get_set_other by (apply N; simpl; tauto). reflexivity.
  - induction ms as [|m ms IH]; intros d; simpl; [reflexivity|].
    rewrite IH. destruct (String.eqb (meta_key m) _); [|reflexivity].
    destruct (has_space (meta_value m)).
    + destruct (split_space1 (meta_value m)) as [a b].
      rewrite !dict_get_set_other by (apply N; simpl; tauto). reflexivity.
    + rewrite !dict_get_set_other by (apply N; simpl; tauto). reflexivity.
  - rewrite G, F. reflexivity.
Qed.

Lemma pd_DataFrame_base_column (records : list RawWorkout) (k : string) :
  records <> [] ->
  In k [ "workout_activity_type"; "duration"; "duration_unit"; "start_date";
         "end_date" ] ->
  In k (keys_union (map record_data records)).
Proof.
  intros Hne Hk. destruct records as [|w ws]; [contradiction|].
  apply (keys_union_complete k _ (record_data w)); [left; reflexivity|].
  destruct (dict_get k (record_data w)) as [v|] eqn:E.
  - apply (dict_get_In k _ v E).
  - rewrite (record_data_base w k Hk) in E. simpl in Hk.
    destruct Hk as [<-|[<-|[<-|[<-|[<-|[]]]]]]; discriminate E.
Qed.

Lemma mapM_cell_slice_from (n : nat) (l : list string) :
  mapM (cell_slice_from n) (map CStr l)
  = Ok (map (fun s => CStr (slice_from n s)) l).
Proof.
  induction l as [|x l IH]; simpl; [reflexivity|]. rewrite IH. reflexivity.
Qed.

(** [split(' ', 1)] cuts at the first space. *)
Lemma split_space1_first_space (v : string) :
  has_space v = true ->
  (fst (split_space1 v) ++ " " ++ snd (split_space1 v))%string = v /\
  has_space (fst (split_space1 v)) = false.
Proof.
  induction v as [|c v IH]; simpl; [discriminate|].
  destruct (Ascii.eqb c " "%char) eqn:E.
  - intros _. apply Ascii.eqb_eq in E. subst c. simpl. split; reflexivity.
  - intros H. destruct (IH H) as [IH1 IH2].
    destruct (split_space1 v) as [a b]. simpl in *. rewrite E.
    split; [rewrite IH1; reflexivity | exact IH2].
Qed.

Lemma record_data_elevation (record : RawWorkout) :
  dict_get "elevation_ascended" (record_data record)
  = option_map (fun v => CStr (elevation_number v)) (last_elevation record) /\
  dict_get "elevation_ascended_unit" (record_data record)
  = option_map elevation_unit (last_elevation record).
Proof.
  unfold record_data, last_elevation.
  set (d0 := [("workout_activity_type", _); _; _; _; _]).
  assert (H0 : dict_get "elevation_ascended" d0 = None
               /\ dict_get "elevation_ascended_unit" d0 = None)
    by (split; reflexivity).
  clearbody d0.
  match goal with
  | |- context [fold_left ?f (w_statistics record) d0] =>
      assert (F : forall stats d,
                 dict_get "elevation_ascended" (fold_left f stats d)
                 = dict_get "elevation_ascended" d /\
                 dict_get "elevation_ascended_unit" (fold_left f stats d)
                 = dict_get "elevation_ascended_unit" d)
  end.
  { induction stats as [|st stats IH]; intros d; simpl; [auto|].
    destruct (IH (if String.eqb (stat_type st)
                       "HKQuantityTypeIdentifierDistanceWalkingRunning"
                  then dict_set "distance_walking_running_unit"
                         (cell_of_attr (stat_unit st))
                         (dict_set "distance_walking_running"
                            (cell_of_attr (stat_sum st)) d)
                  else d)) as [I1 I2].
    rewrite I1, I2.
    destruct (String.eqb (stat_type st) _); [|auto].
    rewrite !dict_get_set_other by discriminate. auto. }
  match goal with
  | |- context [fold_left ?f (w_statistics record) d0] =>
      destruct (F (w_statistics record) d0) as [F1 F2];
      set (d1 := fold_left f (w_statistics record) d0) in *
  end.
  destruct H0 as [H1 H2]. rewrite <- F1 in H1. rewrite <- F2 in H2.
  clearbody d1. clear F F1 F2 d0.
  change (@None Cell)
    with (option_map (fun v => CStr (elevation_number v)) (@None string)) in H1.
  change (@None Cell) with (option_map elevation_unit (@None string)) in H2.
  revert H1 H2. generalize (@None string) as acc. revert d1.
  induction (w_metadata record) as [|m ms IH]; intros d1 acc H1 H2;
    [simpl; auto|].
  simpl. apply IH.
  - destruct (String.eqb (meta_key m) "HKElevationAscended"); [|exact H1].
    unfold elevation_number. simpl.
    destruct (has_space (meta_value m)).
    + destruct (split_space1 (meta_value m)) as [a b]. simpl.
      rewrite dict_get_set_other by discriminate.
      apply dict_get_set_same.
    + rewrite dict_get_set_other by discriminate.
      apply dict_get_set_same.
  - destruct (String.eqb (meta_key m) "HKElevationAscended"); [|exact H2].
    unfold elevation_unit. simpl.
    destruct (has_space (meta_value m)).
    + destruct (split_space1 (meta_value m)) as [a b]. simpl.
      apply dict_get_set_same.
    + apply dict_get_set_same.
Qed.

Lemma record_data_distance (record : RawWorkout) :
  dict_get "distance_walking_running" (record_data record)
  = option_map (fun st => cell_of_attr (stat_sum st)) (last_distance record) /\
  dict_get "distance_walking_running_unit" (record_data record)
  = option_map (fun st => cell_of_attr (stat_unit st)) (last_distance record).
Proof.
  unfold record_data, last_distance.
  set (d0 := [("workout_activity_type", _); _; _; _; _]).
  assert (H0 : dict_get "distance_walking_running" d0 = None
               /\ dict_get "distance_walking_running_unit" d0 = None)
    by (split; reflexivity).
  clearbody d0.
  match goal with
  | |- context [fold_left ?g (w_metadata record) _] =>
      assert (G : forall ms d,
                 dict_get "distance_walking_running" (fold_left g ms d)
                 = dict_get "distance_walking_running" d /\
                 dict_get "distance_walking_running_unit" (fold_left g ms d)
                 = dict_get "distance_walking_running_unit" d)
  end.
  { induction ms as [|m ms IH]; intros d; simpl; [auto|].
    match goal with
    | |- dict_get _ (fold_left _ ms ?d') = _ /\ _ =>
        destruct (IH d') as [I1 I2]
    end.
    rewrite I1, I2.
    destruct (String.eqb (meta_key m) _); [|auto].
    destruct (has_space (meta_value m)).
    - destruct (split_space1 (meta_value m)) as [a b].
      rewrite !dict_get_set_other by discriminate. auto.
    - rewrite !dict_get_set_other by discriminate. auto. }
  match goal with
  | |- dict_get _ (fold_left _ (w_metadata record) ?d') = _ /\ _ =>
      destruct (G (w_metadata record) d') as [G1 G2]
  end.
  rewrite G1, G2. clear G G1 G2.
  destruct H0 as [H1 H2].
  change (@None Cell)
    with (option_map (fun st => cell_of_attr (stat_sum st))
            (@None WorkoutStatistics)) in H1.
  change (@None Cell)
    with (option_map (fun st => cell_of_attr (stat_unit st))
            (@None WorkoutStatistics)) in H2.
  revert H1 H2. generalize (@None WorkoutStatistics) as acc. revert d0.
  induction (w_statistics record) as [|st sts IH]; intros d0 acc H1 H2;
    [simpl; auto|].
  simpl. apply IH.
  - destruct (String.eqb (stat_type st) _); [|exact H1]. simpl.
    rewrite dict_get_set_other by discriminate. apply dict_get_set_same.
  - destruct (String.eqb (stat_type st) _); [|exact H2]. simpl.
    apply dict_get_set_same.
Qed.

Lemma dict_get_None (k : string) (d : Dict) :
  dict_get k d = None -> ~ In k (map fst d).
Proof.
  induction d as [|[k0 v0] d IH]; simpl; [intros _ []|].
  destruct (String.eqb k k0) eqn:E; [discriminate|].
  intros H [H'|H']; [|exact (IH H H')].
  subst k0. rewrite String.eqb_refl in E. discriminate.
Qed.

(** A column of the frame built from the workouts, when there is one. *)
Lemma workout_frame_column (records : list RawWorkout) (k : string)
  (c : list Cell) :
  lookup_col k (columns (pd_DataFrame (map record_data records))) = Some c ->
  c = map (fun w => match dict_get k (record_data w) with
                    | Some v => v
                    | None => CNaN
                    end) records.
Proof.
  intros H.
  destruct (in_dec string_dec k (keys_union (map record_data records)))
    as [Hin|Hout].
  - rewrite (pd_DataFrame_column _ k Hin) in H. inversion H.
    rewrite map_map. reflexivity.
  - unfold pd_DataFrame in H. simpl in H.
    rewrite (lookup_col_not_in k _ _ Hout) in H. discriminate.
Qed.

(** A key that no workout emitted gives no column. *)
Lemma workout_frame_no_column (records : list RawWorkout) (k : string) :
  (forall w, In w records -> dict_get k (record_data w) = None) ->
  lookup_col k (columns (pd_DataFrame (map record_data records))) = None.
Proof.
  intros H. unfold pd_DataFrame. simpl. apply lookup_col_not_in.
  intros Hin. apply keys_union_In in Hin. destruct Hin as (d & Hd & Hk).
  apply in_map_iff in Hd. destruct Hd as (w & <- & Hw).
  exact (dict_get_None k _ (H w Hw) Hk).
Qed.

(** A key that some workout emitted gives a column. *)
Lemma workout_frame_has_column (records : list RawWorkout) (k : string)
  (w : RawWorkout) (v : Cell) :
  In w records -> dict_get k (record_data w) = Some v ->
  exists c,
    lookup_col k (columns (pd_DataFrame (map record_data records))) = Some c.
Proof.
  intros Hw Hv. eexists. apply pd_DataFrame_column.
  apply (keys_union_complete k _ (record_data w)).
  - apply in_map. exact Hw.
  - apply (dict_get_In k _ v Hv).
Qed.

Lemma ensure_column_absent (df : DataFrame) (col k : string) :
  k <> col -> lookup_col k (columns df) = None ->
  lookup_col k (columns (ensure_column df col)) = None.
Proof.
  intros Hk H. unfold ensure_column. destruct (in_columns col df); [exact H|].
  unfold setitem_scalar, setitem. simpl.
  rewrite lookup_col_assign_other; [exact H | exact Hk].
Qed.

(** The last loop gives a required column that is missing one default cell
    per row. *)
Lemma ensure_fold_adds (cols : list string) (df : DataFrame) (k : string) :
  In k cols -> lookup_col k (columns df) = None ->
  lookup_col k (columns (fold_left ensure_column cols df))
  = Some (repeat (if existsb (String.eqb k)
                        ["duration"; "distance_walking_running";
                         "elevation_ascended"]
                  then CInt 0 else CNone) (n_rows df)).
Proof.
  revert df. induction cols as [|c0 cols IH]; intros df Hin H; [destruct Hin|].
  simpl. destruct (string_dec c0 k) as [->|Hne].
  - apply ensure_fold_keeps. unfold ensure_column, in_columns. rewrite H.
    unfold setitem_scalar, setitem. simpl. apply lookup_col_assign_same.
  - destruct Hin as [E|Hin]; [contradiction|].
    rewrite <- (ensure_column_n_rows df c0). apply IH; [exact Hin|].
    apply ensure_column_absent; [intros E; apply Hne; symmetry; exact E|].
    exact H.
Qed.

Lemma fold_keeps_last_elevation (after : list MetadataEntry) (v : string) :
  (forall m, In m after -> meta_key m <> "HKElevationAscended") ->
  fold_left
    (fun acc m =>
       if String.eqb (meta_key m) "HKElevationAscended"
       then Some (meta_value m) else acc) after (Some v)
  = Some v.
Proof.
  induction after as [|m after IH]; intros H; [reflexivity|].
  cbn [fold_left].
  assert (E : String.eqb (meta_key m) "HKElevationAscended" = false).
  { apply String.eqb_neq. apply H. left. reflexivity. }
  rewrite E. apply IH. intros m' Hm'. apply H. right. exact Hm'.
Qed.

Lemma last_elevation_is_the_last (record : RawWorkout)
  (before after : list MetadataEntry) (m : MetadataEntry) :
  w_metadata record = (before ++ m :: after)%list ->
  meta_key m = "HKElevationAscended" ->
  (forall m', In m' after -> meta_key m' <> "HKElevationAscended") ->
  last_elevation record = Some (meta_value m).
Proof.
  intros Hm Hk Hafter. unfold last_elevation. rewrite Hm, fold_left_app.
  cbn [fold_left]. rewrite Hk, String.eqb_refl.
  apply fold_keeps_last_elevation. exact Hafter.
Qed.

(** X7. Of the [HKElevationAscended] metadata entries of a workout,
    [record_data] keeps the last one.  Its text is cut at the first space:
    the part before it (which has no space) is the elevation, the whole of
    the rest is the unit; a text without a space is the elevation as it is,
    with the unit [None]. *)
Theorem last_elevation_entry_is_split_at_its_first_space
  (record : RawWorkout) (before after : list MetadataEntry)
  (m : MetadataEntry) :
  w_metadata record = (before ++ m :: after)%list ->
  meta_key m = "HKElevationAscended" ->
  (forall m', In m' after -> meta_key m' <> "HKElevationAscended") ->
  let v := meta_value m in
  if has_space v then
    exists number unit : string,
      v = (number ++ " " ++ unit)%string /\
      has_space number = false /\
      dict_get "elevation_ascended" (record_data record)
        = Some (CStr number) /\
      dict_get "elevation_ascended_unit" (record_data record)
        = Some (CStr unit)
  else
    dict_get "elevation_ascended" (record_data record) = Some (CStr v) /\
    dict_get "elevation_ascended_unit" (record_data record) = Some CNone.
Proof.
  intros Hm Hk Hafter. cbv zeta.
  destruct (record_data_elevation record) as [E1 E2].
  rewrite (last_elevation_is_the_last _ _ _ _ Hm Hk Hafter) in E1, E2.
  cbn [option_map] in E1, E2. unfold elevation_number in E1.
  unfold elevation_unit in E2.
  destruct (has_space (meta_value m)) eqn:S.
  - destruct (split_space1_first_space _ S) as [P1 P2].
    exists (fst (split_space1 (meta_value m))),
           (snd (split_space1 (meta_value m))).
    split; [symmetry; exact P1|]. split; [exact P2|].
    split; assumption.
  - split; assumption.
Qed.

Lemma last_elevation_entry_is_split_at_its_first_space_witness :
  exists number unit : string,
    "1200 cm" = (number ++ " " ++ unit)%string /\
    has_space number = false /\
    dict_get "elevation_ascended" (record_data climb_session)
      = Some (CStr number) /\
    dict_get "elevation_ascended_unit" (record_data climb_session)
      = Some (CStr unit).
Proof.
  refine (last_elevation_entry_is_split_at_its_first_space climb_session
            [ {| meta_key := "HKIndoorWorkout"; meta_value := "1" |} ]
            [ {| meta_key := "HKTimeZone";
                 meta_value := "America/New_York" |} ]
            {| meta_key := "HKElevationAscended"; meta_value := "1200 cm" |}
            eq_refl eq_refl _).
  intros m' [<-|[]]. discriminate.
Defined.

Lemma record_data_not_added (record : RawWorkout) (k : string) :
  ~ In k [ "distance_walking_running"; "distance_walking_running_unit";
           "elevation_ascended"; "elevation_ascended_unit" ] ->
  dict_get k (record_data record)
  = dict_get k
      [ ("workout_activity_type", CStr (w_workoutActivityType record));
        ("duration", cell_of_attr (w_duration record));
        ("duration_unit", cell_of_attr (w_durationUnit record));
        ("start_date", CStr (w_startDate record));
        ("end_date", CStr (w_endDate record)) ].
Proof.
  intros Hk. unfold record_data.
  set (d0 := [("workout_activity_type", _); _; _; _; _]).
  assert (N : forall x, In x [ "distance_walking_running";
                               "distance_walking_running_unit";
                               "elevation_ascended";
                               "elevation_ascended_unit" ] -> k <> x).
  { intros x Hx <-. exact (Hk Hx). }
  clearbody d0.
  match goal with
  | |- dict_get k (fold_left ?g (w_metadata record)
                     (fold_left ?f (w_statistics record) d0)) = _ =>
      assert (F : forall stats d, dict_get k (fold_left f stats d)
                                  = dict_get k d);
      [| assert (G : forall ms d, dict_get k (fold_left g ms d)
                                  = dict_get k d) ]
  end.
  - induction stats as [|st stats IH]; intros d; simpl; [reflexivity|].
    rewrite IH. destruct (String.eqb (stat_type st) _); [|reflexivity].
    rewrite !dict_get_set_other by (apply N; simpl; tauto). reflexivity.
  - induction ms as [|m ms IH]; intros d; simpl; [reflexivity|].
    rewrite IH. destruct (String.eqb (meta_key m) _); [|reflexivity].
    destruct (has_space (meta_value m)).
    + destruct (split_space1 (meta_value m)) as [a b].
      rewrite !dict_get_set_other by (apply N; simpl; tauto). reflexivity.
    + rewrite !dict_get_set_other by (apply N; simpl; tauto). reflexivity.
  - rewrite G, F. reflexivity.
Qed.

(** A renamed column is found under its new name, when that name was
    free. *)
Lemma rename_two_first (df : DataFrame) (a a' b b' : string) :
  a <> b -> a' <> b' -> a' <> b ->
  lookup_col a' (columns df) = None ->
  lookup_col a' (columns (rename df [(a, a'); (b, b')]))
  = lookup_col a (columns df).
Proof.
  intros Hab Hab' Ha'b Hfree. unfold rename. cbn [columns].
  induction (columns df) as [|[k c] cols IH]; [reflexivity|].
  simpl in Hfree |- *.
  destruct (String.eqb a' k) eqn:Ea'k; [discriminate|].
  rewrite (String.eqb_sym a k).
  destruct (String.eqb k a) eqn:Eka.
  - simpl. rewrite String.eqb_refl. reflexivity.
  - rewrite (String.eqb_sym b k).
    destruct (String.eqb k b) eqn:Ekb; simpl.
    + apply String.eqb_neq in Hab'. rewrite Hab'. apply IH. exact Hfree.
    + rewrite Ea'k. apply IH. exact Hfree.
Qed.

Lemma rename_two_second (df : DataFrame) (a a' b b' : string) :
  a <> b -> a' <> b' -> b' <> a ->
  lookup_col b' (columns df) = None ->
  lookup_col b' (columns (rename df [(a, a'); (b, b')]))
  = lookup_col b (columns df).
Proof.
  intros Hab Hab' Hb'a Hfree. unfold rename. cbn [columns].
  induction (columns df) as [|[k c] cols IH]; [reflexivity|].
  simpl in Hfree |- *.
  destruct (String.eqb b' k) eqn:Eb'k; [discriminate|].
  rewrite (String.eqb_sym a k).
  destruct (String.eqb k a) eqn:Eka.
  - simpl. apply String.eqb_eq in Eka. subst k.
    assert (E1 : String.eqb b' a' = false)
      by (apply String.eqb_neq; congruence).
    assert (E2 : String.eqb b a = false)
      by (apply String.eqb_neq; congruence).
    rewrite E1, E2. apply IH. exact Hfree.
  - rewrite (String.eqb_sym b k).
    destruct (String.eqb k b) eqn:Ekb; simpl.
    + rewrite String.eqb_refl. reflexivity.
    + rewrite Eb'k. apply IH. exact Hfree.
Qed.

Section WorkoutFlattener.

Variable to_datetime : string -> option Timestamp.
Variable to_float : string -> option Q.

(** What a successful run of the Workout Flattener has computed, frame by
    frame. *)
Lemma column_dt_date_ok (c c' : list Cell) :
  column_dt_date c = Ok c' -> mapM cell_dt_date c = Ok c'.
Proof.
  unfold column_dt_date.
  destruct (uniform_offsets (cell_timestamps c)); [tauto | discriminate].
Qed.

Lemma process_workout_data_ok (xml_root : XmlRoot) (df : DataFrame) :
  process_workout_data to_datetime to_float xml_root = Ok df ->
  exists c0 c1 df1 e0 e1 e2 u df2 s0 s1 t0 t1,
    let df0 := pd_DataFrame (map record_data (findall_Workout xml_root)) in
    let dfA := setitem df0 "workout_activity_type" c1 in
    let dfB := setitem df1 "elevation_ascended"
                 (map (cell_fillna (CFloat 0)) e0) in
    let dfC := setitem dfB "elevation_ascended"
                 (map (cell_round 1) (map (cell_div 100) e2)) in
    let dfD := setitem dfC "elevation_ascended_unit"
                 (map (cell_replace "cm" "m") u) in
    let dfE := rename df2 datetime_renames in
    let dfF := setitem dfE "start_date" s1 in
    let dfG := setitem dfF "end_date" t1 in
    getitem df0 "workout_activity_type" = Ok c0 /\
    mapM (cell_slice_from 21) c0 = Ok c1 /\
    foldM (process_numeric_column to_float) numeric_columns dfA = Ok df1 /\
    getitem df1 "elevation_ascended" = Ok e0 /\
    getitem dfB "elevation_ascended" = Ok e1 /\
    mapM (cell_astype_float to_float) e1 = Ok e2 /\
    getitem dfC "elevation_ascended_unit" = Ok u /\
    foldM (process_datetime_column to_datetime) ["start_date"; "end_date"] dfD
      = Ok df2 /\
    getitem dfE "start_datetime" = Ok s0 /\
    mapM cell_dt_date s0 = Ok s1 /\
    getitem dfF "end_datetime" = Ok t0 /\
    mapM cell_dt_date t0 = Ok t1 /\
    df = ensure_required_columns dfG.
Proof.
  intros H. apply try_except_ok in H.
  unfold process_workout_data in H. cbv zeta in H.
  step H c0 H0. step H c1 H1. step H df1 H2. step H e0 H3. step H e1 H4.
  step H e2 H5. step H u H6. step H df2 H7. step H s0 H8. step H s1 H9.
  step H t0 H10. step H t1 H11.
  apply column_dt_date_ok in H9, H11.
  inversion H. clear H.
  exists c0, c1, df1, e0, e1, e2, u, df2, s0, s1, t0, t1. cbv zeta.
  repeat split; assumption.
Qed.


Lemma numeric_step_other (df df' : DataFrame) (col k : string) (round : nat)
  (type : NumType) :
  process_numeric_column to_float df (col, (round, type)) = Ok df' ->
  k <> col ->
  lookup_col k (columns df') = lookup_col k (columns df).
Proof.
  unfold process_numeric_column. intros H Hk.
  destruct (in_columns col df); [|inversion H; reflexivity].
  step H c0 H0. step H c1 H1. step H c2 H2. inversion H. simpl.
  apply lookup_col_assign_other. exact Hk.
Qed.

Lemma numeric_step_rectangular (df df' : DataFrame)
  (entry : string * (nat * NumType)) :
  rectangular df ->
  process_numeric_column to_float df entry = Ok df' ->
  rectangular df' /\ n_rows df' = n_rows df.
Proof.
  unfold process_numeric_column. destruct entry as [col [round type]].
  intros R H.
  destruct (in_columns col df); [|inversion H; subst; auto].
  step H c0 H0. step H c1 H1. step H c2 H2. inversion H. subst df'.
  split; [|reflexivity]. apply setitem_rectangular; [exact R|].
  apply mapM_length in H2. rewrite length_map in H2.
  apply mapM_length in H1. apply getitem_length in H0; [|exact R]. lia.
Qed.

Lemma numeric_fold_rectangular (entries : list (string * (nat * NumType)))
  (df df' : DataFrame) :
  rectangular df ->
  foldM (process_numeric_column to_float) entries df = Ok df' ->
  rectangular df' /\ n_rows df' = n_rows df.
Proof.
  revert df. induction entries as [|e es IH]; intros df R H; simpl in H.
  - inversion H; subst. auto.
  - step H d Hd. destruct (numeric_step_rectangular _ _ _ R Hd) as [R' N].
    destruct (IH _ R' H) as [R'' N']. split; [exact R'' | lia].
Qed.

Lemma datetime_step_other (df df' : DataFrame) (col k : string) :
  process_datetime_column to_datetime df col = Ok df' ->
  k <> col ->
  lookup_col k (columns df') = lookup_col k (columns df).
Proof.
  unfold process_datetime_column. intros H Hk.
  step H c0 H0. step H c1 H1. inversion H. simpl.
  apply lookup_col_assign_other. exact Hk.
Qed.

Lemma datetime_step_rectangular (df df' : DataFrame) (col : string) :
  rectangular df ->
  process_datetime_column to_datetime df col = Ok df' ->
  rectangular df' /\ n_rows df' = n_rows df.
Proof.
  unfold process_datetime_column. intros R H.
  step H c0 H0. step H c1 H1. inversion H. subst df'.
  split; [|reflexivity]. apply setitem_rectangular; [exact R|].
  apply mapM_length in H1. apply getitem_length in H0; [|exact R]. lia.
Qed.

(** The numeric loop, turn by turn. *)
Lemma numeric_loop_ok (df df' : DataFrame) :
  foldM (process_numeric_column to_float) numeric_columns df = Ok df' ->
  exists d1 d2,
    process_numeric_column to_float df ("duration", (0%nat, as_int)) = Ok d1 /\
    process_numeric_column to_float d1
      ("distance_walking_running", (1%nat, as_float)) = Ok d2 /\
    process_numeric_column to_float d2
      ("elevation_ascended", (1%nat, as_float)) = Ok df'.
Proof.
  unfold numeric_columns. cbn [foldM]. intros H.
  step H d1 H1. step H d2 H2. step H d3 H3. inversion H. subst d3.
  exists d1, d2. auto.
Qed.

Lemma datetime_loop_ok (df df' : DataFrame) :
  foldM (process_datetime_column to_datetime) ["start_date"; "end_date"] df
    = Ok df' ->
  exists d1,
    process_datetime_column to_datetime df "start_date" = Ok d1 /\
    process_datetime_column to_datetime d1 "end_date" = Ok df'.
Proof.
  cbn [foldM]. intros H. step H d1 H1. step H d2 H2. inversion H. subst d2.
  exists d1. auto.
Qed.

(** From the frame that leaves the numeric loop to the frame that enters
    the last loop, a column other than the elevation, its unit and the four
    date columns is not touched. *)
Lemma untouched_after_numeric_loop (df1 df2 : DataFrame)
  (e0 e2 u s1 t1 : list Cell) (k : string) :
  foldM (process_datetime_column to_datetime) ["start_date"; "end_date"]
    (setitem
       (setitem
          (setitem df1 "elevation_ascended" (map (cell_fillna (CFloat 0)) e0))
          "elevation_ascended" (map (cell_round 1) (map (cell_div 100) e2)))
       "elevation_ascended_unit" (map (cell_replace "cm" "m") u)) = Ok df2 ->
  ~ In k [ "elevation_ascended"; "elevation_ascended_unit"; "start_date";
           "end_date"; "start_datetime"; "end_datetime" ] ->
  lookup_col k
    (columns (setitem (setitem (rename df2 datetime_renames) "start_date" s1)
                "end_date" t1))
  = lookup_col k (columns df1).
Proof.
  intros H7 Hk.
  destruct (datetime_loop_ok _ _ H7) as (d1 & Hd1 & Hd2).
  assert (N : forall x, In x [ "elevation_ascended"; "elevation_ascended_unit";
                               "start_date"; "end_date"; "start_datetime";
                               "end_datetime" ] -> k <> x).
  { intros x Hx <-. exact (Hk Hx). }
  cbn [setitem columns].
  rewrite lookup_col_assign_other by (apply N; simpl; tauto).
  rewrite lookup_col_assign_other by (apply N; simpl; tauto).
  rewrite rename_other
    by (intros Hin; apply Hk; simpl in Hin |- *; tauto).
  rewrite (datetime_step_other _ _ _ k Hd2) by (apply N; simpl; tauto).
  rewrite (datetime_step_other _ _ _ k Hd1) by (apply N; simpl; tauto).
  cbn [setitem columns].
  rewrite !lookup_col_assign_other by (apply N; simpl; tauto).
  reflexivity.
Qed.


Lemma process_workout_data_nonempty (xml_root : XmlRoot) (df : DataFrame) :
  process_workout_data to_datetime to_float xml_root = Ok df ->
  findall_Workout xml_root <> [].
Proof.
  intros H E.
  pose proof (no_elevation_metadata_raises to_datetime to_float xml_root) as N.
  rewrite H in N. simpl in N.
  assert (F : false = true -> False) by discriminate.
  apply F. symmetry. apply N. intros w m Hw. rewrite E in Hw. destruct Hw.
Qed.

Lemma workout_frame_shape (xml_root : XmlRoot) (df : DataFrame) :
  process_workout_data to_datetime to_float xml_root = Ok df ->
  n_rows df = List.length (findall_Workout xml_root) /\
  (0 < n_rows df)%nat /\
  rectangular df /\
  forall col,
    In col (required_columns ++ ["start_datetime"; "end_datetime"]) ->
    exists c, getitem df col = Ok c /\ List.length c = n_rows df.
Proof.
  intros H.
  pose proof (process_workout_data_nonempty _ _ H) as Hne.
  destruct (process_workout_data_ok _ _ H)
    as (c0 & c1 & df1 & e0 & e1 & e2 & u & df2 & s0 & s1 & t0 & t1 & Hall).
  cbv zeta in Hall.
  destruct Hall as (H0 & H1 & H2 & H3 & H4 & H5 & H6 & H7 & H8 & H9 & H10
                    & H11 & Hdf).
  set (df0 := pd_DataFrame (map record_data (findall_Workout xml_root))) in *.
  assert (R0 : rectangular df0) by apply pd_DataFrame_rectangular.
  assert (N0 : n_rows df0 = List.length (findall_Workout xml_root)).
  { unfold df0, pd_DataFrame. simpl. apply length_map. }
  assert (RA : rectangular (setitem df0 "workout_activity_type" c1)).
  { apply setitem_rectangular; [exact R0|].
    apply mapM_length in H1. apply getitem_length in H0; [|exact R0]. lia. }
  destruct (numeric_fold_rectangular _ _ _ RA H2) as [R1 N1].
  cbn [setitem n_rows] in N1.
  set (dfB := setitem df1 "elevation_ascended"
                (map (cell_fillna (CFloat 0)) e0)) in *.
  assert (RB : rectangular dfB).
  { apply setitem_rectangular; [exact R1|]. rewrite length_map.
    apply (getitem_length _ _ _ R1 H3). }
  set (dfC := setitem dfB "elevation_ascended"
                (map (cell_round 1) (map (cell_div 100) e2))) in *.
  assert (RC : rectangular dfC).
  { apply setitem_rectangular; [exact RB|]. rewrite !length_map.
    apply mapM_length in H5. apply getitem_length in H4; [|exact RB]. lia. }
  set (dfD := setitem dfC "elevation_ascended_unit"
                (map (cell_replace "cm" "m") u)) in *.
  assert (RD : rectangular dfD).
  { apply setitem_rectangular; [exact RC|]. rewrite length_map.
    apply (getitem_length _ _ _ RC H6). }
  destruct (datetime_loop_ok _ _ H7) as (d1 & Hd1 & Hd2).
  destruct (datetime_step_rectangular _ _ _ RD Hd1) as [Rd1 Nd1].
  destruct (datetime_step_rectangular _ _ _ Rd1 Hd2) as [R2 N2].
  set (dfE := rename df2 datetime_renames) in *.
  assert (RE : rectangular dfE) by (apply rename_rectangular; exact R2).
  set (dfF := setitem dfE "start_date" s1) in *.
  assert (RF : rectangular dfF).
  { apply setitem_rectangular; [exact RE|].
    apply mapM_length in H9. apply getitem_length in H8; [|exact RE]. lia. }
  set (dfG := setitem dfF "end_date" t1) in *.
  assert (RG : rectangular dfG).
  { apply setitem_rectangular; [exact RF|].
    apply mapM_length in H11. apply getitem_length in H10; [|exact RF]. lia. }
  assert (NG : n_rows dfG = List.length (findall_Workout xml_root)).
  { unfold dfG, dfF, dfE, dfD, dfC, dfB. cbn [setitem rename n_rows].
    rewrite N2, Nd1. unfold dfD, dfC, dfB. cbn [setitem n_rows]. lia. }
  assert (Rdf : rectangular df).
  { subst df. apply ensure_fold_rectangular. exact RG. }
  assert (Ndf : n_rows df = n_rows dfG).
  { subst df. apply ensure_fold_n_rows. }
  split; [lia|]. split.
  { rewrite Ndf, NG. destruct (findall_Workout xml_root);
      [contradiction | simpl; lia]. }
  split; [exact Rdf|].
  intros col Hcol.
  assert (P : in_columns col df = true).
  { apply in_app_or in Hcol. destruct Hcol as [Hc|Hc].
    - subst df. apply ensure_fold_present. exact Hc.
    - subst df. unfold in_columns, ensure_required_columns.
      assert (E : exists c, lookup_col col (columns dfG) = Some c).
      { simpl in Hc. destruct Hc as [<-|[<-|[]]].
        - exists s0. unfold dfG, dfF. cbn [setitem columns].
          rewrite !lookup_col_assign_other by discriminate.
          apply getitem_lookup. exact H8.
        - exists t0. unfold dfG. cbn [setitem columns].
          rewrite lookup_col_assign_other by discriminate.
          apply getitem_lookup. exact H10. }
      destruct E as [c E]. rewrite (ensure_fold_keeps _ _ _ _ E).
      reflexivity. }
  unfold in_columns in P. unfold getitem.
  destruct (lookup_col col (columns df)) as [c|] eqn:E; [|discriminate].
  exists c. split; [reflexivity|]. apply (lookup_col_length df col c Rdf E).
Qed.

(** X8. A table returned by the Workout Flattener has one row per workout
    of the export and at least one row, every column has one cell per row,
    and the six required columns and the two datetime columns are
    present. *)
Theorem workout_frame_is_complete (xml_root : XmlRoot) (df : DataFrame) :
  process_workout_data to_datetime to_float xml_root = Ok df ->
  n_rows df = List.length (findall_Workout xml_root) /\
  (0 < n_rows df)%nat /\
  rectangular df /\
  forall col,
    In col (required_columns ++ ["start_datetime"; "end_datetime"]) ->
    exists c, getitem df col = Ok c /\ List.length c = n_rows df.
Proof. apply workout_frame_shape. Qed.

(** X9. In a table returned by the Workout Flattener,
    [workout_activity_type] is, row by row, the export's attribute without
    its first 21 characters: the prefix is cut by position, not by
    content. *)
Theorem activity_type_loses_its_first_21_characters (xml_root : XmlRoot)
  (df : DataFrame) :
  process_workout_data to_datetime to_float xml_root = Ok df ->
  getitem df "workout_activity_type"
  = Ok (map (fun w => CStr (slice_from 21 (w_workoutActivityType w)))
            (findall_Workout xml_root)).
Proof.
  intros H.
  pose proof (process_workout_data_nonempty _ _ H) as Hne.
  destruct (process_workout_data_ok _ _ H)
    as (c0 & c1 & df1 & e0 & e1 & e2 & u & df2 & s0 & s1 & t0 & t1 & Hall).
  cbv zeta in Hall.
  destruct Hall as (H0 & H1 & H2 & _ & _ & _ & _ & H7 & _ & _ & _ & _ & Hdf).
  apply getitem_lookup in H0.
  rewrite pd_DataFrame_column in H0
    by (apply pd_DataFrame_base_column; [exact Hne | simpl; tauto]).
  inversion H0 as [E0]. clear H0.
  rewrite map_map in E0.
  assert (E0' : c0 = map CStr (map w_workoutActivityType
                                   (findall_Workout xml_root))).
  { rewrite <- E0, map_map. apply map_ext. intros w.
    rewrite record_data_base by (simpl; tauto). reflexivity. }
  rewrite E0', mapM_cell_slice_from in H1. inversion H1 as [E1]. clear H1.
  destruct (numeric_loop_ok _ _ H2) as (d1 & d2 & S1 & S2 & S3).
  apply getitem_lookup. subst df. unfold ensure_required_columns.
  apply ensure_fold_keeps.
  rewrite (untouched_after_numeric_loop _ _ _ _ _ _ _ _ H7)
    by (simpl; intros [E|[E|[E|[E|[E|[E|[]]]]]]]; discriminate E).
  rewrite (numeric_step_other _ _ _ "workout_activity_type" _ _ S3)
    by discriminate.
  rewrite (numeric_step_other _ _ _ "workout_activity_type" _ _ S2)
    by discriminate.
  rewrite (numeric_step_other _ _ _ "workout_activity_type" _ _ S1)
    by discriminate.
  cbn [setitem columns]. rewrite lookup_col_assign_same.
  rewrite <- E1, map_map. reflexivity.
Qed.


(** One turn of the numeric loop on a column that is there, cell by cell. *)
Lemma numeric_step_cell (df df' : DataFrame) (col : string) (round : nat)
  (type : NumType) (c : list Cell) :
  process_numeric_column to_float df (col, (round, type)) = Ok df' ->
  lookup_col col (columns df) = Some c ->
  exists c',
    lookup_col col (columns df') = Some c' /\
    forall i x, nth_error c i = Some x ->
      exists y z,
        cell_astype_float to_float x = Ok y /\
        cell_astype to_float type (cell_round round y) = Ok z /\
        nth_error c' i = Some z.
Proof.
  unfold process_numeric_column. intros H Hc.
  unfold in_columns in H. rewrite Hc in H.
  step H c0 H0. step H c1 H1. step H c2 H2. inversion H. subst df'.
  apply getitem_lookup in H0. rewrite Hc in H0. inversion H0. subst c0.
  exists c2. split; [simpl; apply lookup_col_assign_same|].
  intros i x Hx.
  destruct (mapM_nth_error _ _ _ H1 i x Hx) as (y & Hy & Hiy).
  destruct (mapM_nth_error _ _ _ H2 i (cell_round round y)) as (z & Hz & Hiz).
  { rewrite nth_error_map, Hiy. reflexivity. }
  exists y, z. auto.
Qed.

Lemma numeric_step_absent (df df' : DataFrame) (k : string)
  (entry : string * (nat * NumType)) :
  lookup_col k (columns df) = None ->
  process_numeric_column to_float df entry = Ok df' ->
  lookup_col k (columns df') = None.
Proof.
  destruct entry as [col [round type]]. intros Hk H.
  destruct (string_dec k col) as [->|Hne].
  - unfold process_numeric_column, in_columns in H. rewrite Hk in H.
    inversion H. subst df'. exact Hk.
  - rewrite (numeric_step_other _ _ _ k _ _ H Hne). exact Hk.
Qed.

Lemma Qtrunc_inject_Z (z : Z) : Qtrunc (inject_Z z) = z.
Proof. unfold Qtrunc, inject_Z. simpl. apply Z.quot_1_r. Qed.

(** X12: duration *)
(** X10. If the Workout Flattener returns a table, every workout of the
    export has a duration that reads as a number, and the [duration] cell of
    its row is that number rounded half to even to an integer. *)
Theorem duration_is_rounded_to_an_integer (xml_root : XmlRoot)
  (df : DataFrame) (i : nat) (w : RawWorkout) :
  process_workout_data to_datetime to_float xml_root = Ok df ->
  nth_error (findall_Workout xml_root) i = Some w ->
  exists s q c,
    w_duration w = Some s /\
    to_float s = Some q /\
    getitem df "duration" = Ok c /\
    nth_error c i = Some (CInt (rint q)).
Proof.
  intros H Hw.
  pose proof (process_workout_data_nonempty _ _ H) as Hne.
  destruct (process_workout_data_ok _ _ H)
    as (c0 & c1 & df1 & e0 & e1 & e2 & u & df2 & s0 & s1 & t0 & t1 & Hall).
  cbv zeta in Hall.
  destruct Hall as (_ & _ & H2 & _ & _ & _ & _ & H7 & _ & _ & _ & _ & Hdf).
  destruct (numeric_loop_ok _ _ H2) as (d1 & d2 & S1 & S2 & S3).
  assert (C0 : lookup_col "duration"
                 (columns (setitem (pd_DataFrame
                                      (map record_data
                                         (findall_Workout xml_root)))
                             "workout_activity_type" c1))
               = Some (map (fun w => cell_of_attr (w_duration w))
                           (findall_Workout xml_root))).
  { cbn [setitem columns]. rewrite lookup_col_assign_other by discriminate.
    rewrite pd_DataFrame_column
      by (apply pd_DataFrame_base_column; [exact Hne | simpl; tauto]).
    rewrite map_map. f_equal. apply map_ext. intros w'.
    rewrite record_data_base by (simpl; tauto). reflexivity. }
  destruct (numeric_step_cell _ _ _ _ _ _ S1 C0) as (c' & Hc' & Hcell).
  destruct (Hcell i (cell_of_attr (w_duration w))) as (y & z & Hy & Hz & Hiz).
  { rewrite nth_error_map, Hw. reflexivity. }
  destruct (w_duration w) as [s|]; [|simpl in Hy; inversion Hy; subst y;
                                     simpl in Hz; discriminate].
  simpl in Hy. destruct (to_float s) as [q|] eqn:Eq; [|discriminate].
  inversion Hy. subst y. simpl in Hz. inversion Hz. subst z.
  rewrite Qtrunc_inject_Z in Hiz.
  exists s, q, c'. split; [reflexivity|]. split; [exact Eq|].
  split; [|exact Hiz].
  apply getitem_lookup. subst df. unfold ensure_required_columns.
  apply ensure_fold_keeps.
  rewrite (untouched_after_numeric_loop _ _ _ _ _ _ _ _ H7)
    by (simpl; intros [E|[E|[E|[E|[E|[E|[]]]]]]]; discriminate E).
  rewrite (numeric_step_other _ _ _ "duration" _ _ S3) by discriminate.
  rewrite (numeric_step_other _ _ _ "duration" _ _ S2) by discriminate.
  exact Hc'.
Qed.


Lemma numeric_fold_absent (entries : list (string * (nat * NumType)))
  (df df' : DataFrame) (k : string) :
  lookup_col k (columns df) = None ->
  foldM (process_numeric_column to_float) entries df = Ok df' ->
  lookup_col k (columns df') = None.
Proof.
  revert df. induction entries as [|e es IH]; intros df Hk H; simpl in H.
  - inversion H. subst df'. exact Hk.
  - step H d Hd. apply (IH d); [|exact H].
    apply (numeric_step_absent df d k e Hk Hd).
Qed.

(** The elevation column, from its last conversion to the frame that enters
    the last loop. *)
Lemma elevation_after_conversion (dfB df2 : DataFrame)
  (e2 u s1 t1 : list Cell) :
  foldM (process_datetime_column to_datetime) ["start_date"; "end_date"]
    (setitem
       (setitem dfB "elevation_ascended"
          (map (cell_round 1) (map (cell_div 100) e2)))
       "elevation_ascended_unit" (map (cell_replace "cm" "m") u)) = Ok df2 ->
  lookup_col "elevation_ascended"
    (columns (setitem (setitem (rename df2 datetime_renames) "start_date" s1)
                "end_date" t1))
  = Some (map (cell_round 1) (map (cell_div 100) e2)).
Proof.
  intros H7. destruct (datetime_loop_ok _ _ H7) as (d1 & Hd1 & Hd2).
  cbn [setitem columns].
  rewrite !lookup_col_assign_other by discriminate.
  rewrite rename_other
    by (simpl; intros [E|[E|[E|[E|[]]]]]; discriminate E).
  rewrite (datetime_step_other _ _ _ "elevation_ascended" Hd2) by discriminate.
  rewrite (datetime_step_other _ _ _ "elevation_ascended" Hd1) by discriminate.
  cbn [setitem columns].
  rewrite lookup_col_assign_other by discriminate.
  apply lookup_col_assign_same.
Qed.

(** X9: elevation *)
(** X11. In a table returned by the Workout Flattener, the
    [elevation_ascended] cell of a workout is its last elevation entry,
    rounded to one decimal, divided by 100 and rounded to one decimal again,
    whatever unit the entry names; a workout without an entry gets 0. *)
Theorem elevation_is_divided_by_100 (xml_root : XmlRoot) (df : DataFrame)
  (i : nat) (w : RawWorkout) :
  process_workout_data to_datetime to_float xml_root = Ok df ->
  nth_error (findall_Workout xml_root) i = Some w ->
  exists c,
    getitem df "elevation_ascended" = Ok c /\
    match last_elevation w with
    | None => nth_error c i = Some (CFloat (np_round (0 / 100) 1))
    | Some v =>
        exists q,
          to_float (elevation_number v) = Some q /\
          nth_error c i = Some (CFloat (np_round (np_round q 1 / 100) 1))
    end.
Proof.
  intros H Hw.
  destruct (process_workout_data_ok _ _ H)
    as (c0 & c1 & df1 & e0 & e1 & e2 & u & df2 & s0 & s1 & t0 & t1 & Hall).
  cbv zeta in Hall.
  destruct Hall as (_ & _ & H2 & H3 & H4 & H5 & _ & H7 & _ & _ & _ & _ & Hdf).
  exists (map (cell_round 1) (map (cell_div 100) e2)).
  split.
  { apply getitem_lookup. subst df. unfold ensure_required_columns.
    apply ensure_fold_keeps. apply (elevation_after_conversion _ _ _ _ _ _ H7). }
  apply getitem_lookup in H3, H4.
  cbn [setitem columns] in H4. rewrite lookup_col_assign_same in H4.
  inversion H4 as [E1]. clear H4.
  (* the column was there from the start *)
  set (dfA := setitem (pd_DataFrame (map record_data
                                       (findall_Workout xml_root)))
                "workout_activity_type" c1) in *.
  destruct (lookup_col "elevation_ascended" (columns dfA)) as [col0|] eqn:EA;
    [|rewrite (numeric_fold_absent _ _ _ _ EA H2) in H3; discriminate].
  assert (E0 : col0 = map (fun w => match dict_get "elevation_ascended"
                                            (record_data w) with
                                    | Some v => v
                                    | None => CNaN
                                    end) (findall_Workout xml_root)).
  { apply workout_frame_column. unfold dfA in EA. cbn [setitem columns] in EA.
    rewrite lookup_col_assign_other in EA by discriminate. exact EA. }
  destruct (numeric_loop_ok _ _ H2) as (d1 & d2 & S1 & S2 & S3).
  assert (E2 : lookup_col "elevation_ascended" (columns d2) = Some col0).
  { rewrite (numeric_step_other _ _ _ "elevation_ascended" _ _ S2)
      by discriminate.
    rewrite (numeric_step_other _ _ _ "elevation_ascended" _ _ S1)
      by discriminate.
    exact EA. }
  destruct (numeric_step_cell _ _ _ _ _ _ S3 E2) as (c' & Hc' & Hcell).
  rewrite Hc' in H3. inversion H3. subst c'. clear H3.
  destruct (Hcell i (match dict_get "elevation_ascended" (record_data w) with
                     | Some v => v
                     | None => CNaN
                     end)) as (y & z & Hy & Hz & Hiz).
  { rewrite E0, nth_error_map, Hw. reflexivity. }
  destruct (mapM_nth_error _ _ _ H5 i (cell_fillna (CFloat 0) z))
    as (g & Hg & Hig).
  { rewrite <- E1, nth_error_map, Hiz. reflexivity. }
  rewrite !nth_error_map, Hig. simpl option_map.
  destruct (record_data_elevation w) as [Hd _]. rewrite Hd in Hy.
  destruct (last_elevation w) as [v|]; simpl in Hy.
  - destruct (to_float (elevation_number v)) as [q|] eqn:Eq; [|discriminate].
    inversion Hy. subst y. simpl in Hz. inversion Hz. subst z.
    simpl in Hg. inversion Hg. subst g.
    exists q. split; reflexivity.
  - inversion Hy. subst y. simpl in Hz. inversion Hz. subst z.
    simpl in Hg. inversion Hg. subst g. reflexivity.
Qed.


(** X10a: distance defaults *)
(** X12. When no workout of the export has a walking/running distance
    statistic, the table returned by the Workout Flattener has the column
    [distance_walking_running] all the same, filled with the integer 0. *)
Theorem distance_is_zero_when_no_workout_has_it (xml_root : XmlRoot)
  (df : DataFrame) :
  process_workout_data to_datetime to_float xml_root = Ok df ->
  (forall w, In w (findall_Workout xml_root) -> last_distance w = None) ->
  getitem df "distance_walking_running"
  = Ok (repeat (CInt 0) (List.length (findall_Workout xml_root))).
Proof.
  intros H Hnone.
  destruct (workout_frame_shape _ _ H) as (Hn & _).
  destruct (process_workout_data_ok _ _ H)
    as (c0 & c1 & df1 & e0 & e1 & e2 & u & df2 & s0 & s1 & t0 & t1 & Hall).
  cbv zeta in Hall.
  destruct Hall as (_ & _ & H2 & _ & _ & _ & _ & H7 & _ & _ & _ & _ & Hdf).
  assert (E1 : lookup_col "distance_walking_running" (columns df1) = None).
  { apply (numeric_fold_absent numeric_columns
             (setitem (pd_DataFrame (map record_data
                                       (findall_Workout xml_root)))
                "workout_activity_type" c1)); [|exact H2].
    cbn [setitem columns]. rewrite lookup_col_assign_other by discriminate.
    apply workout_frame_no_column. intros w Hw.
    destruct (record_data_distance w) as [Hd _]. rewrite Hd, (Hnone w Hw).
    reflexivity. }
  apply getitem_lookup. rewrite <- Hn. subst df.
  unfold ensure_required_columns. rewrite ensure_fold_n_rows.
  rewrite ensure_fold_adds.
  - reflexivity.
  - unfold required_columns. simpl. tauto.
  - rewrite (untouched_after_numeric_loop _ _ _ _ _ _ _ _ H7)
      by (simpl; intros [E|[E|[E|[E|[E|[E|[]]]]]]]; discriminate E).
    exact E1.
Qed.

(** X10b: distance cells *)
(** X13. When some workout of the export has a walking/running distance
    statistic, the [distance_walking_running] cell of a workout is the sum
    of its last such statistic rounded to one decimal, and NaN (not 0) for a
    workout without that statistic or without a sum. *)
Theorem distance_is_rounded_or_missing (xml_root : XmlRoot) (df : DataFrame)
  (w0 : RawWorkout) (st0 : WorkoutStatistics) (i : nat) (w : RawWorkout) :
  process_workout_data to_datetime to_float xml_root = Ok df ->
  In w0 (findall_Workout xml_root) -> last_distance w0 = Some st0 ->
  nth_error (findall_Workout xml_root) i = Some w ->
  exists c,
    getitem df "distance_walking_running" = Ok c /\
    match last_distance w with
    | None => nth_error c i = Some CNaN
    | Some st =>
        match stat_sum st with
        | None => nth_error c i = Some CNaN
        | Some s =>
            exists q, to_float s = Some q /\
                      nth_error c i = Some (CFloat (np_round q 1))
        end
    end.
Proof.
  intros H Hw0 Hst0 Hw.
  destruct (process_workout_data_ok _ _ H)
    as (c0 & c1 & df1 & e0 & e1 & e2 & u & df2 & s0 & s1 & t0 & t1 & Hall).
  cbv zeta in Hall.
  destruct Hall as (_ & _ & H2 & _ & _ & _ & _ & H7 & _ & _ & _ & _ & Hdf).
  destruct (numeric_loop_ok _ _ H2) as (d1 & d2 & S1 & S2 & S3).
  destruct (workout_frame_has_column (findall_Workout xml_root)
              "distance_walking_running" w0 (cell_of_attr (stat_sum st0)) Hw0)
    as (col0 & E0).
  { destruct (record_data_distance w0) as [Hd _]. rewrite Hd, Hst0.
    reflexivity. }
  pose proof (workout_frame_column _ _ _ E0) as Ecol.
  assert (E1 : lookup_col "distance_walking_running" (columns d1) = Some col0).
  { rewrite (numeric_step_other _ _ _ "distance_walking_running" _ _ S1)
      by discriminate.
    cbn [setitem columns]. rewrite lookup_col_assign_other by discriminate.
    exact E0. }
  destruct (numeric_step_cell _ _ _ _ _ _ S2 E1) as (c' & Hc' & Hcell).
  exists c'. split.
  { apply getitem_lookup. subst df. unfold ensure_required_columns.
    apply ensure_fold_keeps.
    rewrite (untouched_after_numeric_loop _ _ _ _ _ _ _ _ H7)
      by (simpl; intros [E|[E|[E|[E|[E|[E|[]]]]]]]; discriminate E).
    rewrite (numeric_step_other _ _ _ "distance_walking_running" _ _ S3)
      by discriminate.
    exact Hc'. }
  destruct (Hcell i (match dict_get "distance_walking_running"
                             (record_data w) with
                     | Some v => v
                     | None => CNaN
                     end)) as (y & z & Hy & Hz & Hiz).
  { rewrite Ecol, nth_error_map, Hw. reflexivity. }
  destruct (record_data_distance w) as [Hd _]. rewrite Hd in Hy.
  destruct (last_distance w) as [st|]; simpl in Hy.
  - destruct (stat_sum st) as [s|]; simpl in Hy.
    + destruct (to_float s) as [q|] eqn:Eq; [|discriminate].
      inversion Hy. subst y. simpl in Hz. inversion Hz. subst z.
      exists q. split; [reflexivity | exact Hiz].
    + inversion Hy. subst y. simpl in Hz. inversion Hz. subst z. exact Hiz.
  - inversion Hy. subst y. simpl in Hz. inversion Hz. subst z. exact Hiz.
Qed.

Lemma datetime_step_ok (df df' : DataFrame) (col : string) :
  process_datetime_column to_datetime df col = Ok df' ->
  exists c c',
    lookup_col col (columns df) = Some c /\
    mapM (cell_to_datetime to_datetime) c = Ok c' /\
    df' = setitem df col c'.
Proof.
  unfold process_datetime_column. intros H.
  step H c Hc. step H c' Hc'. inversion H.
  exists c, c'. split; [apply getitem_lookup; exact Hc|]. auto.
Qed.

Lemma datetime_step_absent (df df' : DataFrame) (col k : string) :
  process_datetime_column to_datetime df col = Ok df' ->
  k <> col ->
  lookup_col k (columns df) = None ->
  lookup_col k (columns df') = None.
Proof.
  intros H Hk Habs. rewrite (datetime_step_other _ _ _ k H Hk). exact Habs.
Qed.

(** The two date columns, as the export wrote them, reach the datetime
    loop untouched; the two datetime names are free until the renaming. *)
Lemma date_columns_before_the_datetime_loop (xml_root : XmlRoot)
  (c1 : list Cell) (df1 : DataFrame) (e0 e2 u : list Cell) :
  findall_Workout xml_root <> [] ->
  foldM (process_numeric_column to_float) numeric_columns
    (setitem (pd_DataFrame (map record_data (findall_Workout xml_root)))
       "workout_activity_type" c1) = Ok df1 ->
  let dfD :=
    setitem
      (setitem
         (setitem df1 "elevation_ascended" (map (cell_fillna (CFloat 0)) e0))
         "elevation_ascended" (map (cell_round 1) (map (cell_div 100) e2)))
      "elevation_ascended_unit" (map (cell_replace "cm" "m") u) in
  lookup_col "start_date" (columns dfD)
  = Some (map (fun w => CStr (w_startDate w)) (findall_Workout xml_root)) /\
  lookup_col "end_date" (columns dfD)
  = Some (map (fun w => CStr (w_endDate w)) (findall_Workout xml_root)) /\
  lookup_col "start_datetime" (columns dfD) = None /\
  lookup_col "end_datetime" (columns dfD) = None.
Proof.
  intros Hne H2. cbv zeta.
  destruct (numeric_loop_ok _ _ H2) as (d1 & d2 & S1 & S2 & S3).
  assert (B : forall k attr,
            In k ["start_date"; "end_date"] ->
            (forall w, dict_get k (record_data w) = Some (CStr (attr w))) ->
            lookup_col k (columns df1)
            = Some (map (fun w => CStr (attr w)) (findall_Workout xml_root))).
  { intros k attr Hk Hattr.
    assert (N : forall x, In x ["workout_activity_type"; "duration";
                                "distance_walking_running";
                                "elevation_ascended"] -> k <> x).
    { intros x Hx <-. simpl in Hk, Hx.
      destruct Hk as [<-|[<-|[]]];
        destruct Hx as [Hx|[Hx|[Hx|[Hx|[]]]]]; discriminate Hx. }
    rewrite (numeric_step_other _ _ _ k _ _ S3) by (apply N; simpl; tauto).
    rewrite (numeric_step_other _ _ _ k _ _ S2) by (apply N; simpl; tauto).
    rewrite (numeric_step_other _ _ _ k _ _ S1) by (apply N; simpl; tauto).
    cbn [setitem columns].
    rewrite lookup_col_assign_other by (apply N; simpl; tauto).
    rewrite pd_DataFrame_column.
    - rewrite map_map. f_equal. apply map_ext. intros w. rewrite Hattr.
      reflexivity.
    - apply pd_DataFrame_base_column; [exact Hne|].
      simpl in Hk |- *. tauto. }
  assert (A : forall k,
            In k ["start_datetime"; "end_datetime"] ->
            lookup_col k (columns df1) = None).
  { intros k Hk.
    apply (numeric_fold_absent _ _ _ k) in H2; [exact H2|].
    cbn [setitem columns].
    rewrite lookup_col_assign_other
      by (simpl in Hk; destruct Hk as [<-|[<-|[]]]; discriminate).
    apply workout_frame_no_column. intros w _.
    rewrite record_data_not_added
      by (simpl in Hk |- *; destruct Hk as [<-|[<-|[]]];
          intros [E|[E|[E|[E|[]]]]]; discriminate E).
    simpl in Hk. destruct Hk as [<-|[<-|[]]]; reflexivity. }
  cbn [setitem columns].
  rewrite !lookup_col_assign_other by discriminate.
  split; [apply (B "start_date" w_startDate); [simpl; tauto|]|].
  { intros w. rewrite record_data_base by (simpl; tauto). reflexivity. }
  split; [apply (B "end_date" w_endDate); [simpl; tauto|]|].
  { intros w. rewrite record_data_base by (simpl; tauto). reflexivity. }
  split; apply A; simpl; tauto.
Qed.

Lemma mapM_to_datetime_cell (l : list string) (c' : list Cell) (i : nat)
  (s : string) :
  mapM (cell_to_datetime to_datetime) (map CStr l) = Ok c' ->
  nth_error l i = Some s ->
  exists ts, to_datetime s = Some ts /\ nth_error c' i = Some (CTimestamp ts).
Proof.
  intros H Hs.
  destruct (mapM_nth_error _ _ _ H i (CStr s)) as (y & Hy & Hi).
  { rewrite nth_error_map, Hs. reflexivity. }
  cbn [cell_to_datetime] in Hy. unfold pd_to_datetime in Hy.
  destruct (to_datetime s) as [ts|]; [|discriminate].
  simpl in Hy. inversion Hy; subst y. exists ts. auto.
Qed.

(** X28. If the Workout Flattener returns a table, the start and the end
    date of every workout read as timestamps; [start_datetime] and
    [end_datetime] hold them unchanged, and [start_date] and [end_date]
    their local calendar days: workouts are not moved by four hours as
    sleep rows are. *)
Theorem workout_dates_are_the_days_of_the_export (xml_root : XmlRoot)
  (df : DataFrame) (i : nat) (w : RawWorkout) :
  process_workout_data to_datetime to_float xml_root = Ok df ->
  nth_error (findall_Workout xml_root) i = Some w ->
  exists (start_raw end_raw : Timestamp)
         (start_datetime end_datetime start_date end_date : list Cell),
    to_datetime (w_startDate w) = Some start_raw /\
    to_datetime (w_endDate w) = Some end_raw /\
    getitem df "start_datetime" = Ok start_datetime /\
    nth_error start_datetime i = Some (CTimestamp start_raw) /\
    getitem df "end_datetime" = Ok end_datetime /\
    nth_error end_datetime i = Some (CTimestamp end_raw) /\
    getitem df "start_date" = Ok start_date /\
    nth_error start_date i = Some (CDate (ts_date start_raw)) /\
    getitem df "end_date" = Ok end_date /\
    nth_error end_date i = Some (CDate (ts_date end_raw)).
Proof.
  intros H Hw.
  pose proof (process_workout_data_nonempty _ _ H) as Hne.
  destruct (process_workout_data_ok _ _ H)
    as (c0 & c1 & df1 & e0 & e1 & e2 & u & df2 & s0 & s1 & t0 & t1 & Hall).
  cbv zeta in Hall.
  destruct Hall as (_ & _ & H2 & _ & _ & _ & _ & H7 & H8 & H9 & H10 & H11
                    & Hdf).
  destruct (date_columns_before_the_datetime_loop xml_root c1 df1 e0 e2 u
              Hne H2) as (Bs & Be & As & Ae).
  cbv zeta in Bs, Be, As, Ae.
  set (dfD := setitem (setitem (setitem df1 "elevation_ascended" _)
                         "elevation_ascended" _) "elevation_ascended_unit" _)
    in *.
  destruct (datetime_loop_ok _ _ H7) as (d1 & Hd1 & Hd2).
  destruct (datetime_step_ok _ _ _ Hd1) as (cs & cs' & Ls & Ms & ->).
  destruct (datetime_step_ok _ _ _ Hd2) as (ce & ce' & Le & Me & ->).
  rewrite Bs in Ls. inversion Ls; subst cs. clear Ls.
  cbn [setitem columns] in Le.
  rewrite lookup_col_assign_other in Le by discriminate.
  rewrite Be in Le. inversion Le; subst ce. clear Le.
  rewrite <- map_map in Ms, Me.
  destruct (mapM_to_datetime_cell _ _ i (w_startDate w) Ms)
    as (start_raw & Ps & Is); [rewrite nth_error_map, Hw; reflexivity|].
  destruct (mapM_to_datetime_cell _ _ i (w_endDate w) Me)
    as (end_raw & Pe & Ie); [rewrite nth_error_map, Hw; reflexivity|].
  set (df2 := setitem (setitem dfD "start_date" cs') "end_date" ce') in *.
  assert (Fs : lookup_col "start_datetime" (columns df2) = None).
  { unfold df2. cbn [setitem columns].
    rewrite !lookup_col_assign_other by discriminate. exact As. }
  assert (Fe : lookup_col "end_datetime" (columns df2) = None).
  { unfold df2. cbn [setitem columns].
    rewrite !lookup_col_assign_other by discriminate. exact Ae. }
  assert (Rs : lookup_col "start_datetime"
                 (columns (rename df2 datetime_renames)) = Some cs').
  { unfold datetime_renames.
    rewrite rename_two_first by (try discriminate; exact Fs).
    unfold df2. cbn [setitem columns].
    rewrite lookup_col_assign_other by discriminate.
    apply lookup_col_assign_same. }
  assert (Re : lookup_col "end_datetime"
                 (columns (rename df2 datetime_renames)) = Some ce').
  { unfold datetime_renames.
    rewrite rename_two_second by (try discriminate; exact Fe).
    unfold df2. cbn [setitem columns]. apply lookup_col_assign_same. }
  apply getitem_lookup in H8, H10.
  rewrite Rs in H8. inversion H8; subst s0. clear H8.
  cbn [setitem columns] in H10.
  rewrite lookup_col_assign_other in H10 by discriminate.
  rewrite Re in H10. inversion H10; subst t0. clear H10.
  destruct (mapM_nth_error _ _ _ H9 i _ Is) as (ys & Ys & Js).
  destruct (mapM_nth_error _ _ _ H11 i _ Ie) as (ye & Ye & Je).
  cbn [cell_dt_date] in Ys, Ye. inversion Ys; subst ys.
  inversion Ye; subst ye.
  exists start_raw, end_raw, cs', ce', s1, t1.
  split; [exact Ps|]. split; [exact Pe|].
  assert (K : forall k c,
            lookup_col k
              (columns (setitem (setitem (rename df2 datetime_renames)
                                   "start_date" s1) "end_date" t1)) = Some c ->
            getitem df k = Ok c).
  { intros k c Hk. apply getitem_lookup. rewrite Hdf.
    unfold ensure_required_columns. apply ensure_fold_keeps. exact Hk. }
  split; [apply K; cbn [setitem columns];
          rewrite !lookup_col_assign_other by discriminate; exact Rs|].
  split; [exact Is|].
  split; [apply K; cbn [setitem columns];
          rewrite !lookup_col_assign_other by discriminate; exact Re|].
  split; [exact Ie|].
  split; [apply K; cbn [setitem columns];
          rewrite lookup_col_assign_other by discriminate;
          apply lookup_col_assign_same|].
  split; [exact Js|].
  split; [apply K; cbn [setitem columns]; apply lookup_col_assign_same|].
  exact Je.
Qed.

End WorkoutFlattener.

Lemma sessions_frame_ok :
  process_workout_data export_to_datetime decimal_to_float sessions_export
  = Ok sessions_frame.
Proof. vm_compute. reflexivity. Qed.

Lemma climb_frame_ok :
  process_workout_data export_to_datetime decimal_to_float climb_export
  = Ok climb_frame.
Proof. vm_compute. reflexivity. Qed.

Lemma workout_frame_is_complete_witness :
  n_rows sessions_frame = List.length (findall_Workout sessions_export) /\
  (0 < n_rows sessions_frame)%nat /\
  rectangular sessions_frame /\
  forall col,
    In col (required_columns ++ ["start_datetime"; "end_datetime"])%list ->
    exists c, getitem sessions_frame col = Ok c
              /\ List.length c = n_rows sessions_frame.
Proof.
  exact (workout_frame_is_complete export_to_datetime decimal_to_float
           sessions_export sessions_frame sessions_frame_ok).
Defined.

Lemma activity_type_loses_its_first_21_characters_witness :
  getitem sessions_frame "workout_activity_type"
  = Ok (map (fun w => CStr (slice_from 21 (w_workoutActivityType w)))
            (findall_Workout sessions_export)).
Proof.
  exact (activity_type_loses_its_first_21_characters export_to_datetime
           decimal_to_float sessions_export sessions_frame sessions_frame_ok).
Defined.

Lemma duration_is_rounded_to_an_integer_witness :
  exists s q c,
    w_duration running_session = Some s /\
    decimal_to_float s = Some q /\
    getitem sessions_frame "duration" = Ok c /\
    nth_error c 0 = Some (CInt (rint q)).
Proof.
  exact (duration_is_rounded_to_an_integer export_to_datetime
           decimal_to_float sessions_export sessions_frame 0%nat
           running_session sessions_frame_ok eq_refl).
Defined.

Lemma elevation_is_divided_by_100_witness :
  exists c,
    getitem sessions_frame "elevation_ascended" = Ok c /\
    match last_elevation running_session with
    | None => nth_error c 0 = Some (CFloat (np_round (0 / 100) 1))
    | Some v =>
        exists q,
          decimal_to_float (elevation_number v) = Some q /\
          nth_error c 0 = Some (CFloat (np_round (np_round q 1 / 100) 1))
    end.
Proof.
  exact (elevation_is_divided_by_100 export_to_datetime decimal_to_float
           sessions_export sessions_frame 0%nat running_session
           sessions_frame_ok eq_refl).
Defined.

Lemma distance_is_zero_when_no_workout_has_it_witness :
  getitem climb_frame "distance_walking_running" = Ok [CInt 0; CInt 0].
Proof.
  apply (distance_is_zero_when_no_workout_has_it export_to_datetime
           decimal_to_float climb_export climb_frame climb_frame_ok).
  intros w [<-|[<-|[]]]; reflexivity.
Defined.

Lemma distance_is_rounded_or_missing_witness :
  exists c,
    getitem sessions_frame "distance_walking_running" = Ok c /\
    match last_distance strength_session with
    | None => nth_error c 1 = Some CNaN
    | Some st =>
        match stat_sum st with
        | None => nth_error c 1 = Some CNaN
        | Some s =>
            exists q, decimal_to_float s = Some q /\
                      nth_error c 1 = Some (CFloat (np_round q 1))
        end
    end.
Proof.
  refine (distance_is_rounded_or_missing export_to_datetime decimal_to_float
            sessions_export sessions_frame running_session
            {| stat_type := "HKQuantityTypeIdentifierDistanceWalkingRunning";
               stat_sum := Some "3.14";
               stat_unit := Some "mi" |}
            1%nat strength_session sessions_frame_ok _ eq_refl eq_refl).
  left. reflexivity.
Defined.

Lemma workout_dates_are_the_days_of_the_export_witness :
  exists (start_raw end_raw : Timestamp)
         (start_datetime end_datetime start_date end_date : list Cell),
    export_to_datetime (w_startDate running_session) = Some start_raw /\
    export_to_datetime (w_endDate running_session) = Some end_raw /\
    getitem sessions_frame "start_datetime" = Ok start_datetime /\
    nth_error start_datetime 0 = Some (CTimestamp start_raw) /\
    getitem sessions_frame "end_datetime" = Ok end_datetime /\
    nth_error end_datetime 0 = Some (CTimestamp end_raw) /\
    getitem sessions_frame "start_date" = Ok start_date /\
    nth_error start_date 0 = Some (CDate (ts_date start_raw)) /\
    getitem sessions_frame "end_date" = Ok end_date /\
    nth_error end_date 0 = Some (CDate (ts_date end_raw)).
Proof.
  exact (workout_dates_are_the_days_of_the_export export_to_datetime
           decimal_to_float sessions_export sessions_frame 0%nat
           running_session sessions_frame_ok eq_refl).
Defined.

(* ================================================================== *)
(** ** The Daily Aggregator, day by day *)

Lemma np_unique_In (d : Z) (l : list Z) : In d (np_unique l) <-> In d l.
Proof.
  assert (I : forall x l, In d (insert_unique x l) <-> d = x \/ In d l).
  { intros x l0. induction l0 as [|y l0 IH]; simpl.
    - intuition.
    - destruct (x <? y); simpl; [intuition|].
      destruct (x =? y) eqn:E; simpl.
      + apply Z.eqb_eq in E. subst y. intuition.
      + rewrite IH. intuition. }
  induction l as [|x l IH]; simpl; [reflexivity|].
  rewrite I, IH. intuition.
Qed.

Lemma find_key_map {W : Type} (g : Z -> W) (keys : list Z) (d : Z) :
  find (fun r => fst r =? d) (map (fun k => (k, g k)) keys)
  = if existsb (Z.eqb d) keys then Some (d, g d) else None.
Proof.
  induction keys as [|k keys IH]; simpl; [reflexivity|].
  rewrite (Z.eqb_sym d k). destruct (k =? d) eqn:E; simpl.
  - apply Z.eqb_eq in E. subst k. reflexivity.
  - exact IH.
Qed.

Lemma existsb_key_filter {V : Type} (rows : list (Z * V)) (d : Z) :
  existsb (Z.eqb d) (np_unique (map fst rows))
  = match filter (fun r => fst r =? d) rows with
    | [] => false
    | _ :: _ => true
    end.
Proof.
  destruct (existsb (Z.eqb d) (np_unique (map fst rows))) eqn:E.
  - apply existsb_exists in E. destruct E as (x & Hx & Hd).
    apply Z.eqb_eq in Hd. subst x. apply (proj1 (np_unique_In _ _)) in Hx.
    apply in_map_iff in Hx. destruct Hx as (r & Hr & Hin).
    assert (F : In r (filter (fun r => fst r =? d) rows)).
    { apply filter_In. split; [exact Hin | apply Z.eqb_eq; exact Hr]. }
    destruct (filter (fun r => fst r =? d) rows); [destruct F | reflexivity].
  - destruct (filter (fun r => fst r =? d) rows) as [|r rs] eqn:F;
      [reflexivity|].
    exfalso.
    assert (Hr : In r (r :: rs)) by (left; reflexivity).
    rewrite <- F in Hr. apply filter_In in Hr. destruct Hr as [Hin Hd].
    apply Z.eqb_eq in Hd.
    assert (X : existsb (Z.eqb d) (np_unique (map fst rows)) = true).
    { apply existsb_exists. exists d. split; [|apply Z.eqb_refl].
      apply np_unique_In. rewrite <- Hd. apply in_map. exact Hin. }
    congruence.
Qed.

(** The cell that a left join on a grouped frame gives a date. *)
Lemma merge_left_groupby {V W : Type} (sum : list V -> W)
  (rows : list (Z * V)) (end_date : list Z) :
  merge_left end_date (groupby_sum sum rows)
  = map (fun d =>
           match filter (fun r => fst r =? d) rows with
           | [] => None
           | _ :: _ => Some (sum (map snd (filter (fun r => fst r =? d) rows)))
           end) end_date.
Proof.
  unfold merge_left, groupby_sum. apply map_ext. intros d.
  rewrite (find_key_map
             (fun d => sum (map snd (filter (fun r => fst r =? d) rows)))).
  rewrite existsb_key_filter.
  destruct (filter (fun r => fst r =? d) rows); reflexivity.
Qed.

Lemma boolean_index_self {A : Type} (f : A -> bool) (l : list A) :
  boolean_index (map f l) l = filter f l.
Proof.
  induction l as [|x l IH]; [reflexivity|].
  simpl map. rewrite boolean_index_cons, IH. simpl. reflexivity.
Qed.

Lemma boolean_index_image {A B : Type} (f : A -> bool) (g : A -> B)
  (l : list A) :
  boolean_index (map f l) (map g l) = map g (boolean_index (map f l) l).
Proof. apply boolean_index_map. Qed.

Lemma length_boolean_index {A B : Type} (f : A -> bool) (l : list A)
  (c : list B) :
  List.length c = List.length l ->
  List.length (boolean_index (map f l) c) = List.length (filter f l).
Proof.
  revert c. induction l as [|x l IH]; intros c Hc.
  - destruct c; [reflexivity | discriminate].
  - destruct c as [|y c]; [discriminate|].
    simpl map. rewrite boolean_index_cons. simpl.
    destruct (f x); simpl; rewrite IH; auto.
Qed.

Lemma sleep_metric_by_day (health_df : HealthFrame) (end_date : list Z)
  (category : string) :
  sleep_metric health_df end_date category
  = map (fun d => summed_cell (fun v => np_round (v / 3600) 1)
                    (sleep_values health_df category d)) end_date.
Proof.
  unfold sleep_metric. cbv zeta. rewrite merge_left_groupby, map_map.
  apply map_ext. intros d. unfold sleep_values, summed_cell.
  destruct (filter (fun r => fst r =? d) _); reflexivity.
Qed.

Lemma health_metric_by_day (health_df : HealthFrame) (end_date : list Z)
  (calories : bool) (metric_type : string) :
  health_metric health_df end_date calories metric_type
  = map (fun d => summed_cell
                    (fun v => if calories then np_round v 0 else v)
                    (metric_values health_df metric_type d)) end_date.
Proof.
  unfold health_metric. cbv zeta. rewrite merge_left_groupby.
  destruct calories; [rewrite map_map|]; apply map_ext; intros d;
    unfold metric_values, summed_cell;
    destruct (filter (fun r => fst r =? d) _); reflexivity.
Qed.

Lemma workout_minutes_by_day (workout_df : WorkoutFrame) (end_date : list Z)
  (workout_type : string) (c : list Z) :
  workout_minutes workout_df end_date workout_type = Ok c ->
  c = map (fun d => sum_int
                      (workout_values workout_df (nw_duration workout_df)
                         workout_type d)) end_date.
Proof.
  unfold workout_minutes, groupby_loc. cbv zeta.
  destruct (filter _ _) as [|r rs] eqn:E; [discriminate|].
  unfold bind. intros H. inversion H; subst c; clear H.
  rewrite merge_left_groupby. unfold fillna. rewrite map_map.
  apply map_ext. intros d. unfold workout_values, workout_rows.
  rewrite E. destruct (filter (fun r => fst r =? d) _); reflexivity.
Qed.

Lemma running_metric_by_day (workout_df : WorkoutFrame) (end_date : list Z)
  (col : list (option Q)) (c : list Q) :
  running_metric workout_df end_date col = Ok c ->
  c = map (fun d => sum_skipna (workout_values workout_df col "Running" d))
        end_date.
Proof.
  unfold running_metric, groupby_loc. cbv zeta.
  destruct (filter _ _) as [|r rs] eqn:E; [discriminate|].
  unfold bind. intros H. inversion H; subst c; clear H.
  rewrite merge_left_groupby. unfold fillna. rewrite map_map.
  apply map_ext. intros d. unfold workout_values, workout_rows.
  rewrite E. destruct (filter (fun r => fst r =? d) _); reflexivity.
Qed.

(** Every column of the daily table, read off a successful run. *)
Lemma process_final_data_columns (health_df : HealthFrame)
  (workout_df : WorkoutFrame) (df : DailyFact) :
  process_final_data health_df workout_df = Ok df ->
  let end_date := spine health_df in
  let mask := reporting_mask health_df in
  exists strength running hiit core miles ascended,
    workout_minutes workout_df end_date "TraditionalStrengthTraining"
      = Ok strength /\
    workout_minutes workout_df end_date "Running" = Ok running /\
    workout_minutes workout_df end_date "HighIntensityIntervalTraining"
      = Ok hiit /\
    workout_minutes workout_df end_date "CoreTraining" = Ok core /\
    running_metric workout_df end_date (nw_distance_walking_running workout_df)
      = Ok miles /\
    running_metric workout_df end_date (nw_elevation_ascended workout_df)
      = Ok ascended /\
    EndDate df = boolean_index mask end_date /\
    weekday df
      = boolean_index mask
          (map (fun x => replace_weekday (date_weekday x)) end_date) /\
    WeekEndingDate df
      = boolean_index mask
          (map (fun d => d + (6 - date_weekday d)) end_date) /\
    AvgRestingHeartRateBPM df
      = boolean_index mask
          (health_metric health_df end_date false "RestingHeartRate") /\
    ActiveCaloriesBurned df
      = boolean_index mask
          (health_metric health_df end_date true "ActiveEnergyBurned") /\
    BasalCaloriesBurned df
      = boolean_index mask
          (health_metric health_df end_date true "BasalEnergyBurned") /\
    TotalCaloriesBurned df
      = boolean_index mask
          (col_add
             (health_metric health_df end_date true "ActiveEnergyBurned")
             (health_metric health_df end_date true "BasalEnergyBurned")) /\
    StrengthTrainingMinutes df = boolean_index mask strength /\
    RunningMinutes df = boolean_index mask running /\
    HIITMinutes df = boolean_index mask hiit /\
    CoreTrainingMinutes df = boolean_index mask core /\
    RunningMiles df = boolean_index mask miles /\
    RunningMetersAscended df = boolean_index mask ascended.
Proof.
  intros H. cbv zeta.
  unfold process_final_data, try_except in H. cbv zeta in H.
  fold (spine health_df) in H.
  unfold bind at 1 in H.
  destruct (workout_minutes workout_df (spine health_df)
              "TraditionalStrengthTraining") as [strength|e]; [|discriminate].
  unfold bind at 1 in H.
  destruct (workout_minutes workout_df (spine health_df) "Running")
    as [running|e]; [|discriminate].
  unfold bind at 1 in H.
  destruct (workout_minutes workout_df (spine health_df)
              "HighIntensityIntervalTraining") as [hiit|e]; [|discriminate].
  unfold bind at 1 in H.
  destruct (workout_minutes workout_df (spine health_df) "CoreTraining")
    as [core|e]; [|discriminate].
  unfold bind at 1 in H.
  destruct (running_metric workout_df (spine health_df)
              (nw_distance_walking_running workout_df))
    as [miles|e]; [|discriminate].
  unfold bind at 1 in H.
  destruct (running_metric workout_df (spine health_df)
              (nw_elevation_ascended workout_df))
    as [ascended|e]; [|discriminate].
  inversion H; subst df; clear H. simpl.
  exists strength, running, hiit, core, miles, ascended.
  repeat split; reflexivity.
Qed.

Lemma spine_In (health_df : HealthFrame) (d : Z) :
  In d (spine health_df) <-> In d (nr_end_date health_df).
Proof.
  unfold spine. rewrite np_sort_sorted_id by apply np_unique_sorted.
  apply np_unique_In.
Qed.

Lemma StronglySorted_filter (f : Z -> bool) (l : list Z) :
  StronglySorted Z.lt l -> StronglySorted Z.lt (filter f l).
Proof.
  induction 1 as [|x l Hs IH Hx]; simpl; [constructor|].
  destruct (f x); [|exact IH].
  constructor; [exact IH|].
  apply Forall_forall. intros y Hy. apply filter_In in Hy.
  rewrite Forall_forall in Hx. apply Hx. tauto.
Qed.

Lemma length_shift_m1 {W : Type} (c : list (option W)) :
  List.length (shift_m1 c) = List.length c.
Proof.
  destruct c as [|x c]; [reflexivity|].
  simpl. rewrite length_app. simpl. lia.
Qed.

Lemma running_metric_length (workout_df : WorkoutFrame) (end_date : list Z)
  (col : list (option Q)) (c : list Q) :
  running_metric workout_df end_date col = Ok c ->
  List.length c = List.length end_date.
Proof.
  intros H. apply running_metric_by_day in H. subst c. apply length_map.
Qed.

Lemma length_health_metric (health_df : HealthFrame) (end_date : list Z)
  (calories : bool) (metric_type : string) :
  List.length (health_metric health_df end_date calories metric_type)
  = List.length end_date.
Proof. rewrite health_metric_by_day. apply length_map. Qed.

(** X14. The daily table has no day twice, and its days are exactly the
    [end_date]s of the health table that fall on or after 2024-01-01: days
    with workouts only do not appear. *)
Theorem daily_table_has_one_row_per_reported_day (health_df : HealthFrame)
  (workout_df : WorkoutFrame) (df : DailyFact) :
  process_final_data health_df workout_df = Ok df ->
  NoDup (EndDate df) /\
  forall d : Z,
    In d (EndDate df)
    <-> In d (nr_end_date health_df) /\ days_from_civil 2024 1 1 <= d.
Proof.
  intros H. apply process_final_data_columns in H. cbv zeta in H.
  destruct H as (s & r & h & c & m & a & _ & _ & _ & _ & _ & _ & E & _).
  rewrite E. unfold reporting_mask. rewrite boolean_index_self. split.
  - apply StronglySorted_lt_NoDup, StronglySorted_filter, spine_sorted.
  - intros d. rewrite filter_In, spine_In.
    rewrite Z.geb_le. reflexivity.
Qed.

Lemma daily_table_has_one_row_per_reported_day_witness :
  NoDup (EndDate week_fact) /\
  forall d : Z,
    In d (EndDate week_fact)
    <-> In d (nr_end_date week_frame) /\ days_from_civil 2024 1 1 <= d.
Proof.
  exact (daily_table_has_one_row_per_reported_day week_frame week_workouts
           week_fact week_fact_ok).
Defined.

(** X15. All 27 columns of the daily table have the same number of
    cells. *)
Theorem daily_table_is_rectangular (health_df : HealthFrame)
  (workout_df : WorkoutFrame) (df : DailyFact) :
  process_final_data health_df workout_df = Ok df ->
  let n := List.length (EndDate df) in
  List.length (weekday df) = n /\
  List.length (CoreSleepHours df) = n /\
  List.length (DeepSleepHours df) = n /\
  List.length (REMSleepHours df) = n /\
  List.length (TotalSleepHours df) = n /\
  List.length (CoreSleepHoursNextNight df) = n /\
  List.length (DeepSleepHoursNextNight df) = n /\
  List.length (REMSleepHoursNextNight df) = n /\
  List.length (TotalSleepHoursNextNight df) = n /\
  List.length (AvgRestingHeartRateBPM df) = n /\
  List.length (ActiveCaloriesBurned df) = n /\
  List.length (BasalCaloriesBurned df) = n /\
  List.length (TotalCaloriesBurned df) = n /\
  List.length (StrengthTrainingMinutes df) = n /\
  List.length (RunningMinutes df) = n /\
  List.length (HIITMinutes df) = n /\
  List.length (CoreTrainingMinutes df) = n /\
  List.length (RunningMiles df) = n /\
  List.length (RunningMetersAscended df) = n /\
  List.length (TotalWorkoutMinutes df) = n /\
  List.length (StrengthTrained df) = n /\
  List.length (Ran df) = n /\
  List.length (HIITTrained df) = n /\
  List.length (CoreTrained df) = n /\
  List.length (Exercised df) = n /\
  List.length (WeekEndingDate df) = n.
Proof.
  intros H. cbv zeta.
  pose proof (process_final_data_ok _ _ _ H) as K.
  pose proof (process_final_data_columns _ _ _ H) as L.
  cbv zeta in K, L.
  destruct K as (s & r & h & c & Ks & Kr & Kh & Kc & KE & K1 & K2 & K3 & K4
                 & K5 & K6 & K7 & K8 & K9 & K10 & K11 & K12 & K13 & K14 & K15
                 & K16 & K17 & K18).
  destruct L as (s' & r' & h' & c' & m & a & Ls & Lr & Lh & Lc & Lm & La & LE
                 & L1 & L2 & L3 & L4 & L5 & L6 & _ & _ & _ & _ & L7 & L8).
  rewrite Ks in Ls. rewrite Kr in Lr. rewrite Kh in Lh. rewrite Kc in Lc.
  inversion Ls; inversion Lr; inversion Lh; inversion Lc; subst s' r' h' c'.
  clear Ls Lr Lh Lc.
  apply workout_minutes_length in Ks, Kr, Kh, Kc.
  apply running_metric_length in Lm, La.
  destruct (sleep_columns_length health_df) as (S1 & S2 & S3 & S4).
  cbv zeta in S1, S2, S3, S4.
  assert (N : List.length (EndDate df)
              = List.length
                  (filter (fun d => d >=? days_from_civil 2024 1 1)
                     (spine health_df))).
  { rewrite KE. unfold reporting_mask. rewrite boolean_index_self.
    reflexivity. }
  rewrite N. unfold reporting_mask in *.
  rewrite L1, K1, K2, K3, K4, K5, K6, K7, K8, L3, L4, L5, L6, K9, K10, K11,
    K12, K13, K14, K15, K16, K17, K18, L2, L7, L8.
  repeat split; apply length_boolean_index;
    rewrite ?length_shift_m1, ?length_map, ?length_col_add,
      ?length_health_metric; simpl sum_columns;
    unfold col_add_int;
    rewrite ?length_map2, ?length_map; try lia.
Qed.

Lemma daily_table_is_rectangular_witness :
  List.length (weekday week_fact) = List.length (EndDate week_fact) /\
  List.length (TotalSleepHoursNextNight week_fact)
  = List.length (EndDate week_fact) /\
  List.length (Exercised week_fact) = List.length (EndDate week_fact).
Proof.
  pose proof (daily_table_is_rectangular week_frame week_workouts week_fact
                week_fact_ok) as H.
  cbv zeta in H. repeat split; apply H.
Defined.

Lemma date_weekday_range (d : Z) : 0 <= date_weekday d < 7.
Proof. unfold date_weekday. apply Z.mod_pos_bound. lia. Qed.

Lemma replace_weekday_named (n : Z) :
  0 <= n < 7 -> In (n, replace_weekday n) weekday_map.
Proof.
  intros H.
  assert (C : n = 0 \/ n = 1 \/ n = 2 \/ n = 3 \/ n = 4 \/ n = 5 \/ n = 6)
    by lia.
  unfold weekday_map.
  destruct C as [C|[C|[C|[C|[C|[C|C]]]]]]; subst n; cbn; tauto.
Qed.

Lemma week_end_is_a_sunday (d : Z) :
  date_weekday (d + (6 - date_weekday d)) = 6.
Proof. unfold date_weekday. Z.to_euclidean_division_equations; lia. Qed.

(** X16. In every row of the daily table, [WeekEndingDate] is a Sunday, at
    most six days after [EndDate], and [EndDate] itself exactly when the
    weekday column says Sunday; the weekday column holds the English name
    of the weekday of [EndDate]. *)
Theorem week_ending_date_is_the_coming_sunday (health_df : HealthFrame)
  (workout_df : WorkoutFrame) (df : DailyFact) (i : nat) (d : Z) :
  process_final_data health_df workout_df = Ok df ->
  nth_error (EndDate df) i = Some d ->
  exists (w : Z) (name : string),
    nth_error (WeekEndingDate df) i = Some w /\
    nth_error (weekday df) i = Some name /\
    d <= w <= d + 6 /\
    date_weekday w = 6 /\
    In (date_weekday d, name) weekday_map /\
    (name = "Sunday" <-> w = d).
Proof.
  intros H Hd. apply process_final_data_columns in H. cbv zeta in H.
  destruct H as (s & r & h & c & m & a & _ & _ & _ & _ & _ & _ & E & Ew & Ee
                 & _).
  unfold reporting_mask in *.
  rewrite boolean_index_image, <- E in Ew.
  rewrite boolean_index_image, <- E in Ee.
  exists (d + (6 - date_weekday d)), (replace_weekday (date_weekday d)).
  rewrite Ew, Ee, !nth_error_map, Hd. cbn [option_map].
  pose proof (date_weekday_range d) as R.
  pose proof (replace_weekday_named _ R) as N.
  repeat split; try lia; try exact N.
  - apply week_end_is_a_sunday.
  - intros S. rewrite S in N. unfold weekday_map in N. simpl in N.
    assert (date_weekday d = 6); [|lia].
    repeat (destruct N as [N|N]; [inversion N; try discriminate; try lia|]).
    destruct N.
  - intros S. assert (W : date_weekday d = 6) by lia. rewrite W. reflexivity.
Qed.

Lemma week_ending_date_is_the_coming_sunday_witness :
  exists (w : Z) (name : string),
    nth_error (WeekEndingDate week_fact) 1 = Some w /\
    nth_error (weekday week_fact) 1 = Some name /\
    days_from_civil 2024 1 2 <= w <= days_from_civil 2024 1 2 + 6 /\
    date_weekday w = 6 /\
    In (date_weekday (days_from_civil 2024 1 2), name) weekday_map /\
    (name = "Sunday" <-> w = days_from_civil 2024 1 2).
Proof.
  exact (week_ending_date_is_the_coming_sunday week_frame week_workouts
           week_fact 1 (days_from_civil 2024 1 2) week_fact_ok eq_refl).
Defined.

Lemma kept_cells {B : Type} (health_df : HealthFrame) (df : DailyFact)
  (cell : Z -> B) (c : list B) :
  EndDate df = boolean_index (reporting_mask health_df) (spine health_df) ->
  c = boolean_index (reporting_mask health_df) (map cell (spine health_df)) ->
  c = map cell (EndDate df).
Proof.
  intros E C. rewrite C, E. unfold reporting_mask.
  apply boolean_index_image.
Qed.

(** X18. The three sleep columns depend on the day only: the cell of a day
    is missing when the health table has no row of that sleep category
    ending that day, and otherwise the sum of the values of these rows (NaN
    skipped), divided by 3600 and rounded to one decimal. *)
Theorem sleep_hours_of_a_day (health_df : HealthFrame)
  (workout_df : WorkoutFrame) (df : DailyFact) :
  process_final_data health_df workout_df = Ok df ->
  let hours (category : string) (d : Z) :=
    summed_cell (fun v => np_round (v / 3600) 1)
      (sleep_values health_df category d) in
  CoreSleepHours df
    = map (hours "HKCategoryValueSleepAnalysisAsleepCore") (EndDate df) /\
  DeepSleepHours df
    = map (hours "HKCategoryValueSleepAnalysisAsleepDeep") (EndDate df) /\
  REMSleepHours df
    = map (hours "HKCategoryValueSleepAnalysisAsleepREM") (EndDate df).
Proof.
  intros H. cbv zeta. apply process_final_data_ok in H. cbv zeta in H.
  destruct H as (s & r & h & c & _ & _ & _ & _ & E & E1 & E2 & E3 & _).
  unfold core_hours in E1. unfold deep_hours in E2. unfold rem_hours in E3.
  rewrite sleep_metric_by_day in E1, E2, E3.
  repeat split; eapply kept_cells; eassumption.
Qed.

Lemma sleep_hours_of_a_day_witness :
  let hours (category : string) (d : Z) :=
    summed_cell (fun v => np_round (v / 3600) 1)
      (sleep_values week_frame category d) in
  CoreSleepHours week_fact
    = map (hours "HKCategoryValueSleepAnalysisAsleepCore")
        (EndDate week_fact) /\
  DeepSleepHours week_fact
    = map (hours "HKCategoryValueSleepAnalysisAsleepDeep")
        (EndDate week_fact) /\
  REMSleepHours week_fact
    = map (hours "HKCategoryValueSleepAnalysisAsleepREM") (EndDate week_fact).
Proof.
  exact (sleep_hours_of_a_day week_frame week_workouts week_fact week_fact_ok).
Defined.

(** X19. [AvgRestingHeartRateBPM] of a day is the sum, not the mean, of the
    day's RestingHeartRate values; the two calorie columns are the day's
    sums rounded to an integer; each is missing on a day without a row of
    its type, and [TotalCaloriesBurned] is the sum of the two calorie cells,
    missing as soon as one of them is. *)
Theorem health_metrics_of_a_day (health_df : HealthFrame)
  (workout_df : WorkoutFrame) (df : DailyFact) :
  process_final_data health_df workout_df = Ok df ->
  AvgRestingHeartRateBPM df
    = map (fun d => summed_cell (fun v => v)
                      (metric_values health_df "RestingHeartRate" d))
        (EndDate df) /\
  ActiveCaloriesBurned df
    = map (fun d => summed_cell (fun v => np_round v 0)
                      (metric_values health_df "ActiveEnergyBurned" d))
        (EndDate df) /\
  BasalCaloriesBurned df
    = map (fun d => summed_cell (fun v => np_round v 0)
                      (metric_values health_df "BasalEnergyBurned" d))
        (EndDate df) /\
  TotalCaloriesBurned df
    = map2 nan_add (ActiveCaloriesBurned df) (BasalCaloriesBurned df).
Proof.
  intros H. apply process_final_data_columns in H. cbv zeta in H.
  destruct H as (s & r & h & c & m & a & _ & _ & _ & _ & _ & _ & E & _ & _
                 & E1 & E2 & E3 & E4 & _).
  split; [|split; [|split]].
  - rewrite health_metric_by_day in E1. eapply kept_cells; eassumption.
  - rewrite health_metric_by_day in E2. eapply kept_cells; eassumption.
  - rewrite health_metric_by_day in E3. eapply kept_cells; eassumption.
  - rewrite E4, E2, E3. unfold col_add. apply boolean_index_map2.
Qed.

Lemma health_metrics_of_a_day_witness :
  AvgRestingHeartRateBPM week_fact
    = map (fun d => summed_cell (fun v => v)
                      (metric_values week_frame "RestingHeartRate" d))
        (EndDate week_fact) /\
  ActiveCaloriesBurned week_fact
    = map (fun d => summed_cell (fun v => np_round v 0)
                      (metric_values week_frame "ActiveEnergyBurned" d))
        (EndDate week_fact) /\
  BasalCaloriesBurned week_fact
    = map (fun d => summed_cell (fun v => np_round v 0)
                      (metric_values week_frame "BasalEnergyBurned" d))
        (EndDate week_fact) /\
  TotalCaloriesBurned week_fact
    = map2 nan_add (ActiveCaloriesBurned week_fact)
        (BasalCaloriesBurned week_fact).
Proof.
  exact (health_metrics_of_a_day week_frame week_workouts week_fact
           week_fact_ok).
Defined.

(** X20. Each of the four minutes columns holds, for every day of the
    table, the sum of the durations of the workouts of its activity type
    that ended that day, 0 on a day without one. *)
Theorem workout_minutes_of_a_day (health_df : HealthFrame)
  (workout_df : WorkoutFrame) (df : DailyFact) :
  process_final_data health_df workout_df = Ok df ->
  let minutes (workout_type : string) (d : Z) :=
    sum_int (workout_values workout_df (nw_duration workout_df)
               workout_type d) in
  StrengthTrainingMinutes df
    = map (minutes "TraditionalStrengthTraining") (EndDate df) /\
  RunningMinutes df = map (minutes "Running") (EndDate df) /\
  HIITMinutes df = map (minutes "HighIntensityIntervalTraining") (EndDate df) /\
  CoreTrainingMinutes df = map (minutes "CoreTraining") (EndDate df).
Proof.
  intros H. cbv zeta. apply process_final_data_columns in H. cbv zeta in H.
  destruct H as (s & r & h & c & m & a & Hs & Hr & Hh & Hc & _ & _ & E & _ & _
                 & _ & _ & _ & _ & E1 & E2 & E3 & E4 & _).
  apply workout_minutes_by_day in Hs, Hr, Hh, Hc. subst s r h c.
  repeat split; eapply kept_cells; eassumption.
Qed.

Lemma workout_minutes_of_a_day_witness :
  let minutes (workout_type : string) (d : Z) :=
    sum_int (workout_values week_workouts (nw_duration week_workouts)
               workout_type d) in
  StrengthTrainingMinutes week_fact
    = map (minutes "TraditionalStrengthTraining") (EndDate week_fact) /\
  RunningMinutes week_fact = map (minutes "Running") (EndDate week_fact) /\
  HIITMinutes week_fact
    = map (minutes "HighIntensityIntervalTraining") (EndDate week_fact) /\
  CoreTrainingMinutes week_fact
    = map (minutes "CoreTraining") (EndDate week_fact).
Proof.
  exact (workout_minutes_of_a_day week_frame week_workouts week_fact
           week_fact_ok).
Defined.

(** X21. [RunningMiles] and [RunningMetersAscended] hold, for every day of
    the table, the sum over the day's Running workouts of the distance and
    of the elevation (missing cells skipped), 0 on a day without a run. *)
Theorem running_totals_of_a_day (health_df : HealthFrame)
  (workout_df : WorkoutFrame) (df : DailyFact) :
  process_final_data health_df workout_df = Ok df ->
  RunningMiles df
    = map (fun d => sum_skipna
                      (workout_values workout_df
                         (nw_distance_walking_running workout_df)
                         "Running" d)) (EndDate df) /\
  RunningMetersAscended df
    = map (fun d => sum_skipna
                      (workout_values workout_df
                         (nw_elevation_ascended workout_df)
                         "Running" d)) (EndDate df).
Proof.
  intros H. apply process_final_data_columns in H. cbv zeta in H.
  destruct H as (s & r & h & c & m & a & _ & _ & _ & _ & Hm & Ha & E & _ & _
                 & _ & _ & _ & _ & _ & _ & _ & _ & E1 & E2).
  apply running_metric_by_day in Hm, Ha. subst m a.
  split; eapply kept_cells; eassumption.
Qed.

Lemma running_totals_of_a_day_witness :
  RunningMiles week_fact
    = map (fun d => sum_skipna
                      (workout_values week_workouts
                         (nw_distance_walking_running week_workouts)
                         "Running" d)) (EndDate week_fact) /\
  RunningMetersAscended week_fact
    = map (fun d => sum_skipna
                      (workout_values week_workouts
                         (nw_elevation_ascended week_workouts)
                         "Running" d)) (EndDate week_fact).
Proof.
  exact (running_totals_of_a_day week_frame week_workouts week_fact
           week_fact_ok).
Defined.

Lemma filter_combine_In {V : Type} (a : string) (l1 : list string)
  (l2 : list V) :
  In a l1 -> List.length l2 = List.length l1 ->
  filter (fun r => String.eqb (fst r) a) (combine l1 l2) <> [].
Proof.
  revert l2. induction l1 as [|x l1 IH]; intros l2 Hin Hlen; [destruct Hin|].
  destruct l2 as [|y l2]; [discriminate|].
  simpl. destruct (String.eqb x a) eqn:E; [discriminate|].
  destruct Hin as [Hx|Hin].
  - subst x. rewrite String.eqb_refl in E. discriminate.
  - apply IH; [exact Hin | simpl in Hlen; lia].
Qed.

Lemma workout_minutes_present (workout_df : WorkoutFrame) (end_date : list Z)
  (workout_type : string) :
  workouts_rectangular workout_df ->
  In workout_type (nw_workout_activity_type workout_df) ->
  exists c, workout_minutes workout_df end_date workout_type = Ok c.
Proof.
  intros (R1 & R2 & R3 & R4) Hin. unfold workout_minutes, groupby_loc.
  cbv zeta.
  pose proof (filter_combine_In workout_type
                (nw_workout_activity_type workout_df)
                (combine (nw_end_date workout_df) (nw_duration workout_df))
                Hin) as F.
  rewrite length_combine, R1, R4, Nat.min_id in F. specialize (F eq_refl).
  destruct (filter _ _); [congruence|]. simpl. eexists. reflexivity.
Qed.

Lemma running_metric_present (workout_df : WorkoutFrame) (end_date : list Z)
  (col : list (option Q)) :
  List.length col = List.length (nw_workout_activity_type workout_df) ->
  List.length (nw_end_date workout_df)
  = List.length (nw_workout_activity_type workout_df) ->
  In "Running" (nw_workout_activity_type workout_df) ->
  exists c, running_metric workout_df end_date col = Ok c.
Proof.
  intros R1 R4 Hin. unfold running_metric, groupby_loc. cbv zeta.
  pose proof (filter_combine_In "Running"
                (nw_workout_activity_type workout_df)
                (combine (nw_end_date workout_df) col) Hin) as F.
  rewrite length_combine, R1, R4, Nat.min_id in F. specialize (F eq_refl).
  destruct (filter _ _); [congruence|]. simpl. eexists. reflexivity.
Qed.

(** X17. On a workout table whose columns have one cell per workout, the
    Daily Aggregator returns a table exactly when each of the four activity
    types of its loop occurs among the workouts; the health table plays no
    part in it. *)
Theorem daily_table_needs_the_four_activity_types (health_df : HealthFrame)
  (workout_df : WorkoutFrame) :
  workouts_rectangular workout_df ->
  (exists df, process_final_data health_df workout_df = Ok df)
  <-> (forall workout_type, In workout_type workout_types ->
         In workout_type (nw_workout_activity_type workout_df)).
Proof.
  intros R. split.
  - intros (df & H) ty Hty.
    destruct (in_dec string_dec ty (nw_workout_activity_type workout_df))
      as [Hin|Hout]; [exact Hin|].
    exfalso. apply process_final_data_columns in H. cbv zeta in H.
    destruct H as (s & r & h & c & m & a & Hs & Hr & Hh & Hc & _).
    pose proof (workout_minutes_absent workout_df (spine health_df) ty Hout)
      as A.
    unfold workout_types in Hty. simpl in Hty.
    destruct Hty as [T|[T|[T|[T|[]]]]]; subst ty; congruence.
  - intros Hall.
    assert (P : forall ty, In ty workout_types ->
                  exists c, workout_minutes workout_df (spine health_df) ty
                            = Ok c).
    { intros ty Hty. apply workout_minutes_present; auto. }
    destruct (P "TraditionalStrengthTraining") as (s & Hs);
      [unfold workout_types; simpl; tauto|].
    destruct (P "Running") as (r & Hr); [unfold workout_types; simpl; tauto|].
    destruct (P "HighIntensityIntervalTraining") as (h & Hh);
      [unfold workout_types; simpl; tauto|].
    destruct (P "CoreTraining") as (c & Hc);
      [unfold workout_types; simpl; tauto|].
    destruct R as (R1 & R2 & R3 & R4).
    assert (Hrun : In "Running" (nw_workout_activity_type workout_df)).
    { apply Hall. unfold workout_types; simpl; tauto. }
    destruct (running_metric_present workout_df (spine health_df)
                (nw_distance_walking_running workout_df) R2 R4 Hrun)
      as (m & Hm).
    destruct (running_metric_present workout_df (spine health_df)
                (nw_elevation_ascended workout_df) R3 R4 Hrun)
      as (a & Ha).
    unfold process_final_data, try_except. cbv zeta.
    fold (spine health_df). rewrite Hs, Hr, Hh, Hc, Hm, Ha.
    unfold bind. eexists. reflexivity.
Qed.

Lemma daily_table_needs_the_four_activity_types_witness :
  (exists df, process_final_data week_frame week_workouts = Ok df)
  <-> (forall workout_type, In workout_type workout_types ->
         In workout_type (nw_workout_activity_type week_workouts)).
Proof.
  apply (daily_table_needs_the_four_activity_types week_frame week_workouts).
  unfold workouts_rectangular. cbv zeta. simpl. repeat split; reflexivity.
Defined.

(* ================================================================== *)
(** ** The export archive, the regimen summary and the grouped
       workouts of [refresh.main] *)

Lemma fold_min_In (l : list Z) (a : Z) :
  fold_left Z.min l a = a \/ In (fold_left Z.min l a) l.
Proof.
  revert a. induction l as [|b l IH]; intros a; simpl; [left; reflexivity|].
  destruct (IH (Z.min a b)) as [H|H]; [|right; right; exact H].
  rewrite H. destruct (Z.min_spec a b) as [[_ E]|[_ E]]; rewrite E; auto.
Qed.

Lemma fold_max_In (l : list Z) (a : Z) :
  fold_left Z.max l a = a \/ In (fold_left Z.max l a) l.
Proof.
  revert a. induction l as [|b l IH]; intros a; simpl; [left; reflexivity|].
  destruct (IH (Z.max a b)) as [H|H]; [|right; right; exact H].
  rewrite H. destruct (Z.max_spec a b) as [[_ E]|[_ E]]; rewrite E; auto.
Qed.

Lemma list_min_In (x : list Z) : x <> [] -> In (list_min x) x.
Proof.
  destruct x as [|a x]; [congruence|]. intros _. simpl.
  destruct (fold_min_In x a) as [H|H]; [left; symmetry; exact H | right; exact H].
Qed.

Lemma list_max_In (x : list Z) : x <> [] -> In (list_max x) x.
Proof.
  destruct x as [|a x]; [congruence|]. intros _. simpl.
  destruct (fold_max_In x a) as [H|H]; [left; symmetry; exact H | right; exact H].
Qed.


(** X22. In a regimen row with a summary, Min and Max are the strength
    minutes of two days of the cohort, every day of the cohort lies between
    them, and Min is at least 1. *)
Theorem regimen_extremes_are_days_of_the_cohort (df_final : DailyFact)
  (in_regimen : Z * Z -> bool) (f : FiveNumber) :
  in_regimen = in_regimen_a /\ summary (regimen_a_dist df_final) = Some f \/
  in_regimen = in_regimen_b /\ summary (regimen_b_dist df_final) = Some f ->
  let cohort := filter in_regimen (regimen_rows df_final) in
  (exists day, In day cohort /\ Min f = inject_Z (snd day)) /\
  (exists day, In day cohort /\ Max f = inject_Z (snd day)) /\
  (forall day, In day cohort ->
     (Min f <= inject_Z (snd day))%Q /\ (inject_Z (snd day) <= Max f)%Q) /\
  (1 <= Min f)%Q.
Proof.
  intros Hf. cbv zeta.
  assert (K : forall p : Z * Z -> bool,
            (forall r, p r = true -> 0 < snd r) ->
            agg (map snd (filter p (regimen_rows df_final))) = Some f ->
            (exists day, In day (filter p (regimen_rows df_final))
                         /\ Min f = inject_Z (snd day)) /\
            (exists day, In day (filter p (regimen_rows df_final))
                         /\ Max f = inject_Z (snd day)) /\
            (forall day, In day (filter p (regimen_rows df_final)) ->
               (Min f <= inject_Z (snd day))%Q
               /\ (inject_Z (snd day) <= Max f)%Q) /\
            (1 <= Min f)%Q).
  { intros p Hp Ha.
    set (c := filter p (regimen_rows df_final)) in *.
    assert (Hc : map snd c <> []) by (destruct (map snd c); discriminate).
    assert (E : Min f = inject_Z (list_min (map snd c))
                /\ Max f = inject_Z (list_max (map snd c))).
    { destruct (map snd c); [discriminate|]. inversion Ha. simpl. auto. }
    destruct E as [Emin Emax].
    pose proof (list_min_In _ Hc) as Imin.
    pose proof (list_max_In _ Hc) as Imax.
    apply in_map_iff in Imin. destruct Imin as (dmin & Dmin & Imin).
    apply in_map_iff in Imax. destruct Imax as (dmax & Dmax & Imax).
    split; [exists dmin; split; [exact Imin | rewrite Emin, Dmin; reflexivity]|].
    split; [exists dmax; split; [exact Imax | rewrite Emax, Dmax; reflexivity]|].
    split.
    - intros day Hday. rewrite Emin, Emax. rewrite <- !Zle_Qle. split.
      + apply list_min_le. apply in_map. exact Hday.
      + apply list_max_ge. apply in_map. exact Hday.
    - rewrite Emin, <- Dmin. change 1%Q with (inject_Z 1). rewrite <- Zle_Qle.
      unfold c in Imin. apply filter_In in Imin. destruct Imin as [_ P].
      apply Hp in P. lia. }
  destruct Hf as [[-> Hf]|[-> Hf]].
  - unfold regimen_a_dist in Hf. cbn [summary] in Hf.
    fold (regimen_rows df_final) in Hf. apply K; [|exact Hf].
    intros r Hr. unfold in_regimen_a in Hr. apply andb_true_iff in Hr.
    destruct Hr as [_ Hr]. lia.
  - unfold regimen_b_dist in Hf. cbn [summary] in Hf.
    fold (regimen_rows df_final) in Hf. apply K; [|exact Hf].
    intros r Hr. unfold in_regimen_b in Hr. apply andb_true_iff in Hr.
    destruct Hr as [_ Hr]. lia.
Qed.

Lemma regimen_extremes_are_days_of_the_cohort_witness :
  let cohort := filter in_regimen_b (regimen_rows new_year_fact) in
  (exists day, In day cohort /\ Min new_year_summary_b = inject_Z (snd day)) /\
  (exists day, In day cohort /\ Max new_year_summary_b = inject_Z (snd day)) /\
  (forall day, In day cohort ->
     (Min new_year_summary_b <= inject_Z (snd day))%Q
     /\ (inject_Z (snd day) <= Max new_year_summary_b)%Q) /\
  (1 <= Min new_year_summary_b)%Q.
Proof.
  apply (regimen_extremes_are_days_of_the_cohort new_year_fact in_regimen_b
           new_year_summary_b).
  right. split; reflexivity.
Defined.


Lemma slice_to_from (n : nat) (s : string) :
  slice_to n s ++ slice_from n s = s.
Proof.
  revert s. induction n as [|n IH]; intros s; [reflexivity|].
  destruct s as [|c s]; [reflexivity|]. simpl. rewrite IH. reflexivity.
Qed.

Lemma length_append (a b : string) :
  String.length (a ++ b) = (String.length a + String.length b)%nat.
Proof. induction a as [|c a IH]; simpl; [reflexivity | rewrite IH; reflexivity]. Qed.

Lemma length_slice_from (n : nat) (s : string) :
  String.length (slice_from n s) = (String.length s - n)%nat.
Proof.
  revert s. induction n as [|n IH]; intros s; simpl; [lia|].
  destruct s as [|c s]; simpl; [reflexivity | apply IH].
Qed.

Lemma slice_to_append (p s : string) : slice_to (String.length p) (p ++ s) = p.
Proof. induction p as [|c p IH]; simpl; [destruct s; reflexivity | rewrite IH; reflexivity]. Qed.

Lemma slice_last_append (m e : string) :
  slice_last (String.length e) (m ++ e) = e.
Proof.
  unfold slice_last. rewrite length_append.
  replace (String.length m + String.length e - String.length e)%nat
    with (String.length m) by lia.
  apply slice_from_append.
Qed.

(** The texts that the comprehension keeps. *)
Lemma export_file_name (element : string) :
  String.eqb (slice_to 6 element) "export"
  && String.eqb (slice_last 4 element) ".zip" = true
  <-> exists middle : string, element = "export" ++ middle ++ ".zip".
Proof.
  split.
  - intros H. apply andb_true_iff in H. destruct H as [H1 H2].
    apply String.eqb_eq in H1, H2.
    pose proof (slice_to_from 6 element) as E. rewrite H1 in E.
    unfold slice_last in H2.
    pose proof (slice_to_from (String.length element - 4) element) as F.
    rewrite H2 in F.
    assert (L4 : (4 <= String.length element)%nat).
    { pose proof (length_slice_from (String.length element - 4) element) as L.
      rewrite H2 in L. simpl in L. lia. }
    assert (L10 : (10 <= String.length element)%nat).
    { destruct element as [|c0 [|c1 [|c2 [|c3 [|c4 [|c5 [|c6 [|c7 [|c8 [|c9 r]]]]]]]]]];
        simpl in *; try lia; try discriminate;
        inversion H1; subst; discriminate. }
    exists (slice_to (String.length element - 10) (slice_from 6 element)).
    rewrite <- E at 1. f_equal.
    set (rest := slice_from 6 element) in *.
    assert (Lr : String.length rest = (String.length element - 6)%nat)
      by apply length_slice_from.
    assert (R : slice_from (String.length element - 10) rest = ".zip").
    { rewrite <- E in H2 at 2.
      replace (String.length element - 4)%nat
        with (6 + (String.length element - 10))%nat in H2 by lia.
      simpl in H2. exact H2. }
    transitivity (slice_to (String.length element - 10) rest
                  ++ slice_from (String.length element - 10) rest)%string;
      [symmetry; apply slice_to_from | rewrite R; reflexivity].
  - intros (m & ->). apply andb_true_iff. split; apply String.eqb_eq.
    + apply (slice_to_append "export").
    + change ("export" ++ m ++ ".zip") with (("export" ++ m) ++ ".zip")%string.
      apply (slice_last_append ("export" ++ m) ".zip").
Qed.

Lemma index_from_end_last {A : Type} (older : list A) (a : A) :
  index_from_end (older ++ [a])%list 1 = Some a.
Proof.
  unfold index_from_end. rewrite length_app. cbn [List.length].
  destruct (Nat.leb_spec 1 (List.length older + 1)); [|lia].
  rewrite nth_error_app2 by lia.
  replace (List.length older + 1 - 1 - List.length older)%nat with 0%nat
    by lia.
  reflexivity.
Qed.

Lemma index_from_end_second {A : Type} (older : list A) (a b : A) :
  index_from_end (older ++ [a; b])%list 2 = Some a.
Proof.
  unfold index_from_end. rewrite length_app. cbn [List.length].
  destruct (Nat.leb_spec 2 (List.length older + 2)); [|lia].
  rewrite nth_error_app2 by lia.
  replace (List.length older + 2 - 2 - List.length older)%nat with 0%nat
    by lia.
  reflexivity.
Qed.

Lemma two_last {A : Type} (x : list A) :
  (2 <= List.length x)%nat -> exists older a b, x = (older ++ [a; b])%list.
Proof.
  induction x as [|c x IH]; simpl; [lia|]. intros H.
  destruct x as [|d x]; [simpl in H; lia|].
  destruct x as [|e x].
  - exists [], c, d. reflexivity.
  - destruct IH as (older & a & b & E); [simpl; lia|].
    exists (c :: older), a, b. rewrite E. reflexivity.
Qed.

Lemma zip_file_cases (listdir : list string) (name : string) :
  zip_file listdir = Some name
  <-> export_files listdir = [name]
      \/ exists older newest, export_files listdir = (older ++ [name; newest])%list.
Proof.
  unfold zip_file. cbv zeta. set (x := export_files listdir). split.
  - intros H. destruct x as [|a [|b y]] eqn:E.
    + discriminate.
    + left. inversion H. reflexivity.
    + right. destruct (two_last (a :: b :: y)) as (older & c & d & F);
        [simpl; lia|].
      rewrite F in H.
      replace (List.length (older ++ [c; d])%list =? 1)%nat with false in H
        by (symmetry; apply Nat.eqb_neq; rewrite length_app; simpl; lia).
      rewrite index_from_end_second in H. inversion H; subst c.
      exists older, d. exact F.
  - intros [H|(older & newest & H)]; rewrite H.
    + reflexivity.
    + replace (List.length (older ++ [name; newest])%list =? 1)%nat with false
        by (symmetry; apply Nat.eqb_neq; rewrite length_app; simpl; lia).
      apply index_from_end_second.
Qed.

(** X24. With one export archive in the listing [main] opens it; with two
    or more it opens the second to last in listing order, never the last
    one. *)
Theorem zip_file_is_the_second_to_last_export (listdir : list string)
  (name : string) :
  zip_file listdir = Some name
  <-> export_files listdir = [name]
      \/ exists older newest, export_files listdir = (older ++ [name; newest])%list.
Proof. apply zip_file_cases. Qed.

Lemma zip_file_is_the_second_to_last_export_witness :
  zip_file downloads_listing = Some "export 2.zip".
Proof.
  apply (zip_file_is_the_second_to_last_export downloads_listing).
  right. exists ["export.zip"], "export 3.zip". reflexivity.
Defined.

(** X23. The file that [main] opens is an entry of the downloads listing
    whose name is [export], any text, [.zip]; the choice fails (IndexError)
    exactly when the listing has no such entry. *)
Theorem zip_file_is_an_export_archive (listdir : list string) :
  (zip_file listdir = None
   <-> forall element middle,
         In element listdir -> element <> "export" ++ middle ++ ".zip") /\
  (forall name, zip_file listdir = Some name ->
     In name listdir /\ exists middle, name = "export" ++ middle ++ ".zip").
Proof.
  assert (K : forall name, In name (export_files listdir) <->
                In name listdir
                /\ exists middle, name = "export" ++ middle ++ ".zip").
  { intros name. unfold export_files. rewrite filter_In, export_file_name.
    reflexivity. }
  split.
  - split.
    + intros H element middle Hin Heq.
      assert (I : In element (export_files listdir)).
      { apply K. split; [exact Hin | exists middle; exact Heq]. }
      unfold zip_file in H. cbv zeta in H.
      destruct (export_files listdir) as [|a [|b x]] eqn:E.
      * destruct I.
      * discriminate.
      * destruct (two_last (a :: b :: x)) as (older & c & d & F);
          [simpl; lia|].
        rewrite F in H.
        replace (List.length (older ++ [c; d])%list =? 1)%nat with false in H
          by (symmetry; apply Nat.eqb_neq; rewrite length_app; simpl; lia).
        rewrite index_from_end_second in H. discriminate.
    + intros H. unfold zip_file. cbv zeta.
      destruct (export_files listdir) as [|a x] eqn:E; [reflexivity|].
      exfalso. assert (I : In a (a :: x)) by (left; reflexivity).
      apply K in I. destruct I as (Hin & middle & Heq).
      exact (H a middle Hin Heq).
  - intros name H. apply K.
    apply zip_file_cases in H.
    destruct H as [H|(older & newest & H)]; rewrite H.
    + left. reflexivity.
    + apply in_or_app. right. left. reflexivity.
Qed.


Lemma key_eqb_eq (a b : Z * string) : key_eqb a b = true <-> a = b.
Proof.
  destruct a as [d s], b as [d' s']. unfold key_eqb. simpl.
  rewrite andb_true_iff, Z.eqb_eq, String.eqb_eq. split.
  - intros [-> ->]. reflexivity.
  - intros H. inversion H. auto.
Qed.

Lemma string_ltb_trans (a b c : string) :
  String.ltb a b = true -> String.ltb b c = true -> String.ltb a c = true.
Proof.
  unfold String.ltb. intros H1 H2.
  destruct (String.compare a b) eqn:E1; try discriminate.
  destruct (String.compare b c) eqn:E2; try discriminate.
  apply OrderedTypeEx.String_as_OT.cmp_lt in E1, E2.
  pose proof (OrderedTypeEx.String_as_OT.lt_trans _ _ _ E1 E2) as E3.
  apply OrderedTypeEx.String_as_OT.cmp_lt in E3. unfold OrderedTypeEx.String_as_OT.cmp in E3.
  rewrite E3. reflexivity.
Qed.

Lemma string_ltb_irrefl (a : string) : String.ltb a a = false.
Proof.
  unfold String.ltb. destruct (String.compare a a) eqn:E; try reflexivity.
  pose proof (String.compare_antisym a a) as A. rewrite E in A. discriminate.
Qed.

Lemma string_ltb_total (a b : string) :
  String.ltb a b = false -> String.eqb a b = false -> String.ltb b a = true.
Proof.
  unfold String.ltb. intros H1 H2.
  rewrite (String.compare_antisym b a).
  destruct (String.compare a b) eqn:E; simpl; try discriminate; [|reflexivity].
  apply String.compare_eq_iff in E. subst b. rewrite String.eqb_refl in H2.
  discriminate.
Qed.

Lemma key_ltb_trans (a b c : Z * string) :
  key_ltb a b = true -> key_ltb b c = true -> key_ltb a c = true.
Proof.
  destruct a as [d1 s1], b as [d2 s2], c as [d3 s3]. unfold key_ltb. simpl.
  rewrite !orb_true_iff, !andb_true_iff, !Z.ltb_lt, !Z.eqb_eq.
  intros [H1|[H1 S1]] [H2|[H2 S2]]; try (left; lia).
  right. split; [lia | eapply string_ltb_trans; eassumption].
Qed.

Lemma key_ltb_irrefl (a : Z * string) : key_ltb a a = false.
Proof.
  destruct a as [d s]. unfold key_ltb. simpl.
  rewrite Z.ltb_irrefl, Z.eqb_refl, string_ltb_irrefl. reflexivity.
Qed.

Lemma key_ltb_total (a b : Z * string) :
  key_ltb a b = false -> key_eqb a b = false -> key_ltb b a = true.
Proof.
  destruct a as [d1 s1], b as [d2 s2]. unfold key_ltb, key_eqb. simpl.
  intros H1 H2. apply orb_false_iff in H1. destruct H1 as [H1 H3].
  apply Z.ltb_ge in H1. apply orb_true_iff.
  destruct (Z.eqb_spec d1 d2) as [->|N].
  - right. rewrite Z.eqb_refl. simpl in *.
    apply string_ltb_total; assumption.
  - left. apply Z.ltb_lt. lia.
Qed.

Lemma insert_key_In (k y : Z * string) (l : list (Z * string)) :
  In y (insert_key k l) <-> y = k \/ In y l.
Proof.
  induction l as [|x l IH]; simpl; [intuition|].
  destruct (key_ltb k x); simpl; [intuition|].
  destruct (key_eqb k x) eqn:E; simpl.
  - apply key_eqb_eq in E. subst x. intuition.
  - rewrite IH. intuition.
Qed.

Lemma insert_key_sorted (k : Z * string) (l : list (Z * string)) :
  keys_sorted l -> keys_sorted (insert_key k l).
Proof.
  unfold keys_sorted. induction 1 as [|x l Hs IH Hx]; simpl.
  - constructor; constructor.
  - destruct (key_ltb k x) eqn:L.
    + constructor; [constructor; assumption|].
      constructor; [exact L|].
      rewrite Forall_forall in *. intros y Hy.
      eapply key_ltb_trans; [exact L | apply Hx; exact Hy].
    + destruct (key_eqb k x) eqn:E; [constructor; assumption|].
      constructor; [exact IH|].
      rewrite Forall_forall in *. intros y Hy.
      apply insert_key_In in Hy. destruct Hy as [->|Hy]; [|apply Hx; exact Hy].
      apply key_ltb_total; assumption.
Qed.

Lemma group_keys_sorted (l : list (Z * string)) : keys_sorted (group_keys l).
Proof.
  induction l as [|k l IH]; simpl; [constructor|].
  apply insert_key_sorted. exact IH.
Qed.

Lemma group_keys_In (y : Z * string) (l : list (Z * string)) :
  In y (group_keys l) <-> In y l.
Proof.
  induction l as [|k l IH]; simpl; [reflexivity|].
  rewrite insert_key_In, IH. intuition.
Qed.

Lemma keys_sorted_NoDup (l : list (Z * string)) : keys_sorted l -> NoDup l.
Proof.
  induction 1 as [|x l Hs IH Hx]; constructor; [|exact IH].
  intros Hin. rewrite Forall_forall in Hx. apply Hx in Hin.
  rewrite key_ltb_irrefl in Hin. discriminate.
Qed.

Lemma sum_int_from (l : list Z) (a : Z) : fold_left Z.add l a = a + sum_int l.
Proof.
  unfold sum_int. revert a. induction l as [|x l IH]; intros a; simpl; [lia|].
  rewrite (IH (a + x)), (IH x). lia.
Qed.

Lemma sum_int_cons (x : Z) (l : list Z) : sum_int (x :: l) = x + sum_int l.
Proof. unfold sum_int at 1. simpl. apply sum_int_from. Qed.

Lemma sum_int_map_add {A : Type} (f g : A -> Z) (l : list A) :
  sum_int (map (fun k => f k + g k) l)
  = sum_int (map f l) + sum_int (map g l).
Proof.
  induction l as [|x l IH]; [reflexivity|].
  simpl map. rewrite !sum_int_cons, IH. lia.
Qed.

Lemma sum_int_no_key (a : Z * string) (v : Z) (keys : list (Z * string)) :
  ~ In a keys ->
  sum_int (map (fun k => if key_eqb a k then v else 0) keys) = 0.
Proof.
  induction keys as [|k keys IH]; intros H; [reflexivity|].
  simpl map. rewrite sum_int_cons, IH by (intros K; apply H; right; exact K).
  destruct (key_eqb a k) eqn:E; [|reflexivity].
  apply key_eqb_eq in E. subst k. exfalso. apply H. left. reflexivity.
Qed.

Lemma sum_int_one_key (a : Z * string) (v : Z) (keys : list (Z * string)) :
  NoDup keys -> In a keys ->
  sum_int (map (fun k => if key_eqb a k then v else 0) keys) = v.
Proof.
  induction 1 as [|k keys Hk Hn IH]; intros Hin; [destruct Hin|].
  simpl map. rewrite sum_int_cons.
  destruct (key_eqb a k) eqn:E.
  - apply key_eqb_eq in E. subst k. rewrite sum_int_no_key by exact Hk. lia.
  - destruct Hin as [->|Hin].
    + assert (T : key_eqb a a = true) by (apply key_eqb_eq; reflexivity).
      congruence.
    + rewrite IH by exact Hin. lia.
Qed.

Lemma map_snd_combine_all {A B : Type} (l1 : list A) (l2 : list B) :
  List.length l2 = List.length l1 -> map snd (combine l1 l2) = l2.
Proof.
  revert l2. induction l1 as [|x l1 IH]; intros l2 H.
  - destruct l2; [reflexivity | discriminate].
  - destruct l2 as [|y l2]; [discriminate|]. simpl. rewrite IH; auto.
Qed.

(** Summing by group loses and repeats nothing. *)
Lemma sum_by_keys (rows : list (Z * string * Z)) (keys : list (Z * string)) :
  NoDup keys ->
  (forall r, In r rows -> In (fst r) keys) ->
  sum_int (map (fun k => sum_int (map snd
                            (filter (fun r => key_eqb (fst r) k) rows))) keys)
  = sum_int (map snd rows).
Proof.
  intros Hn. induction rows as [|r rows IH]; intros Hin.
  - clear Hn Hin. induction keys as [|k keys IHk]; [reflexivity|].
    simpl map in *. rewrite sum_int_cons, IHk. reflexivity.
  - simpl map at 3. rewrite sum_int_cons.
    rewrite <- IH by (intros r' Hr'; apply Hin; right; exact Hr').
    rewrite <- (sum_int_one_key (fst r) (snd r) keys Hn)
      by (apply Hin; left; reflexivity).
    rewrite <- sum_int_map_add. f_equal. apply map_ext. intros k.
    simpl filter. destruct (key_eqb (fst r) k); [|lia].
    simpl map. apply sum_int_cons.
Qed.

Lemma replace_strength_never_traditional (s : string) :
  replace_strength s <> "TraditionalStrengthTraining".
Proof.
  unfold replace_strength.
  destruct (String.eqb s "TraditionalStrengthTraining") eqn:E.
  - discriminate.
  - apply String.eqb_neq. exact E.
Qed.

(** X25. On a workout table whose columns have one cell per workout, the
    durations of [raw_data_grouped] add up to the durations of all workouts;
    every row carries a day and an activity type of some workout, and no
    row is labelled TraditionalStrengthTraining. *)
Theorem grouped_workouts_keep_every_minute (df2 : WorkoutFrame) :
  List.length (nw_end_date df2)
  = List.length (nw_workout_activity_type df2) ->
  List.length (nw_duration df2)
  = List.length (nw_workout_activity_type df2) ->
  sum_int (map g_duration (raw_data_grouped df2)) = sum_int (nw_duration df2)
  /\ forall row, In row (raw_data_grouped df2) ->
       g_workout_activity_type row <> "TraditionalStrengthTraining" /\
       In (g_end_date row) (nw_end_date df2) /\
       exists workout_activity_type,
         In workout_activity_type (nw_workout_activity_type df2) /\
         g_workout_activity_type row = replace_strength workout_activity_type.
Proof.
  intros L1 L2. unfold raw_data_grouped. cbv zeta.
  set (rows := combine (combine (nw_end_date df2)
                          (nw_workout_activity_type df2)) (nw_duration df2)).
  split.
  - rewrite map_map. cbn [g_duration].
    rewrite sum_by_keys.
    + unfold rows. f_equal. apply map_snd_combine_all.
      rewrite length_combine, L1, Nat.min_id. exact L2.
    + apply keys_sorted_NoDup, group_keys_sorted.
    + intros r Hr. apply group_keys_In. apply in_map. exact Hr.
  - intros row Hrow. apply in_map_iff in Hrow.
    destruct Hrow as (k & <- & Hk). cbn [g_workout_activity_type g_end_date].
    split; [apply replace_strength_never_traditional|].
    apply (proj1 (group_keys_In _ _)) in Hk. apply in_map_iff in Hk.
    destruct Hk as (r & <- & Hr). unfold rows in Hr.
    destruct r as [[d ty] v]. apply in_combine_l in Hr.
    pose proof (in_combine_l _ _ _ _ Hr) as Hd.
    pose proof (in_combine_r _ _ _ _ Hr) as Ht.
    simpl. split; [exact Hd|]. exists ty. split; [exact Ht | reflexivity].
Qed.

Lemma grouped_workouts_keep_every_minute_witness :
  sum_int (map g_duration (raw_data_grouped week_workouts))
  = sum_int (nw_duration week_workouts).
Proof.
  apply (grouped_workouts_keep_every_minute week_workouts);
    reflexivity.
Defined.

(* ================================================================== *)
(** ** The weekly sleep summary *)

Lemma insert_value_In (x y : Q) (l : list Q) :
  In y (insert_value x l) <-> y = x \/ In y l.
Proof.
  induction l as [|a l IH]; simpl.
  - intuition.
  - destruct (Qle_bool x a); simpl; [intuition|]. rewrite IH. intuition.
Qed.

Lemma sort_values_In (y : Q) (l : list Q) : In y (sort_values l) <-> In y l.
Proof.
  induction l as [|a l IH]; simpl; [reflexivity|].
  rewrite insert_value_In, IH. intuition.
Qed.

Lemma length_insert_value (x : Q) (l : list Q) :
  List.length (insert_value x l) = S (List.length l).
Proof.
  induction l as [|a l IH]; simpl; [reflexivity|].
  destruct (Qle_bool x a); simpl; [reflexivity | rewrite IH; reflexivity].
Qed.

Lemma length_sort_values (l : list Q) :
  List.length (sort_values l) = List.length l.
Proof.
  induction l as [|a l IH]; simpl; [reflexivity|].
  rewrite length_insert_value, IH. reflexivity.
Qed.

Lemma insert_value_sorted (x : Q) (l : list Q) :
  StronglySorted Qle l -> StronglySorted Qle (insert_value x l).
Proof.
  induction 1 as [|a l Hs IH Ha]; simpl.
  - constructor; constructor.
  - destruct (Qle_bool x a) eqn:E.
    + apply Qle_bool_iff in E. constructor; [constructor; assumption|].
      constructor; [assumption|].
      apply (Forall_impl _ (P := Qle a)); [|assumption].
      intros b Hb. apply Qle_trans with a; assumption.
    + assert (L : (a <= x)%Q).
      { destruct (Qlt_le_dec a x) as [L|L]; [apply Qlt_le_weak; exact L|].
        apply Qle_bool_iff in L. congruence. }
      constructor; [assumption|].
      apply Forall_forall. intros y Hy. apply insert_value_In in Hy.
      destruct Hy as [->|Hy]; [exact L|].
      rewrite Forall_forall in Ha. apply Ha. exact Hy.
Qed.

Lemma sort_values_sorted (l : list Q) : StronglySorted Qle (sort_values l).
Proof.
  induction l as [|a l IH]; simpl; [constructor|].
  apply insert_value_sorted. exact IH.
Qed.

Lemma sorted_values_nth_le (s : list Q) :
  StronglySorted Qle s ->
  forall i j : nat, (i <= j < List.length s)%nat ->
    (nth i s 0 <= nth j s 0)%Q.
Proof.
  induction 1 as [|a l Hs IH Ha]; intros i j Hij; simpl in Hij; [lia|].
  destruct j as [|j].
  - replace i with 0%nat by lia. simpl. apply Qle_refl.
  - destruct i as [|i]; simpl.
    + rewrite Forall_forall in Ha. apply Ha. apply nth_In. lia.
    + apply IH. lia.
Qed.

Lemma value_rank_le (s : list Q) (i j : Z) :
  StronglySorted Qle s ->
  0 <= i <= j -> j < Z.of_nat (List.length s) ->
  (value_rank s i <= value_rank s j)%Q.
Proof.
  intros Hs Hij Hj. unfold value_rank.
  apply sorted_values_nth_le; [exact Hs | lia].
Qed.

Lemma value_rank_In (s : list Q) (i : Z) :
  0 <= i < Z.of_nat (List.length s) -> In (value_rank s i) s.
Proof. intros H. unfold value_rank. apply nth_In. lia. Qed.

Lemma fold_value_min (l : list Q) (a : Q) :
  let m := fold_left (fun m v => if Qle_bool v m then v else m) l a in
  (m = a \/ In m l) /\ (m <= a)%Q /\ forall y, In y l -> (m <= y)%Q.
Proof.
  revert a. induction l as [|b l IH]; intros a; cbv zeta; simpl.
  - split; [left; reflexivity|]. split; [apply Qle_refl | intros y []].
  - destruct (IH (if Qle_bool b a then b else a)) as (H1 & H2 & H3).
    cbv zeta in H1, H2, H3.
    set (m := fold_left _ l _) in *.
    assert (C : ((if Qle_bool b a then b else a) <= a
                 /\ (if Qle_bool b a then b else a) <= b)%Q).
    { destruct (Qle_bool b a) eqn:E.
      - apply Qle_bool_iff in E. split; [exact E | apply Qle_refl].
      - split; [apply Qle_refl|].
        destruct (Qlt_le_dec a b) as [L|L]; [apply Qlt_le_weak; exact L|].
        apply Qle_bool_iff in L. congruence. }
    destruct C as [C1 C2].
    split; [|split].
    + destruct H1 as [H1|H1]; [|right; right; exact H1].
      rewrite H1. destruct (Qle_bool b a); [right; left; reflexivity|].
      left. reflexivity.
    + apply Qle_trans with (1 := H2). exact C1.
    + intros y [<-|Hy]; [apply Qle_trans with (1 := H2); exact C2|].
      apply H3. exact Hy.
Qed.

Lemma fold_value_max (l : list Q) (a : Q) :
  let m := fold_left (fun m v => if Qle_bool m v then v else m) l a in
  (m = a \/ In m l) /\ (a <= m)%Q /\ forall y, In y l -> (y <= m)%Q.
Proof.
  revert a. induction l as [|b l IH]; intros a; cbv zeta; simpl.
  - split; [left; reflexivity|]. split; [apply Qle_refl | intros y []].
  - destruct (IH (if Qle_bool a b then b else a)) as (H1 & H2 & H3).
    cbv zeta in H1, H2, H3.
    set (m := fold_left _ l _) in *.
    assert (C : (a <= (if Qle_bool a b then b else a)
                 /\ b <= (if Qle_bool a b then b else a))%Q).
    { destruct (Qle_bool a b) eqn:E.
      - apply Qle_bool_iff in E. split; [exact E | apply Qle_refl].
      - split; [apply Qle_refl|].
        destruct (Qlt_le_dec b a) as [L|L]; [apply Qlt_le_weak; exact L|].
        apply Qle_bool_iff in L. congruence. }
    destruct C as [C1 C2].
    split; [|split].
    + destruct H1 as [H1|H1]; [|right; right; exact H1].
      rewrite H1. destruct (Qle_bool a b); [right; left; reflexivity|].
      left. reflexivity.
    + apply Qle_trans with (2 := H2). exact C1.
    + intros y [<-|Hy]; [apply Qle_trans with (2 := H2); exact C2|].
      apply H3. exact Hy.
Qed.

Lemma value_min_spec (x : list Q) :
  x <> [] ->
  In (value_min x) x /\ forall y, In y x -> (value_min x <= y)%Q.
Proof.
  destruct x as [|a x]; [congruence|]. intros _. simpl.
  destruct (fold_value_min x a) as (H1 & H2 & H3). cbv zeta in H1, H2, H3.
  split.
  - destruct H1 as [H1|H1]; [left; symmetry; exact H1 | right; exact H1].
  - intros y [<-|Hy]; [exact H2 | apply H3; exact Hy].
Qed.

Lemma value_max_spec (x : list Q) :
  x <> [] ->
  In (value_max x) x /\ forall y, In y x -> (y <= value_max x)%Q.
Proof.
  destruct x as [|a x]; [congruence|]. intros _. simpl.
  destruct (fold_value_max x a) as (H1 & H2 & H3). cbv zeta in H1, H2, H3.
  split.
  - destruct H1 as [H1|H1]; [left; symmetry; exact H1 | right; exact H1].
  - intros y [<-|Hy]; [exact H2 | apply H3; exact Hy].
Qed.

Lemma value_lerp_bounds (s : list Q) (pos : Q) :
  StronglySorted Qle s ->
  (0 <= pos)%Q -> (pos <= inject_Z (Z.of_nat (List.length s) - 1))%Q ->
  let lo := Qfloor pos in
  let hi := Z.min (lo + 1) (Z.of_nat (List.length s) - 1) in
  0 <= lo <= hi /\ hi < Z.of_nat (List.length s) /\
  (value_rank s lo <= value_lerp s pos)%Q /\
  (value_lerp s pos <= value_rank s hi)%Q.
Proof.
  intros Hs H0 Hn lo hi.
  assert (Hlo0 : 0 <= lo).
  { apply Qfloor_resp_le in H0. exact H0. }
  assert (Hlon : lo <= Z.of_nat (List.length s) - 1).
  { apply Qfloor_resp_le in Hn. rewrite Qfloor_Z in Hn. exact Hn. }
  assert (Hhi : lo <= hi) by (unfold hi; lia).
  assert (Hhn : hi < Z.of_nat (List.length s)) by (unfold hi; lia).
  split; [lia|]. split; [exact Hhn|].
  assert (Hr : (value_rank s lo <= value_rank s hi)%Q).
  { apply value_rank_le; [exact Hs | lia | lia]. }
  pose proof (Qfloor_le pos) as Hf1. pose proof (Qlt_floor pos) as Hf2.
  fold lo in Hf1, Hf2. rewrite inject_Z_plus in Hf2.
  unfold value_lerp. fold lo. fold hi.
  set (a := value_rank s lo) in *. set (b := value_rank s hi) in *.
  set (l := inject_Z lo) in *.
  change (inject_Z 1) with 1%Q in Hf2.
  split; nra.
Qed.

Lemma value_lerp_monotone (s : list Q) (p1 p2 : Q) :
  StronglySorted Qle s ->
  (0 <= p1)%Q -> (p1 <= p2)%Q ->
  (p2 <= inject_Z (Z.of_nat (List.length s) - 1))%Q ->
  (value_lerp s p1 <= value_lerp s p2)%Q.
Proof.
  intros Hs H0 H12 Hn.
  assert (H1n : (p1 <= inject_Z (Z.of_nat (List.length s) - 1))%Q) by lra.
  assert (H02 : (0 <= p2)%Q) by lra.
  destruct (value_lerp_bounds s p1 Hs H0 H1n) as (Hl1 & Hh1 & Hlo1 & Hhi1).
  destruct (value_lerp_bounds s p2 Hs H02 Hn) as (Hl2 & Hh2 & Hlo2 & Hhi2).
  pose proof (Qfloor_resp_le _ _ H12) as Hfl.
  destruct (Z.eq_dec (Qfloor p1) (Qfloor p2)) as [E|NE].
  - unfold value_lerp. rewrite <- E.
    set (lo := Qfloor p1) in *.
    set (hi := Z.min (lo + 1) (Z.of_nat (List.length s) - 1)) in *.
    assert (Hr : (value_rank s lo <= value_rank s hi)%Q).
    { apply value_rank_le; [exact Hs | lia | lia]. }
    set (a := value_rank s lo) in *. set (b := value_rank s hi) in *.
    nra.
  - apply Qle_trans with (1 := Hhi1). apply Qle_trans with (2 := Hlo2).
    apply value_rank_le; [exact Hs | lia | lia].
Qed.

Lemma value_median_is_the_half_quantile (x : list Q) :
  x <> [] -> (value_median x == value_quantile x (1 # 2))%Q.
Proof.
  intros Hx. unfold value_median, value_quantile, value_lerp.
  set (s := sort_values x).
  assert (Hn : 1 <= Z.of_nat (List.length s)).
  { unfold s. rewrite length_sort_values.
    destruct x; [contradiction | simpl; lia]. }
  set (n := Z.of_nat (List.length s)) in *. clearbody n.
  rewrite Qfloor_half.
  destruct (Z.odd n) eqn:Eodd.
  - apply Z.odd_spec in Eodd. destruct Eodd as [k Hk].
    replace (n / 2) with k by (Z.to_euclidean_division_equations; lia).
    replace ((n - 1) / 2) with k by (Z.to_euclidean_division_equations; lia).
    replace (n - 1) with (2 * k) by lia.
    rewrite inject_Z_mult. change (inject_Z 2) with 2%Q. ring.
  - assert (Heven : Z.even n = true).
    { rewrite <- Z.negb_odd, Eodd. reflexivity. }
    apply Z.even_spec in Heven. destruct Heven as [k Hk].
    replace (n / 2) with k by (Z.to_euclidean_division_equations; lia).
    replace ((n - 1) / 2) with (k - 1)
      by (Z.to_euclidean_division_equations; lia).
    replace (Z.min (k - 1 + 1) (n - 1)) with k by lia.
    replace (n - 1) with (2 * k - 1) by lia.
    unfold Z.sub. rewrite !inject_Z_plus, inject_Z_mult.
    change (inject_Z 2) with 2%Q. change (inject_Z (- (1))) with (-1)%Q.
    field.
Qed.

Lemma value_summary_monotonic (x : list Q) :
  x <> [] ->
  monotonic {| Min := value_min x;
               Q1 := value_quantile x (1 # 4);
               Median := value_median x;
               Q3 := value_quantile x (3 # 4);
               Max := value_max x |}.
Proof.
  intros Hx. unfold monotonic. simpl.
  rewrite (value_median_is_the_half_quantile x Hx).
  unfold value_quantile.
  pose proof (sort_values_sorted x) as Hs.
  set (s := sort_values x) in *.
  assert (Hn : 1 <= Z.of_nat (List.length s)).
  { unfold s. rewrite length_sort_values.
    destruct x; [contradiction | simpl; lia]. }
  set (M := inject_Z (Z.of_nat (List.length s) - 1)).
  assert (HM : (0 <= M)%Q).
  { unfold M. change 0%Q with (inject_Z 0). rewrite <- Zle_Qle. lia. }
  assert (B1 : (0 <= (1 # 4) * M)%Q) by lra.
  assert (B1' : ((1 # 4) * M <= M)%Q) by lra.
  assert (B3 : (0 <= (3 # 4) * M)%Q) by lra.
  assert (B3' : ((3 # 4) * M <= M)%Q) by lra.
  destruct (value_lerp_bounds s _ Hs B1 B1') as (Hl1 & Hh1 & Hlo1 & _).
  destruct (value_lerp_bounds s _ Hs B3 B3') as (Hl3 & Hh3 & _ & Hhi3).
  destruct (value_min_spec x Hx) as [_ Hmin].
  destruct (value_max_spec x Hx) as [_ Hmax].
  split; [|split; [|split]].
  - apply Qle_trans with (2 := Hlo1).
    apply Hmin. apply (sort_values_In _ x). apply value_rank_In. fold s. lia.
  - apply value_lerp_monotone; [exact Hs | lra | lra | fold M; lra].
  - apply value_lerp_monotone; [exact Hs | lra | lra | fold M; lra].
  - apply Qle_trans with (1 := Hhi3).
    apply Hmax. apply (sort_values_In _ x). apply value_rank_In. fold s. lia.
Qed.

Lemma map_fst_combine_all {A B : Type} (l1 : list A) (l2 : list B) :
  List.length l2 = List.length l1 -> map fst (combine l1 l2) = l1.
Proof.
  revert l2. induction l1 as [|x l1 IH]; intros l2 H.
  - reflexivity.
  - destruct l2 as [|y l2]; [discriminate|]. simpl. rewrite IH; auto.
Qed.

Lemma sleep_dist_weeks (df_final : DailyFact) :
  map sb_WeekEndingDate (sleep_dist df_final)
  = filter (fun w => w >? days_from_civil 2024 11 17)
      (np_unique (map fst (sleep_nights df_final))).
Proof.
  unfold sleep_dist. cbv zeta.
  induction (np_unique (map fst (sleep_nights df_final))) as [|w l IH];
    [reflexivity|].
  cbn [map filter sb_WeekEndingDate].
  destruct (w >? days_from_civil 2024 11 17); cbn [map sb_WeekEndingDate];
    rewrite IH; reflexivity.
Qed.

Lemma sleep_dist_row (df_final : DailyFact) (row : SleepBoxplot) :
  In row (sleep_dist df_final) ->
  sb_summary row
  = value_agg (nights_of_week df_final (sb_WeekEndingDate row)).
Proof.
  unfold sleep_dist. cbv zeta. intros H. apply filter_In in H.
  destruct H as [H _]. apply in_map_iff in H. destruct H as (w & <- & _).
  reflexivity.
Qed.

(** X29. The weekly sleep summary has one row per week, the weeks
    ascending; a week has a row exactly when it ends on a Sunday after
    2024-11-17 and some day of the daily table falls in the seven days that
    it ends. *)
Theorem sleep_boxplot_weeks (df_final : DailyFact) :
  List.length (TotalSleepHours df_final) = List.length (EndDate df_final) ->
  StronglySorted Z.lt (map sb_WeekEndingDate (sleep_dist df_final)) /\
  forall w : Z,
    In w (map sb_WeekEndingDate (sleep_dist df_final))
    <-> days_from_civil 2024 11 17 < w /\
        date_weekday w = 6 /\
        exists d, In d (EndDate df_final) /\ d <= w <= d + 6.
Proof.
  intros L. rewrite sleep_dist_weeks. split.
  - apply StronglySorted_filter, np_unique_sorted.
  - intros w. rewrite filter_In, np_unique_In. unfold sleep_nights.
    rewrite map_fst_combine_all by (rewrite length_map; exact L).
    rewrite in_map_iff, Z.gtb_ltb, Z.ltb_lt. split.
    + intros [(d & <- & Hd) Hw]. split; [exact Hw|].
      split; [apply week_end_is_a_sunday|].
      exists d. split; [exact Hd|]. unfold sleep_week.
      pose proof (date_weekday_range d). lia.
    + intros (Hw & Hs & d & Hd & Hr). split; [|exact Hw].
      exists d. split; [|exact Hd]. unfold sleep_week.
      unfold date_weekday in *. Z.to_euclidean_division_equations; lia.
Qed.

Lemma sleep_boxplot_weeks_witness :
  StronglySorted Z.lt (map sb_WeekEndingDate (sleep_dist autumn_fact)) /\
  forall w : Z,
    In w (map sb_WeekEndingDate (sleep_dist autumn_fact))
    <-> days_from_civil 2024 11 17 < w /\
        date_weekday w = 6 /\
        exists d, In d (EndDate autumn_fact) /\ d <= w <= d + 6.
Proof. exact (sleep_boxplot_weeks autumn_fact eq_refl). Defined.

(** X30. In a row of the weekly sleep summary the five numbers are missing
    exactly when no night of the week has a [TotalSleepHours]; otherwise the
    missing nights are left out, Min <= Q1 <= Median <= Q3 <= Max, and Min
    and Max are the least and the greatest [TotalSleepHours] of the
    week. *)
Theorem sleep_boxplot_summary (df_final : DailyFact) (row : SleepBoxplot) :
  In row (sleep_dist df_final) ->
  let nights := dropna (nights_of_week df_final (sb_WeekEndingDate row)) in
  match sb_summary row with
  | None => nights = []
  | Some f =>
      monotonic f /\ In (Min f) nights /\ In (Max f) nights /\
      forall v, In v nights -> (Min f <= v)%Q /\ (v <= Max f)%Q
  end.
Proof.
  intros H. cbv zeta. rewrite (sleep_dist_row _ _ H). unfold value_agg.
  destruct (dropna (nights_of_week df_final (sb_WeekEndingDate row)))
    as [|v vs] eqn:E; [reflexivity|].
  assert (Hx : v :: vs <> []) by discriminate.
  destruct (value_min_spec _ Hx) as [I1 L1].
  destruct (value_max_spec _ Hx) as [I2 L2].
  split; [apply value_summary_monotonic; exact Hx|].
  cbn [Min Max]. split; [exact I1|]. split; [exact I2|].
  intros y Hy. split; [apply L1 | apply L2]; exact Hy.
Qed.

Lemma sleep_boxplot_summary_witness :
  sb_WeekEndingDate autumn_week = days_from_civil 2024 11 24 /\
  let nights :=
    dropna (nights_of_week autumn_fact (sb_WeekEndingDate autumn_week)) in
  match sb_summary autumn_week with
  | None => nights = []
  | Some f =>
      monotonic f /\ In (Min f) nights /\ In (Max f) nights /\
      forall v, In v nights -> (Min f <= v)%Q /\ (v <= Max f)%Q
  end.
Proof.
  split; [reflexivity|].
  apply (sleep_boxplot_summary autumn_fact autumn_week).
  vm_compute. left. reflexivity.
Defined.

(* ================================================================== *)
(** ** The configuration *)

Lemma json_get_in (members : list (string * Json)) (key : string) :
  existsb (String.eqb key) (map fst members) = true ->
  exists v, json_get members key = Some v /\ In (key, v) members.
Proof.
  unfold json_get. induction members as [|[k v] members IH]; simpl;
    [discriminate|].
  rewrite (String.eqb_sym key k). destruct (String.eqb k key) eqn:E.
  - intros _. apply String.eqb_eq in E. subst k. exists v. simpl. auto.
  - simpl. intros H. destruct (IH H) as (v' & Hv & Hin).
    exists v'. auto.
Qed.

Lemma load_config_loaded (file : option (option Json)) (config : Json) :
  load_config file = Loaded config ->
  file = Some (Some config)
  /\ missing_from config required_sections = Some [].
Proof.
  unfold load_config. destruct file as [[c|]|]; try discriminate.
  destruct (missing_from c required_sections) as [[|s m]|] eqn:E;
    try discriminate.
  intros H. inversion H; subst c. auto.
Qed.

Lemma missing_from_none (config : Json) (sections : list string) :
  missing_from config sections = Some [] ->
  forall section, In section sections -> json_in section config = Some true.
Proof.
  induction sections as [|s sections IH]; simpl; [intros _ ? []|].
  destruct (json_in s config) as [present|] eqn:E; [|discriminate].
  destruct (missing_from config sections) as [missing|]; [|discriminate].
  destruct present; [|discriminate]. intros H. inversion H; subst missing.
  intros section [<-|Hin]; [exact E | apply IH; auto].
Qed.

(** X26. A JSON object that [load_config] returns has the four required
    sections, so [get_bigquery_config] returns its project, dataset and
    tables without raising, and [get_paths_config] returns its PATHS
    exactly when they contain [downloads]. *)
Theorem loaded_object_has_every_section (file : option (option Json))
  (members : list (string * Json)) :
  load_config file = Loaded (JObject members) ->
  exists project dataset bq_tables paths,
    In ("BQ_PROJECT", project) members /\
    In ("BQ_DATASET", dataset) members /\
    In ("BQ_TABLES", bq_tables) members /\
    In ("PATHS", paths) members /\
    get_bigquery_config (JObject members)
      = Loaded {| project_id := project;
                  dataset_id := dataset;
                  tables := bq_tables |} /\
    get_paths_config (JObject members)
      = match json_in "downloads" paths with
        | Some true => Loaded paths
        | Some false => Failed (ConfigError MissingDownloads)
        | None => Failed UncaughtTypeError
        end.
Proof.
  intros H. apply load_config_loaded in H. destruct H as [_ H].
  pose proof (missing_from_none _ _ H) as K.
  assert (G : forall section, In section required_sections ->
                exists v, json_get members section = Some v
                          /\ In (section, v) members).
  { intros section Hs. apply json_get_in. specialize (K section Hs).
    simpl in K. inversion K. reflexivity. }
  destruct (G "BQ_PROJECT") as (project & P1 & P2);
    [unfold required_sections; simpl; tauto|].
  destruct (G "BQ_DATASET") as (dataset & D1 & D2);
    [unfold required_sections; simpl; tauto|].
  destruct (G "BQ_TABLES") as (bq_tables & T1 & T2);
    [unfold required_sections; simpl; tauto|].
  destruct (G "PATHS") as (paths & A1 & A2);
    [unfold required_sections; simpl; tauto|].
  exists project, dataset, bq_tables, paths.
  repeat (split; [assumption|]).
  unfold get_bigquery_config, get_paths_config, config_getitem.
  rewrite P1, D1, T1, A1. split; [reflexivity|].
  destruct (json_in "downloads" paths) as [[|]|]; reflexivity.
Qed.

Lemma loaded_object_has_every_section_witness :
  exists project dataset bq_tables paths,
    In ("BQ_PROJECT", project) sample_members /\
    In ("BQ_DATASET", dataset) sample_members /\
    In ("BQ_TABLES", bq_tables) sample_members /\
    In ("PATHS", paths) sample_members /\
    get_bigquery_config sample_config
      = Loaded {| project_id := project;
                  dataset_id := dataset;
                  tables := bq_tables |} /\
    get_paths_config sample_config
      = match json_in "downloads" paths with
        | Some true => Loaded paths
        | Some false => Failed (ConfigError MissingDownloads)
        | None => Failed UncaughtTypeError
        end.
Proof.
  exact (loaded_object_has_every_section (Some (Some sample_config))
           sample_members eq_refl).
Defined.

(** X27. [load_config] only tests membership: a configuration that it
    returns and that is no JSON object is a list or a text, and both
    [get_bigquery_config] and [get_paths_config] then leave with a TypeError
    that they do not turn into a ConfigError. *)
Theorem loaded_config_that_is_no_object (file : option (option Json))
  (config : Json) :
  load_config file = Loaded config ->
  (forall members, config <> JObject members) ->
  ((exists items, config = JArray items) \/ (exists s, config = JString s)) /\
  get_bigquery_config config = Failed UncaughtTypeError /\
  get_paths_config config = Failed UncaughtTypeError.
Proof.
  intros H Hno. apply load_config_loaded in H. destruct H as [_ H].
  pose proof (missing_from_none _ _ H "PATHS") as K.
  assert (P : json_in "PATHS" config = Some true).
  { apply K. unfold required_sections. simpl. tauto. }
  destruct config as [| b | n | s | items | members];
    try discriminate.
  - split; [right; exists s; reflexivity | split; reflexivity].
  - split; [left; exists items; reflexivity | split; reflexivity].
  - exfalso. apply (Hno members). reflexivity.
Qed.

Lemma loaded_config_that_is_no_object_witness :
  ((exists items, sample_list_config = JArray items)
   \/ (exists s, sample_list_config = JString s)) /\
  get_bigquery_config sample_list_config = Failed UncaughtTypeError /\
  get_paths_config sample_list_config = Failed UncaughtTypeError.
Proof.
  apply (loaded_config_that_is_no_object (Some (Some sample_list_config))).
  - reflexivity.
  - intros members. discriminate.
Defined.
